(** * The llc code generator driver (tools/llc/llc.cpp)

    A shallow embedding of the driver: the helpers [GetFileNameRoot] and
    [GetOutputStream], the metadata writer [WriteTextMetadataFile] and the
    entry point [llc_main], as compiled for a host build (neither
    [__native_client__] nor [NACL_SRPC] defined, assertions enabled).

    The driver is glue around the code generation library.  Everything it
    calls but does not define (the IR reader, the target registry, the pass
    managers, [tool_output_file], [SubtargetFeatures], the stub maker) is
    either a field of the environment record [Env] or a definition whose
    comment says what it was modelled from.  Effects (the diagnostic
    stream, the files on disk, standard output, the order of the calls) are
    threaded through a state-and-exit monad over [World]. *)

From Stdlib Require Import ZArith Ascii String List Bool Lia.
From stdpp Require Import base option list strings gmap.

Open Scope string_scope.
Open Scope list_scope.

(** ** Characters and strings *)

(** [s[i]] on a [std::string] or on a NUL-terminated [const char *]: the
    character at [i], and the terminating NUL at [i = length]. *)
Definition char_at (s : string) (i : nat) : ascii :=
  match String.get i s with
  | Some c => c
  | None => Ascii.zero
  end.

(** The value an [int] receives from a [size_t]: reduced modulo [2^32] into
    the signed range. *)
Definition int_of_size (n : nat) : Z :=
  ((Z.of_nat n + 2 ^ 31) mod 2 ^ 32 - 2 ^ 31)%Z.

(** A string a [const char *] can denote: no NUL inside. *)
Fixpoint no_nul (s : string) : bool :=
  match s with
  | EmptyString => true
  | String c s' => negb (Ascii.eqb c Ascii.zero) && no_nul s'
  end.

(** ** Command line options

    The [cl::opt] globals of llc.cpp and those of CodeGen/CommandFlags.h
    that [llc_main] reads, with their [cl::init] defaults in
    [default_options]. *)

Inductive CodeGenFileType :=
| CGFT_AssemblyFile
| CGFT_ObjectFile
| CGFT_Null.

Inductive CodeGenOpt_Level :=
| CodeGenOpt_None
| CodeGenOpt_Less
| CodeGenOpt_Default
| CodeGenOpt_Aggressive.

Inductive FloatABI_ABIType := FloatABI_Default | FloatABI_Soft | FloatABI_Hard.

Inductive FPOpFusionMode := FPOpFusion_Fast | FPOpFusion_Standard | FPOpFusion_Strict.

Inductive Reloc_Model := Reloc_Default | Reloc_Static | Reloc_PIC | Reloc_DynamicNoPIC.

Inductive CodeModel_Model :=
| CodeModel_Default
| CodeModel_JITDefault
| CodeModel_Small
| CodeModel_Kernel
| CodeModel_Medium
| CodeModel_Large.

(** [Triple::OSType]; only [Win32] is told apart by the driver. *)
Inductive OSType :=
| UnknownOS
| Cygwin
| Darwin
| FreeBSD
| IOS
| Linux
| MacOSX
| MinGW32
| NetBSD
| OpenBSD
| Solaris
| Win32
| NativeClient.

#[global] Instance OSType_eq_dec : EqDecision OSType.
Proof. solve_decision. Defined.

Record Options := {
  InputFilename : string;
  OutputFilename : string;
  MetadataTextFilename : string;
  OptLevel : ascii;
  TargetTriple : string;
  NoVerify : bool;
  DisableSimplifyLibCalls : bool;
  LazyBitcode : bool;
  ReduceMemoryFootprint : bool;
  (* CodeGen/CommandFlags.h *)
  MArch : string;
  MCPU : string;
  MAttrs : list string;
  RelocModel : Reloc_Model;
  CMModel : CodeModel_Model;
  RelaxAll : bool;
  FileType : CodeGenFileType;
  DisableDotLoc : bool;
  DisableCFI : bool;
  EnableDwarfDirectory : bool;
  DisableFPElim : bool;
  DisableFPElimNonLeaf : bool;
  EnableUnsafeFPMath : bool;
  EnableNoInfsFPMath : bool;
  EnableNoNaNsFPMath : bool;
  EnableHonorSignDependentRoundingFPMath : bool;
  GenerateSoftFloatCalls : bool;
  FloatABIForCalls : FloatABI_ABIType;
  FuseFPOps : FPOpFusionMode;
  DontPlaceZerosInBSS : bool;
  EnableGuaranteedTailCallOpt : bool;
  DisableTailCalls : bool;
  OverrideStackAlignment : nat;
  EnableRealignStack : bool;
  TrapFuncName : string;
  EnablePIE : bool;
  SegmentedStacks : bool;
  UseInitArray : bool;
  SSPBufferSize : nat;
  EnableFPMAD : bool;
  StartAfter : string;
  StopAfter : string
}.

Definition default_options : Options := {|
  InputFilename := "-";
  OutputFilename := "";
  MetadataTextFilename := "";
  OptLevel := " "%char;
  TargetTriple := "";
  NoVerify := false;
  DisableSimplifyLibCalls := false;
  LazyBitcode := false;
  ReduceMemoryFootprint := false;
  MArch := "";
  MCPU := "";
  MAttrs := [];
  RelocModel := Reloc_Default;
  CMModel := CodeModel_Default;
  RelaxAll := false;
  FileType := CGFT_AssemblyFile;
  DisableDotLoc := false;
  DisableCFI := false;
  EnableDwarfDirectory := false;
  DisableFPElim := false;
  DisableFPElimNonLeaf := false;
  EnableUnsafeFPMath := false;
  EnableNoInfsFPMath := false;
  EnableNoNaNsFPMath := false;
  EnableHonorSignDependentRoundingFPMath := false;
  GenerateSoftFloatCalls := false;
  FloatABIForCalls := FloatABI_Default;
  FuseFPOps := FPOpFusion_Standard;
  DontPlaceZerosInBSS := false;
  EnableGuaranteedTailCallOpt := false;
  DisableTailCalls := false;
  OverrideStackAlignment := 0;
  EnableRealignStack := true;
  TrapFuncName := "";
  EnablePIE := false;
  SegmentedStacks := false;
  UseInitArray := false;
  SSPBufferSize := 8;
  EnableFPMAD := false;
  StartAfter := "";
  StopAfter := ""
|}.

(** ** Output naming (llc.cpp, lines 130-191) *)

(** [GetFileNameRoot]: the input name without a final [.bc] or [.ll]. *)
Definition GetFileNameRoot (InputFilename : string) : string :=
  let IFN := InputFilename in
  let Len := int_of_size (String.length IFN) in
  if (2 <? Len)%Z
     && Ascii.eqb (char_at IFN (Z.to_nat (Len - 3))) "."
     && ((Ascii.eqb (char_at IFN (Z.to_nat (Len - 2))) "b"
          && Ascii.eqb (char_at IFN (Z.to_nat (Len - 1))) "c")
         || (Ascii.eqb (char_at IFN (Z.to_nat (Len - 2))) "l"
             && Ascii.eqb (char_at IFN (Z.to_nat (Len - 1))) "l"))
  then substring 0 (String.length IFN - 3) IFN
  else IFN.

(** The extension [GetOutputStream] appends (the [switch (FileType)] of
    lines 157-178). *)
Definition output_extension
    (ft : CodeGenFileType) (TargetName : string) (OS : OSType) : string :=
  match ft with
  | CGFT_AssemblyFile =>
      if Ascii.eqb (char_at TargetName 0) "c" then
        if Ascii.eqb (char_at TargetName 1) Ascii.zero then ".cbe.c"
        else if Ascii.eqb (char_at TargetName 1) "p"
                && Ascii.eqb (char_at TargetName 2) "p" then ".cpp"
        else ".s"
      else ".s"
  | CGFT_ObjectFile =>
      match OS with
      | Win32 => ".obj"
      | _ => ".o"
      end
  | CGFT_Null => ".null"
  end.

(** The value [GetOutputStream] leaves in the global [OutputFilename]
    (lines 150-180); ["-"] is the name [tool_output_file] reads as
    standard output. *)
Definition resolved_OutputFilename
    (o : Options) (TargetName : string) (OS : OSType) : string :=
  if String.eqb (OutputFilename o) "" then
    if String.eqb (InputFilename o) "-" then "-"
    else GetFileNameRoot (InputFilename o)
         +:+ output_extension (FileType o) TargetName OS
  else OutputFilename o.

(** The [Binary] flag of lines 182-191. *)
Definition Binary (ft : CodeGenFileType) : bool :=
  match ft with
  | CGFT_AssemblyFile => false
  | CGFT_ObjectFile => true
  | CGFT_Null => true
  end.

(** ** Optimization level (lines 394-404) *)

(** The [switch (OptLevel)]: [None] is the [default:] branch, which prints
    "invalid optimization level" and returns 1. *)
Definition OLvl_of (OptLevel : ascii) : option CodeGenOpt_Level :=
  if Ascii.eqb OptLevel " " then Some CodeGenOpt_Default
  else if Ascii.eqb OptLevel "0" then Some CodeGenOpt_None
  else if Ascii.eqb OptLevel "1" then Some CodeGenOpt_Less
  else if Ascii.eqb OptLevel "2" then Some CodeGenOpt_Default
  else if Ascii.eqb OptLevel "3" then Some CodeGenOpt_Aggressive
  else None.

(** ** Subtarget features *)

(** Modelled from the spec: class [SubtargetFeatures]
    (llvm/MC/SubtargetFeature.h) is used by llc.cpp and not defined in it.
    Section 4.1: "begin from the target's platform-appropriate default
    feature set, then apply user-specified feature toggles in the order
    given".  The object is the sequence of toggles in the order they were
    added, each carrying its [+] or [-] flag. *)
Definition SubtargetFeatures := list string.

Definition hasFlag (Feature : string) : bool :=
  Ascii.eqb (char_at Feature 0) "+" || Ascii.eqb (char_at Feature 0) "-".

Definition StripFlag (Feature : string) : string :=
  if hasFlag Feature then substring 1 (String.length Feature - 1) Feature
  else Feature.

Definition isEnabled (Feature : string) : bool :=
  negb (Ascii.eqb (char_at Feature 0) "-").

Definition PrependFlag (Feature : string) (IsEnabled : bool) : string :=
  if hasFlag Feature then Feature
  else (if IsEnabled then "+" else "-") +:+ Feature.

(** Modelled from the spec: [SubtargetFeatures::AddFeature], one toggle
    appended after those already present (an empty string adds nothing). *)
Definition AddFeature (Features : SubtargetFeatures) (s : string)
  : SubtargetFeatures :=
  if String.eqb s "" then Features else Features ++ [PrependFlag s true].

(** Modelled from the spec: [SubtargetFeatures::getString], the toggles
    separated by commas: the feature string given to the target. *)
Fixpoint getString (Features : SubtargetFeatures) : string :=
  match Features with
  | [] => ""
  | [f] => f
  | f :: rest => f +:+ "," +:+ getString rest
  end.

(** Modelled from the spec: what a sequence of toggles denotes, section
    4.1: the toggles are applied "in the order given, allowing later flags
    to override earlier ones"; the result is the set of features with the
    state each one ends in. *)
Definition apply_toggle (m : gmap string bool) (t : string)
  : gmap string bool :=
  <[StripFlag t := isEnabled t]> m.

Definition feature_set (Features : SubtargetFeatures) : gmap string bool :=
  foldl apply_toggle ∅ Features.

(** ** Modules and functions *)

(** Section 3 of the spec: a function body is resident, still to be
    fetched from the stream, or discarded after compilation. *)
Inductive Materialization :=
| Resident (body : string)
| Lazy
| Dematerialized.

Record Function := {
  fn_name : string;
  fn_body : Materialization
}.

Record Module := {
  ModuleIdentifier : string;
  mod_TargetTriple : string;
  mod_DataLayout : string;
  mod_libs : list string;
  mod_functions : list Function;
  (* the materializer of a streamed module: function name to body *)
  mod_Materializer : option (string -> option string)
}.

Definition with_functions (M : Module) (fs : list Function) : Module := {|
  ModuleIdentifier := ModuleIdentifier M;
  mod_TargetTriple := mod_TargetTriple M;
  mod_DataLayout := mod_DataLayout M;
  mod_libs := mod_libs M;
  mod_functions := fs;
  mod_Materializer := mod_Materializer M
|}.

Definition setTargetTriple (M : Module) (T : string) : Module := {|
  ModuleIdentifier := ModuleIdentifier M;
  mod_TargetTriple := T;
  mod_DataLayout := mod_DataLayout M;
  mod_libs := mod_libs M;
  mod_functions := mod_functions M;
  mod_Materializer := mod_Materializer M
|}.

Definition is_resident (f : Function) : bool :=
  match fn_body f with
  | Resident _ => true
  | _ => false
  end.


(** Modelled from the spec: [Function::Dematerialize], section 4.4:
    "discard the body, keep the placeholder".  A body that is not resident
    is left as it is. *)
Definition Dematerialize (f : Function) : Function :=
  match fn_body f with
  | Resident _ => {| fn_name := fn_name f; fn_body := Dematerialized |}
  | _ => f
  end.

(** The placeholder of a function: what remains visible of it whatever
    its body. *)
Definition placeholder (f : Function) : Function :=
  {| fn_name := fn_name f; fn_body := Dematerialized |}.

(** ** Passes *)

Inductive PassKind :=
| TargetLibraryInfoPass (triple : string) (allDisabled : bool)
| TargetTransformInfoPass
| DataLayoutPass (layout : string)
| BackendPass (name : string).

(** Modelled from the spec: a stage of the pipeline (class [Pass] of
    llvm/Pass.h is not in llc.cpp), with the interface of section 9:
    [initialize], [runUnit], [finalize].  A stage is an object with a
    private state; each hook returns the new state and the text it emits.
    [runOnFunction M i] runs on function [i] of [M], may read all of [M],
    and returns the new function [i]. *)
Record Pass := {
  pass_kind : PassKind;
  pass_state : Type;
  pass_cur : pass_state;
  doInitialization : Module -> pass_state -> pass_state * string;
  runOnFunction : Module -> nat -> pass_state -> Function * pass_state * string;
  doFinalization : Module -> pass_state -> pass_state * string
}.

Definition with_state (p : Pass) (s : pass_state p) : Pass := {|
  pass_kind := pass_kind p;
  pass_state := pass_state p;
  pass_cur := s;
  doInitialization := doInitialization p;
  runOnFunction := runOnFunction p;
  doFinalization := doFinalization p
|}.

(** An immutable pass: it carries information and does nothing when run. *)
Definition ImmutablePass (k : PassKind) : Pass := {|
  pass_kind := k;
  pass_state := unit;
  pass_cur := tt;
  doInitialization := fun _ s => (s, "");
  runOnFunction := fun M i s =>
    (default {| fn_name := ""; fn_body := Dematerialized |}
             (mod_functions M !! i), s, "");
  doFinalization := fun _ s => (s, "")
|}.

(** ** Targets *)

(** The [TargetOptions] bundle filled in lines 406-428. *)
Record TargetOptions := {
  TO_LessPreciseFPMADOption : bool;
  TO_NoFramePointerElim : bool;
  TO_NoFramePointerElimNonLeaf : bool;
  TO_AllowFPOpFusion : FPOpFusionMode;
  TO_UnsafeFPMath : bool;
  TO_NoInfsFPMath : bool;
  TO_NoNaNsFPMath : bool;
  TO_HonorSignDependentRoundingFPMathOption : bool;
  TO_UseSoftFloat : bool;
  TO_FloatABIType : FloatABI_ABIType;
  TO_NoZerosInBSS : bool;
  TO_GuaranteedTailCallOpt : bool;
  TO_DisableTailCalls : bool;
  TO_StackAlignmentOverride : nat;
  TO_RealignStack : bool;
  TO_TrapFuncName : string;
  TO_PositionIndependentExecutable : bool;
  TO_EnableSegmentedStacks : bool;
  TO_UseInitArray : bool;
  TO_SSPBufferSize : nat
}.

Definition make_TargetOptions (o : Options) : TargetOptions := {|
  TO_LessPreciseFPMADOption := EnableFPMAD o;
  TO_NoFramePointerElim := DisableFPElim o;
  TO_NoFramePointerElimNonLeaf := DisableFPElimNonLeaf o;
  TO_AllowFPOpFusion := FuseFPOps o;
  TO_UnsafeFPMath := EnableUnsafeFPMath o;
  TO_NoInfsFPMath := EnableNoInfsFPMath o;
  TO_NoNaNsFPMath := EnableNoNaNsFPMath o;
  TO_HonorSignDependentRoundingFPMathOption :=
    EnableHonorSignDependentRoundingFPMath o;
  TO_UseSoftFloat := GenerateSoftFloatCalls o;
  TO_FloatABIType :=
    match FloatABIForCalls o with
    | FloatABI_Default => FloatABI_Default
    | abi => abi
    end;
  TO_NoZerosInBSS := DontPlaceZerosInBSS o;
  TO_GuaranteedTailCallOpt := EnableGuaranteedTailCallOpt o;
  TO_DisableTailCalls := DisableTailCalls o;
  TO_StackAlignmentOverride := OverrideStackAlignment o;
  TO_RealignStack := EnableRealignStack o;
  TO_TrapFuncName := TrapFuncName o;
  TO_PositionIndependentExecutable := EnablePIE o;
  TO_EnableSegmentedStacks := SegmentedStacks o;
  TO_UseInitArray := UseInitArray o;
  TO_SSPBufferSize := SSPBufferSize o
|}.

(** The switches of a [TargetMachine] the driver sets. *)
Record MCSettings := {
  MCUseLoc : bool;
  MCUseCFI : bool;
  MCUseDwarfDirectory : bool;
  AsmVerbosityDefault : bool;
  MCRelaxAll : bool
}.

(** A target machine: its switches, its data layout (a null pointer when
    the target has none) and the operation that installs the backend
    stages.  [addPasses] is given the switches, the passes already in the
    manager, the file kind, [NoVerify] and the start/stop pass ids; [None]
    is the C++ result [true]: the target does not support the file kind. *)
Record TargetMachine := {
  tm_settings : MCSettings;
  getDataLayout : option string;
  addPasses : MCSettings -> list Pass -> CodeGenFileType -> bool ->
              option nat -> option nat -> option (list Pass)
}.

Definition update_settings (T : TargetMachine) (f : MCSettings -> MCSettings)
  : TargetMachine := {|
  tm_settings := f (tm_settings T);
  getDataLayout := getDataLayout T;
  addPasses := addPasses T
|}.

Definition setMCUseLoc (v : bool) (c : MCSettings) : MCSettings :=
  {| MCUseLoc := v; MCUseCFI := MCUseCFI c;
     MCUseDwarfDirectory := MCUseDwarfDirectory c;
     AsmVerbosityDefault := AsmVerbosityDefault c;
     MCRelaxAll := MCRelaxAll c |}.

Definition setMCUseCFI (v : bool) (c : MCSettings) : MCSettings :=
  {| MCUseLoc := MCUseLoc c; MCUseCFI := v;
     MCUseDwarfDirectory := MCUseDwarfDirectory c;
     AsmVerbosityDefault := AsmVerbosityDefault c;
     MCRelaxAll := MCRelaxAll c |}.

Definition setMCUseDwarfDirectory (v : bool) (c : MCSettings) : MCSettings :=
  {| MCUseLoc := MCUseLoc c; MCUseCFI := MCUseCFI c;
     MCUseDwarfDirectory := v;
     AsmVerbosityDefault := AsmVerbosityDefault c;
     MCRelaxAll := MCRelaxAll c |}.

Definition setAsmVerbosityDefault (v : bool) (c : MCSettings) : MCSettings :=
  {| MCUseLoc := MCUseLoc c; MCUseCFI := MCUseCFI c;
     MCUseDwarfDirectory := MCUseDwarfDirectory c;
     AsmVerbosityDefault := v;
     MCRelaxAll := MCRelaxAll c |}.

Definition setMCRelaxAll (v : bool) (c : MCSettings) : MCSettings :=
  {| MCUseLoc := MCUseLoc c; MCUseCFI := MCUseCFI c;
     MCUseDwarfDirectory := MCUseDwarfDirectory c;
     AsmVerbosityDefault := AsmVerbosityDefault c;
     MCRelaxAll := v |}.

Definition addPassesToEmitFile
    (T : TargetMachine) (PM : list Pass) (ft : CodeGenFileType)
    (DisableVerify : bool) (StartAfterID StopAfterID : option nat)
  : option (list Pass) :=
  addPasses T (tm_settings T) PM ft DisableVerify StartAfterID StopAfterID.

(** A registered target: its name and its target machine constructor
    (a null result is [None]). *)
Record Target := {
  getName : string;
  createTargetMachine :
    string -> string -> string -> TargetOptions -> Reloc_Model ->
    CodeModel_Model -> CodeGenOpt_Level -> option TargetMachine
}.

(** Modelled from the spec: a stub record (StubMaker.h is not in llc.cpp),
    section 3: "one entry describing an external symbol or a library
    dependency edge". *)
Inductive ELFStub :=
| SymbolStub (kind name : string)
| LibraryStub (name : string).

(** ** The environment

    What the driver obtains from the library and from the system. *)
Record Env := {
  (* IRReader.h, DataStream.h: a module, or the text of the diagnostic *)
  ParseIRFile : string -> Module + string;
  getDataFileStreamer : string -> option (string -> option string) * string;
  getStreamedBitcodeModule :
    string -> (string -> option string) -> option Module * string;
  (* Triple *)
  Triple_normalize : string -> string;
  getDefaultTargetTriple : string;
  Triple_getOS : string -> OSType;
  Triple_isMacOSX : string -> bool;
  Triple_isMacOSXVersionLT : string -> nat -> nat -> bool;
  (* the features SubtargetFeatures::getDefaultSubtargetFeatures adds *)
  default_features : string -> list string;
  (* TargetRegistry::lookupTarget: the target and the adjusted triple, or
     the error text *)
  lookupTarget : string -> string -> Target * string + string;
  (* PassRegistry::getPassInfo *)
  getPassInfo : string -> option nat;
  (* the error text of opening a path for writing, empty on success *)
  open_error : string -> string;
  (* IntrinsicLowering::AddPrototypes, given the data layout *)
  AddPrototypes : string -> Module -> Module;
  (* StubMaker.h, TextStubWriter.h *)
  MakeAllStubs : Module -> string -> list ELFStub;
  WriteTextELFStub : ELFStub -> string
}.

(** Modelled from the spec: [SubtargetFeatures::getDefaultSubtargetFeatures],
    "the target's platform-appropriate default feature set": the default
    features of the triple, added like any other. *)
Definition getDefaultSubtargetFeatures
    (E : Env) (Features : SubtargetFeatures) (TheTriple : string)
  : SubtargetFeatures :=
  foldl AddFeature Features (default_features E TheTriple).

(** Lines 380-392: the toggles packaged for the target, and their string. *)
Definition packaged_Features (E : Env) (TheTriple : string) (MAttrs : list string)
  : SubtargetFeatures :=
  foldl AddFeature (getDefaultSubtargetFeatures E [] TheTriple) MAttrs.

Definition FeaturesStr (E : Env) (TheTriple : string) (MAttrs : list string)
  : string :=
  if (0 <? length MAttrs)%nat
  then getString (packaged_Features E TheTriple MAttrs)
  else "".

(** ** Observable effects *)

Inductive Event :=
| EvDiag (msg : string)                       (* text sent to errs() *)
| EvOpen (Filename : string) (binary : bool)  (* an output file was opened *)
| EvErase (Filename : string)                 (* an unkept file was removed *)
| EvKeep (Filename : string)                  (* tool_output_file::keep *)
| EvAdd (k : PassKind)                        (* a pass enters the manager *)
| EvDoInitialization
| EvRun (i : nat) (view : Module)             (* P->run on function i *)
| EvDematerialize (i : nat)
| EvDoFinalization
| EvRunModule (view : Module)                 (* PM->run on the module *)
| EvAddPrototypes
| EvMakeAllStubs.

(** The events in which stages of the pipeline execute. *)
Definition is_pass_execution (e : Event) : bool :=
  match e with
  | EvDoInitialization | EvRun _ _ | EvDoFinalization | EvRunModule _ => true
  | _ => false
  end.

Definition is_open (e : Event) : bool :=
  match e with
  | EvOpen _ _ => true
  | _ => false
  end.

Record World := {
  trace : list Event;
  disk : gmap string string;   (* the files and their contents *)
  std_out : string;
  objects : nat;               (* tool_output_file objects made so far *)
  kept : list nat              (* the objects keep() was called on *)
}.

(** How the process ends: [main] returns (or [exit] is called) with a
    code, an assertion fails, or the behaviour is undefined. *)
Inductive Termination :=
| Exited (code : Z)
| Aborted (assertion : string)
| Undefined (what : string).

Inductive Res (A : Type) :=
| Ok (a : A)
| Stop (t : Termination).
Arguments Ok {A} a.
Arguments Stop {A} t.

Definition M (A : Type) : Type := World -> Res A * World.

#[global] Instance M_ret : MRet M := fun A a w => (Ok a, w).

#[global] Instance M_bind : MBind M := fun A B f m w =>
  match m w with
  | (Ok a, w') => f a w'
  | (Stop t, w') => (Stop t, w')
  end.

Definition stop {A} (t : Termination) : M A := fun w => (Stop t, w).

(** The world after the events [es]. *)
Definition log (es : list Event) (w : World) : World :=
  {| trace := trace w ++ es; disk := disk w;
     std_out := std_out w; objects := objects w; kept := kept w |}.

Definition emit_all (es : list Event) : M unit := fun w => (Ok tt, log es w).

Definition emit (e : Event) : M unit := emit_all [e].

Definition nl : string := String (ascii_of_nat 10) "".

(** ** Output files *)

(** Modelled from the spec: [tool_output_file]
    (llvm/Support/ToolOutputFile.h is not in llc.cpp), section 3,
    OutputArtifact: opened on resolution, written to during the run,
    "explicitly committed (kept) only on success"; a file that was not kept
    is removed when the object is destroyed.  The name ["-"] is standard
    output, which is never removed. *)
Record tool_output_file := {
  tof_id : nat;
  Filename : string;
  tof_Binary : bool
}.

(** The constructor: the object and the error text (empty on success). *)
Definition new_tool_output_file (E : Env) (name : string) (binary : bool)
  : M (tool_output_file * string) := fun w =>
  let f := {| tof_id := objects w; Filename := name; tof_Binary := binary |} in
  if String.eqb name "-" then
    (Ok (f, ""), {| trace := trace w ++ [EvOpen name binary]; disk := disk w;
                    std_out := std_out w; objects := S (objects w);
                    kept := kept w |})
  else if String.eqb (open_error E name) "" then
    (Ok (f, ""), {| trace := trace w ++ [EvOpen name binary];
                    disk := <[name := ""]> (disk w);
                    std_out := std_out w; objects := S (objects w);
                    kept := kept w |})
  else
    (Ok (f, open_error E name),
     {| trace := trace w; disk := disk w; std_out := std_out w;
        objects := S (objects w); kept := kept w |}).

(** [f->os() << s] *)
Definition os_write (f : tool_output_file) (s : string) : M unit := fun w =>
  if String.eqb (Filename f) "-" then
    (Ok tt, {| trace := trace w; disk := disk w;
               std_out := std_out w +:+ s; objects := objects w;
               kept := kept w |})
  else
    (Ok tt, {| trace := trace w;
               disk := alter (fun c => c +:+ s) (Filename f) (disk w);
               std_out := std_out w; objects := objects w; kept := kept w |}).

(** [f->keep()] *)
Definition keep (f : tool_output_file) : M unit := fun w =>
  (Ok tt, {| trace := trace w ++ [EvKeep (Filename f)]; disk := disk w;
             std_out := std_out w; objects := objects w;
             kept := tof_id f :: kept w |}).

(** The destructor. *)
Definition destroy (f : tool_output_file) (w : World) : World :=
  if String.eqb (Filename f) "-" then w
  else if bool_decide (tof_id f ∈ kept w) then w
  else {| trace := trace w ++ [EvErase (Filename f)];
          disk := delete (Filename f) (disk w);
          std_out := std_out w; objects := objects w; kept := kept w |}.

(** A block that owns [f]: however the block is left, [f] is destroyed. *)
Definition owning {A} (f : tool_output_file) (body : M A) : M A := fun w =>
  let '(r, w') := body w in (r, destroy f w').

(** [GetOutputStream] (lines 147-206): the opened file, or [None] when it
    could not be opened. *)
Definition GetOutputStream
    (E : Env) (o : Options) (TargetName : string) (OS : OSType)
  : M (option tool_output_file) :=
  '(FDOut, error) ← new_tool_output_file E
      (resolved_OutputFilename o TargetName OS) (Binary (FileType o));
  if negb (String.eqb error "") then
    emit (EvDiag (error +:+ nl));;
    owning FDOut (mret None)
  else mret (Some FDOut).

(** The text [WriteTextMetadataFile] builds in lines 229-238: one record
    per stub, in the order of the stub list. *)
Definition metadata_text (E : Env) (M_ : Module) (TheTriple : string) : string :=
  let StubList := MakeAllStubs E M_ TheTriple in
  foldl (fun s stub => s +:+ WriteTextELFStub E stub) "" StubList.

(** [WriteTextMetadataFile] (lines 228-255): 0 on success, 1 on error. *)
Definition WriteTextMetadataFile
    (E : Env) (o : Options) (M_ : Module) (TheTriple : string) : M Z :=
  emit EvMakeAllStubs;;
  let s := metadata_text E M_ TheTriple in
  '(MOut, error) ← new_tool_output_file E (MetadataTextFilename o) true;
  owning MOut (
    if negb (String.eqb error "") then
      emit (EvDiag (error +:+ nl));;
      mret 1%Z
    else
      os_write MOut s;;
      keep MOut;;
      mret 0%Z).

(** ** Pass managers *)

(** The state of a pass manager during a run: its passes, the module it
    works on, the text sent to the output stream and the calls made. *)
Record PMState := {
  pm_passes : list Pass;
  pm_module : Module;
  pm_out : string;
  pm_events : list Event
}.

(** Every pass's [doInitialization], in pipeline order. *)
Fixpoint init_all (M_ : Module) (ps : list Pass) : list Pass * string :=
  match ps with
  | [] => ([], "")
  | p :: ps' =>
      let '(s, out) := doInitialization p M_ (pass_cur p) in
      let '(ps'', out') := init_all M_ ps' in
      (with_state p s :: ps'', out +:+ out')
  end.

(** The full stage sequence against function [i]: each pass sees the
    module as the passes before it left it. *)
Fixpoint run_all (M_ : Module) (i : nat) (ps : list Pass)
  : list Pass * Module * string :=
  match ps with
  | [] => ([], M_, "")
  | p :: ps' =>
      let '(f, s, out) := runOnFunction p M_ i (pass_cur p) in
      let M1 := with_functions M_ (<[i := f]> (mod_functions M_)) in
      let '(ps'', M2, out') := run_all M1 i ps' in
      (with_state p s :: ps'', M2, out +:+ out')
  end.

(** Every pass's [doFinalization], in pipeline order. *)
Fixpoint fini_all (M_ : Module) (ps : list Pass) : list Pass * string :=
  match ps with
  | [] => ([], "")
  | p :: ps' =>
      let '(s, out) := doFinalization p M_ (pass_cur p) in
      let '(ps'', out') := fini_all M_ ps' in
      (with_state p s :: ps'', out +:+ out')
  end.

(** Modelled from the spec: materializing a function, section 4.4: "if
    Lazy, materialize it (fetch body from the streaming source ...; failure
    here is a StreamFetchFailed error and is fatal)".  [None] is the
    failure. *)
Definition Materialize (M_ : Module) (f : Function) : option Function :=
  match fn_body f, mod_Materializer M_ with
  | Lazy, Some fetch =>
      match fetch (fn_name f) with
      | Some body => Some {| fn_name := fn_name f; fn_body := Resident body |}
      | None => None
      end
  | _, _ => Some f
  end.

(** Modelled from the spec: [FunctionPassManager::doInitialization]
    (llvm/PassManager.h is not in llc.cpp), section 4.4: the "one-time
    setup hook invoked before any function/module body is processed". *)
Definition FunctionPassManager_doInitialization (st : PMState) : PMState :=
  let '(ps, out) := init_all (pm_module st) (pm_passes st) in
  {| pm_passes := ps; pm_module := pm_module st;
     pm_out := pm_out st +:+ out;
     pm_events := pm_events st ++ [EvDoInitialization] |}.

(** Modelled from the spec: [FunctionPassManager::run] on function [i],
    section 4.4: materialize the function if it is lazy, then "run the full
    stage sequence against it".  A function with no body in memory is
    passed over.  The boolean is [false] when the fetch failed. *)
Definition FunctionPassManager_run (i : nat) (st : PMState) : bool * PMState :=
  let M_ := pm_module st in
  let evs := pm_events st ++ [EvRun i M_] in
  match mod_functions M_ !! i with
  | None =>
      (true, {| pm_passes := pm_passes st; pm_module := M_;
                pm_out := pm_out st; pm_events := evs |})
  | Some f =>
      match Materialize M_ f with
      | None =>
          (false, {| pm_passes := pm_passes st; pm_module := M_;
                     pm_out := pm_out st;
                     pm_events := evs ++ [EvDiag "LLVM ERROR: stream fetch failed"] |})
      | Some f' =>
          let M1 := with_functions M_ (<[i := f']> (mod_functions M_)) in
          if is_resident f' then
            let '(ps, M2, out) := run_all M1 i (pm_passes st) in
            (true, {| pm_passes := ps; pm_module := M2;
                      pm_out := pm_out st +:+ out; pm_events := evs |})
          else
            (true, {| pm_passes := pm_passes st; pm_module := M1;
                      pm_out := pm_out st; pm_events := evs |})
      end
  end.

(** [I->Dematerialize()] on function [i] of the module. *)
Definition Dematerialize_at (i : nat) (st : PMState) : PMState :=
  let M_ := pm_module st in
  {| pm_passes := pm_passes st;
     pm_module :=
       with_functions M_
         (match mod_functions M_ !! i with
          | Some f => <[i := Dematerialize f]> (mod_functions M_)
          | None => mod_functions M_
          end);
     pm_out := pm_out st;
     pm_events := pm_events st ++ [EvDematerialize i] |}.

(** Modelled from the spec: [FunctionPassManager::doFinalization], section
    4.4: the "one-time teardown hook invoked after the last function/module
    body is processed". *)
Definition FunctionPassManager_doFinalization (st : PMState) : PMState :=
  let '(ps, out) := fini_all (pm_module st) (pm_passes st) in
  {| pm_passes := ps; pm_module := pm_module st;
     pm_out := pm_out st +:+ out;
     pm_events := pm_events st ++ [EvDoFinalization] |}.

(** The loop of lines 569-574 over the functions [idx] of the module. *)
Fixpoint per_function_loop (ReduceMemoryFootprint : bool) (idx : list nat)
    (st : PMState) : bool * PMState :=
  match idx with
  | [] => (true, st)
  | i :: idx' =>
      match FunctionPassManager_run i st with
      | (false, st') => (false, st')
      | (true, st') =>
          per_function_loop ReduceMemoryFootprint idx'
            (if ReduceMemoryFootprint then Dematerialize_at i st' else st')
      end
  end.

(** The stage sequence over the functions [idx], each function with a
    body in memory in turn. *)
Fixpoint run_over (idx : list nat) (ps : list Pass) (M_ : Module)
  : list Pass * Module * string :=
  match idx with
  | [] => (ps, M_, "")
  | i :: idx' =>
      match mod_functions M_ !! i with
      | Some f =>
          if is_resident f then
            let '(ps1, M1, out) := run_all M_ i ps in
            let '(ps2, M2, out') := run_over idx' ps1 M1 in
            (ps2, M2, out +:+ out')
          else run_over idx' ps M_
      | None => run_over idx' ps M_
      end
  end.

(** Modelled from the spec: [PassManager::run] on the module, section 4.4:
    "execute the full stage sequence once over the entire Module; functions
    are visited in declaration order", between the setup and the teardown
    hooks; the output accumulates as the stages emit it. *)
Definition PassManager_run (st : PMState) : PMState :=
  let M_ := pm_module st in
  let '(ps0, out0) := init_all M_ (pm_passes st) in
  let '(ps1, M1, out1) :=
    run_over (seq 0 (length (mod_functions M_))) ps0 M_ in
  let '(ps2, out2) := fini_all M1 ps1 in
  {| pm_passes := ps2; pm_module := M1;
     pm_out := pm_out st +:+ out0 +:+ out1 +:+ out2;
     pm_events := pm_events st ++ [EvRunModule M_] |}.

(** Lines 566-578: the run under the strategy the two flags select. *)
Definition run_pipeline (LazyBitcode ReduceMemoryFootprint : bool)
    (st : PMState) : bool * PMState :=
  if LazyBitcode || ReduceMemoryFootprint then
    let st1 := FunctionPassManager_doInitialization st in
    match per_function_loop ReduceMemoryFootprint
            (seq 0 (length (mod_functions (pm_module st)))) st1 with
    | (false, st2) => (false, st2)
    | (true, st2) => (true, FunctionPassManager_doFinalization st2)
    end
  else (true, PassManager_run st).

(** The pipeline of lines 471-486, before the backend adds its stages. *)
Definition driver_passes
    (o : Options) (TheTriple : string) (T : TargetMachine) (mod_ : Module)
  : list Pass :=
  [ ImmutablePass (TargetLibraryInfoPass TheTriple (DisableSimplifyLibCalls o));
    ImmutablePass TargetTransformInfoPass;
    ImmutablePass (DataLayoutPass
      (match getDataLayout T with
       | Some TD => TD
       | None => mod_DataLayout mod_
       end)) ].

(** ** The driver *)

(** Lines 302-340 (host build): the module, or the diagnostic. *)
Definition load_module (E : Env) (o : Options) : option Module * string :=
  if LazyBitcode o then
    match getDataFileStreamer E (InputFilename o) with
    | (Some streamer, _) =>
        getStreamedBitcodeModule E (InputFilename o) streamer
    | (None, StrError) => (None, StrError)
    end
  else
    match ParseIRFile E (InputFilename o) with
    | inl M_ => (Some M_, "")
    | inr Err => (None, Err)
    end.

(** Lines 438-453 and 488-497: the switches set on the target machine.
    The result is the machine and the warning, if one is printed. *)
Definition configure_Target
    (E : Env) (o : Options) (argv0 TheTriple : string) (T : TargetMachine)
  : TargetMachine * list Event :=
  let T := if DisableDotLoc o then update_settings T (setMCUseLoc false) else T in
  let T := if DisableCFI o then update_settings T (setMCUseCFI false) else T in
  let T := if EnableDwarfDirectory o
           then update_settings T (setMCUseDwarfDirectory true) else T in
  let T := if Triple_isMacOSX E TheTriple
              && Triple_isMacOSXVersionLT E TheTriple 10 6
           then update_settings T (setMCUseLoc false) else T in
  let T := update_settings T (setAsmVerbosityDefault true) in
  if RelaxAll o then
    match FileType o with
    | CGFT_ObjectFile => (update_settings T (setMCRelaxAll true), [])
    | _ =>
        (T, [EvDiag (argv0 +:+
               ": warning: ignoring -mc-relax-all because filetype != obj")])
    end
  else (T, []).

(** [PassRegistry::getPassInfo] on a [-start-after] or [-stop-after] name
    (lines 538-553): the id, a null id for an empty name, or the exit. *)
Definition pass_id (E : Env) (argv0 name which : string) : M (option nat) :=
  if negb (String.eqb name "") then
    match getPassInfo E name with
    | None =>
        emit (EvDiag (argv0 +:+ ": " +:+ which
                      +:+ " pass is not registered." +:+ nl));;
        stop (Exited 1)
    | Some PI => mret (Some PI)
    end
  else mret None.

Definition unsupported_file_type (argv0 : string) : string :=
  argv0 +:+ ": target does not support generation of this file type!" +:+ nl.

(** Lines 585-602: the metadata, written after the code was kept. *)
Definition write_metadata
    (E : Env) (o : Options) (target : TargetMachine) (M_ : Module)
    (TheTriple : string) : M Z :=
  if negb (String.eqb (MetadataTextFilename o) "") then
    match getDataLayout target with
    | None => stop (Undefined "null DataLayout dereferenced")
    | Some TD =>
        emit EvAddPrototypes;;
        err ← WriteTextMetadataFile E o (AddPrototypes E TD M_) TheTriple;
        if negb (err =? 0)%Z then stop (Exited err) else mret 0%Z
    end
  else mret 0%Z.

(** Lines 462-561: the passes are put into the manager, the target
    machine receives its last switches, and the target adds the backend
    stages.  The result is the machine and the pipeline. *)
Definition assemble_pipeline
    (argv0 : string) (E : Env) (o : Options) (TheTriple : string)
    (target : TargetMachine) (mod_ : Module)
  : M (TargetMachine * list Pass) :=
  let PM := driver_passes o TheTriple target mod_ in
  emit_all (map (fun p => EvAdd (pass_kind p)) PM);;
  let '(Target, warning) := configure_Target E o argv0 TheTriple target in
  emit_all warning;;
  StartAfterID ← pass_id E argv0 (StartAfter o) "start-after";
  StopAfterID ← pass_id E argv0 (StopAfter o) "stop-after";
  match addPassesToEmitFile Target PM (FileType o) (NoVerify o)
          StartAfterID StopAfterID with
  | None =>
      emit (EvDiag (unsupported_file_type argv0));;
      stop (Exited 1)
  | Some backend =>
      emit_all (map (fun p => EvAdd (pass_kind p)) backend);;
      mret (Target, PM ++ backend)
  end.

(** Lines 455-602 of [llc_main], from the opening of the output on: the
    target [TheTarget], its machine [target] and the module [mod_] are
    those lines 291-436 produced. *)
Definition llc_codegen
    (argv0 : string) (E : Env) (o : Options) (TheTarget : Target)
    (TheTriple : string) (target : TargetMachine) (mod_ : Module) : M Z :=
  Out ← GetOutputStream E o (getName TheTarget) (Triple_getOS E TheTriple);
  match Out with
  | None => stop (Exited 1)
  | Some Out =>
      owning Out (
        '(Target, passes) ← assemble_pipeline argv0 E o TheTriple target mod_;
        let '(ok, st) :=
          run_pipeline (LazyBitcode o) (ReduceMemoryFootprint o)
            {| pm_passes := passes; pm_module := mod_;
               pm_out := ""; pm_events := [] |} in
        emit_all (pm_events st);;
        os_write Out (pm_out st);;
        if negb ok then stop (Exited 1)
        else
          keep Out;;
          write_metadata E o Target (pm_module st) TheTriple)
  end.

(** Lines 297-369: the module (none when the user only asks for the list
    of options) and the triple to look the target up with, or the
    diagnostic of the module that could not be loaded. *)
Definition module_and_triple (E : Env) (o : Options)
  : option Module * string + string :=
  let SkipModule :=
    String.eqb (MCPU o) "help"
    || match MAttrs o with
       | front :: _ => String.eqb front "help"
       | [] => false
       end in
  match
    (if negb SkipModule then
       match load_module E o with
       | (None, Err) => inr Err
       | (Some M_, _) =>
           let M_ := if negb (String.eqb (TargetTriple o) "")
                     then setTargetTriple M_ (Triple_normalize E (TargetTriple o))
                     else M_ in
           inl (Some M_, mod_TargetTriple M_)
       end
     else inl (None, Triple_normalize E (TargetTriple o)))
  with
  | inr Err => inr Err
  | inl (mod_, TheTriple) =>
      inl (mod_,
           if String.eqb TheTriple "" then getDefaultTargetTriple E
           else TheTriple)
  end.

Definition invalid_optimization_level (argv0 : string) : string :=
  argv0 +:+ ": invalid optimization level." +:+ nl.

(** [llc_main] (lines 261-603). *)
Definition llc_main (argv0 : string) (E : Env) (o : Options) : M Z :=
  match module_and_triple E o with
  | inr Err =>
      emit (EvDiag (argv0 +:+ ": " +:+ Err));;
      stop (Exited 1)
  | inl (mod_, TheTriple) =>
      match lookupTarget E (MArch o) TheTriple with
      | inr Error_ =>
          emit (EvDiag (argv0 +:+ ": " +:+ Error_));;
          stop (Exited 1)
      | inl (TheTarget, TheTriple) =>
          let FeaturesStr := FeaturesStr E TheTriple (MAttrs o) in
          match OLvl_of (OptLevel o) with
          | None =>
              emit (EvDiag (invalid_optimization_level argv0));;
              stop (Exited 1)
          | Some OLvl =>
              match createTargetMachine TheTarget TheTriple (MCPU o)
                      FeaturesStr (make_TargetOptions o) (RelocModel o)
                      (CMModel o) OLvl with
              | None => stop (Aborted "Could not allocate target machine!")
              | Some target =>
                  match mod_ with
                  | None =>
                      stop (Aborted "Should have exited after outputting help!")
                  | Some mod_ =>
                      llc_codegen argv0 E o TheTarget TheTriple target mod_
                  end
              end
          end
      end
  end.

Definition initial_world (disk0 : gmap string string) : World :=
  {| trace := []; disk := disk0; std_out := ""; objects := 0; kept := [] |}.

(** One invocation of the tool on the files [disk0]: how it ends and the
    world it leaves. *)
Definition run_llc (argv0 : string) (E : Env) (o : Options)
    (disk0 : gmap string string) : Termination * World :=
  match llc_main argv0 E o (initial_world disk0) with
  | (Ok code, w) => (Exited code, w)
  | (Stop t, w) => (t, w)
  end.

(** ** A concrete environment

    A small target and two modules, used to run the driver. *)

Definition body_text (f : Function) : string :=
  match fn_body f with
  | Resident body => body
  | _ => ""
  end.

Definition the_function (M_ : Module) (i : nat) : Function :=
  default {| fn_name := ""; fn_body := Dematerialized |} (mod_functions M_ !! i).

(** An assembly printer: a header, one labelled block per function, a
    trailer counting the functions printed. *)
Definition AsmPrinter : Pass := {|
  pass_kind := BackendPass "asm-printer";
  pass_state := nat;
  pass_cur := 0;
  doInitialization := fun M_ n => (n, ".file " +:+ ModuleIdentifier M_ +:+ nl);
  runOnFunction := fun M_ i n =>
    (the_function M_ i, S n,
     fn_name (the_function M_ i) +:+ ": " +:+ body_text (the_function M_ i) +:+ nl);
  doFinalization := fun M_ n => (n, ".end" +:+ nl)
|}.

(** A stage that looks across functions: on each function it emits the
    bodies of all the functions it finds in memory. *)
Definition CrossFunctionPass : Pass := {|
  pass_kind := BackendPass "cross-function";
  pass_state := unit;
  pass_cur := tt;
  doInitialization := fun _ s => (s, "");
  runOnFunction := fun M_ i s =>
    (the_function M_ i, s,
     foldr (fun f acc => body_text f +:+ acc) nl (mod_functions M_));
  doFinalization := fun _ s => (s, "")
|}.

Definition host_settings : MCSettings :=
  {| MCUseLoc := true; MCUseCFI := true; MCUseDwarfDirectory := false;
     AsmVerbosityDefault := false; MCRelaxAll := false |}.

(** A machine that prints assembly and objects and declines the null
    kind. *)
Definition x86_machine : TargetMachine := {|
  tm_settings := host_settings;
  getDataLayout := Some "e-p:32:32";
  addPasses := fun _ _ ft _ _ _ =>
    match ft with
    | CGFT_Null => None
    | _ => Some [AsmPrinter]
    end
|}.

(** A machine whose backend has a stage that looks across functions. *)
Definition ipo_machine : TargetMachine := {|
  tm_settings := host_settings;
  getDataLayout := Some "e-p:32:32";
  addPasses := fun _ _ _ _ _ _ => Some [CrossFunctionPass]
|}.

Definition x86_target : Target := {|
  getName := "x86";
  createTargetMachine := fun _ _ _ _ _ _ _ => Some x86_machine
|}.

Definition ipo_target : Target := {|
  getName := "ipo";
  createTargetMachine := fun _ _ _ _ _ _ _ => Some ipo_machine
|}.

Definition add_module : Module := {|
  ModuleIdentifier := "add.ll";
  mod_TargetTriple := "i686-unknown-linux";
  mod_DataLayout := "e";
  mod_libs := ["libm"];
  mod_functions := [ {| fn_name := "add"; fn_body := Resident "ret a+b" |} ];
  mod_Materializer := None
|}.

Definition two_module : Module := {|
  ModuleIdentifier := "two.bc";
  mod_TargetTriple := "i686-unknown-linux";
  mod_DataLayout := "e";
  mod_libs := [];
  mod_functions := [ {| fn_name := "f"; fn_body := Resident "F" |};
                     {| fn_name := "g"; fn_body := Resident "G" |} ];
  mod_Materializer := None
|}.

Definition demo_env : Env := {|
  ParseIRFile := fun name =>
    if String.eqb name "add.ll" then inl add_module
    else if String.eqb name "two.bc" then inl two_module
    else inr "could not open input file";
  getDataFileStreamer := fun name => (None, "could not open input file");
  getStreamedBitcodeModule := fun _ _ => (None, "invalid bitcode");
  Triple_normalize := fun t => t;
  getDefaultTargetTriple := "i686-unknown-linux";
  Triple_getOS := fun _ => Linux;
  Triple_isMacOSX := fun _ => false;
  Triple_isMacOSXVersionLT := fun _ _ _ => false;
  default_features := fun t =>
    if String.eqb t "powerpc-apple-darwin" then ["altivec"] else [];
  lookupTarget := fun arch t =>
    if String.eqb t "bogus-unknown-unknown"
    then inr "error: unable to get target for 'bogus-unknown-unknown'"
    else if String.eqb arch "ipo" then inl (ipo_target, t)
    else inl (x86_target, t);
  getPassInfo := fun _ => None;
  open_error := fun name =>
    if String.eqb name "/deps.txt" then "Permission denied" else "";
  AddPrototypes := fun _ M_ => M_;
  MakeAllStubs := fun M_ _ =>
    map (fun f => SymbolStub "func" (fn_name f)) (mod_functions M_)
    ++ map LibraryStub (mod_libs M_);
  WriteTextELFStub := fun stub =>
    match stub with
    | SymbolStub kind name => kind +:+ " " +:+ name +:+ nl
    | LibraryStub name => "needed " +:+ name +:+ nl
    end
|}.

(** The command line [llc <input> -o <output> -metadata-text <metadata>
    -O<level> -mtriple=<triple> -march=<arch> -mattr=<attrs>
    -filetype=<kind>] with the two strategy flags; every other option has
    its default. *)
Definition command_line
    (input output metadata : string) (level : ascii) (triple arch : string)
    (attrs : list string) (kind : CodeGenFileType) (streaming reduce : bool)
  : Options := {|
  InputFilename := input;
  OutputFilename := output;
  MetadataTextFilename := metadata;
  OptLevel := level;
  TargetTriple := triple;
  NoVerify := NoVerify default_options;
  DisableSimplifyLibCalls := DisableSimplifyLibCalls default_options;
  LazyBitcode := streaming;
  ReduceMemoryFootprint := reduce;
  MArch := arch;
  MCPU := MCPU default_options;
  MAttrs := attrs;
  RelocModel := RelocModel default_options;
  CMModel := CMModel default_options;
  RelaxAll := RelaxAll default_options;
  FileType := kind;
  DisableDotLoc := DisableDotLoc default_options;
  DisableCFI := DisableCFI default_options;
  EnableDwarfDirectory := EnableDwarfDirectory default_options;
  DisableFPElim := DisableFPElim default_options;
  DisableFPElimNonLeaf := DisableFPElimNonLeaf default_options;
  EnableUnsafeFPMath := EnableUnsafeFPMath default_options;
  EnableNoInfsFPMath := EnableNoInfsFPMath default_options;
  EnableNoNaNsFPMath := EnableNoNaNsFPMath default_options;
  EnableHonorSignDependentRoundingFPMath :=
    EnableHonorSignDependentRoundingFPMath default_options;
  GenerateSoftFloatCalls := GenerateSoftFloatCalls default_options;
  FloatABIForCalls := FloatABIForCalls default_options;
  FuseFPOps := FuseFPOps default_options;
  DontPlaceZerosInBSS := DontPlaceZerosInBSS default_options;
  EnableGuaranteedTailCallOpt := EnableGuaranteedTailCallOpt default_options;
  DisableTailCalls := DisableTailCalls default_options;
  OverrideStackAlignment := OverrideStackAlignment default_options;
  EnableRealignStack := EnableRealignStack default_options;
  TrapFuncName := TrapFuncName default_options;
  EnablePIE := EnablePIE default_options;
  SegmentedStacks := SegmentedStacks default_options;
  UseInitArray := UseInitArray default_options;
  SSPBufferSize := SSPBufferSize default_options;
  EnableFPMAD := EnableFPMAD default_options;
  StartAfter := StartAfter default_options;
  StopAfter := StopAfter default_options
|}.

(** [llc add.ll] *)
Definition llc_add : Options :=
  command_line "add.ll" "" "" " " "" "" [] CGFT_AssemblyFile false false.

(** The extension table of section 4.2 of the spec, by file kind and
    backend name: [.cbe.c] for the backend named [c], [.cpp] for a name
    starting with [cpp], [.s] otherwise; [.obj] or [.o] by the OS; [.null]. *)
Definition extension_table
    (ft : CodeGenFileType) (TargetName : string) (OS : OSType) : string :=
  match ft with
  | CGFT_AssemblyFile =>
      if decide (TargetName = "c") then ".cbe.c"
      else if String.prefix "cpp" TargetName then ".cpp"
      else ".s"
  | CGFT_ObjectFile => if decide (OS = Win32) then ".obj" else ".o"
  | CGFT_Null => ".null"
  end.

(** The toggle a feature string of the command line stands for, the
    feature it names and the state it asks for. *)
Definition toggle_of (s : string) : string := PrependFlag s true.
Definition feature_of (s : string) : string := StripFlag (toggle_of s).
Definition polarity (s : string) : bool := isEnabled (toggle_of s).

(** The toggles of a list of feature strings; empty strings add none. *)
Definition toggles (l : list string) : SubtargetFeatures :=
  map toggle_of (filter (fun s => s <> "") l).

(** The environment in which every target machine is built from the
    feature string [fs triple], whatever string the caller passes. *)
Definition fix_features (fs : string -> string) (T : Target) : Target := {|
  getName := getName T;
  createTargetMachine := fun triple cpu _ =>
    createTargetMachine T triple cpu (fs triple)
|}.

Definition with_features (fs : string -> string) (E : Env) : Env := {|
  ParseIRFile := ParseIRFile E;
  getDataFileStreamer := getDataFileStreamer E;
  getStreamedBitcodeModule := getStreamedBitcodeModule E;
  Triple_normalize := Triple_normalize E;
  getDefaultTargetTriple := getDefaultTargetTriple E;
  Triple_getOS := Triple_getOS E;
  Triple_isMacOSX := Triple_isMacOSX E;
  Triple_isMacOSXVersionLT := Triple_isMacOSXVersionLT E;
  default_features := default_features E;
  lookupTarget := fun arch triple =>
    match lookupTarget E arch triple with
    | inl (T, triple') => inl (fix_features fs T, triple')
    | inr err => inr err
    end;
  getPassInfo := getPassInfo E;
  open_error := open_error E;
  AddPrototypes := AddPrototypes E;
  MakeAllStubs := MakeAllStubs E;
  WriteTextELFStub := WriteTextELFStub E
|}.

(** ** Stages that work on one function at a time *)

(** Two modules that differ at most in the bodies of their functions: the
    same module data and the same placeholders. *)
Definition same_placeholders (M1 M2 : Module) : Prop :=
  with_functions M1 [] = with_functions M2 []
  /\ placeholder <$> mod_functions M1 = placeholder <$> mod_functions M2.

(** A stage is function-local when what it does on function [i] depends on
    the module only through function [i] and the placeholders of the
    others, and its teardown hook does not depend on any body: the stage
    never reads a body other than the one it is run on. *)
Definition function_local (p : Pass) : Prop :=
  (forall M1 M2 i s,
     same_placeholders M1 M2 ->
     mod_functions M1 !! i = mod_functions M2 !! i ->
     runOnFunction p M1 i s = runOnFunction p M2 i s)
  /\ (forall M1 M2 s,
        same_placeholders M1 M2 ->
        doFinalization p M1 s = doFinalization p M2 s).



(** The state a pass manager starts a run in. *)
Definition initial_PMState (ps : list Pass) (M_ : Module) : PMState :=
  {| pm_passes := ps; pm_module := M_; pm_out := ""; pm_events := [] |}.

(** [llc -reduce-memory-footprint two.bc] *)
Definition llc_reduce : Options :=
  command_line "two.bc" "" "" " " "" "" [] CGFT_AssemblyFile false true.

(** [llc -O9 add.ll] *)
Definition llc_O9 : Options :=
  command_line "add.ll" "" "" "9" "" "" [] CGFT_AssemblyFile false false.




(** ** Reading a run *)

(** The name the output is opened under. *)
Definition output_name (E : Env) (o : Options) (TheTarget : Target)
    (TheTriple : string) : string :=
  resolved_OutputFilename o (getName TheTarget) (Triple_getOS E TheTriple).

(** The passes a trace has added to the manager, in order. *)
Definition added (tr : list Event) : list PassKind :=
  omap (fun e => match e with EvAdd k => Some k | _ => None end) tr.

Definition adds (ps : list Pass) : list Event :=
  map (fun p => EvAdd (pass_kind p)) ps.

(** The removal of an unkept file when its object is destroyed; standard
    output is never removed. *)
Definition erasure (name : string) : list Event :=
  if String.eqb name "-" then [] else [EvErase name].

(** The file (or standard output) [name] holds [content]. *)
Definition holds (w : World) (name content : string) : Prop :=
  if String.eqb name "-" then std_out w = content
  else disk w !! name = Some content.

Definition is_keep (e : Event) : bool :=
  match e with
  | EvKeep _ => true
  | _ => false
  end.

(** The events of the metadata phase (lines 585-599 and
    [WriteTextMetadataFile]). *)
Definition is_metadata (e : Event) : bool :=
  match e with
  | EvAddPrototypes | EvMakeAllStubs => true
  | _ => false
  end.

(** The world in which the code was written to [out] and kept, after
    the events [tr], when no other file was touched. *)
Definition code_kept (out content : string) (tr : list Event)
    (disk0 : gmap string string) : World :=
  {| trace := tr ++ [EvKeep out];
     disk := if String.eqb out "-" then disk0 else <[out := content]> disk0;
     std_out := if String.eqb out "-" then content else "";
     objects := 1;
     kept := [0] |}.

(** The events a run of the pipeline produces. *)
Definition is_run_event (e : Event) : bool :=
  match e with
  | EvDoInitialization | EvRun _ _ | EvDematerialize _ | EvDoFinalization
  | EvRunModule _ | EvDiag _ => true
  | _ => false
  end.

(** The events that are neither a stage executing, nor a pass entering
    the manager, nor a file being kept, nor part of the metadata phase. *)
Definition is_quiet (e : Event) : bool :=
  match e with
  | EvDiag _ | EvOpen _ _ | EvErase _ => true
  | _ => false
  end.

(** [llc -filetype=null add.ll], [llc add.ll -metadata-text deps.txt] and
    [llc add.ll -metadata-text /deps.txt] (a path that cannot be opened), and
    [llc -mtriple=bogus-unknown-unknown add.ll]. *)
Definition llc_null : Options :=
  command_line "add.ll" "" "" " " "" "" [] CGFT_Null false false.

Definition llc_metadata : Options :=
  command_line "add.ll" "" "deps.txt" " " "" "" [] CGFT_AssemblyFile false false.

Definition llc_metadata_denied : Options :=
  command_line "add.ll" "" "/deps.txt" " " "" "" [] CGFT_AssemblyFile false false.

Definition llc_bogus : Options :=
  command_line "add.ll" "" "" " " "bogus-unknown-unknown" "" []
    CGFT_AssemblyFile false false.

(** The names of the files a trace has kept, in order. *)
Definition kept_files (tr : list Event) : list string :=
  omap (fun e => match e with EvKeep name => Some name | _ => None end) tr.

(** ** The rest of the driver *)

(** Lines 297-298: the user only asks for the list of the options of the
    target, and no module is loaded. *)
Definition SkipModule (o : Options) : bool :=
  String.eqb (MCPU o) "help"
  || match MAttrs o with
     | front :: _ => String.eqb front "help"
     | [] => false
     end.

(** Lines 368-369: an empty triple is replaced by the triple of the host. *)
Definition triple_or_default (E : Env) (t : string) : string :=
  if String.eqb t "" then getDefaultTargetTriple E else t.

(** Lines 535-553: the id the target is given for a [-start-after] or
    [-stop-after] name; the null id for an empty name. *)
Definition registered_id (E : Env) (name : string) : option nat :=
  if String.eqb name "" then None else getPassInfo E name.

(** The diagnostic of lines 541 and 549. *)
Definition not_registered (argv0 which : string) : string :=
  argv0 +:+ ": " +:+ which +:+ " pass is not registered." +:+ nl.

(** The warning of lines 493-494 (it ends without a newline). *)
Definition relax_all_ignored (argv0 : string) : string :=
  argv0 +:+ ": warning: ignoring -mc-relax-all because filetype != obj".

Definition is_object (ft : CodeGenFileType) : bool :=
  match ft with
  | CGFT_ObjectFile => true
  | _ => false
  end.

(** The command line [o] followed by [-start-after=<start>
    -stop-after=<stop>]. *)
Definition with_start_stop (start stop : string) (o : Options) : Options := {|
  InputFilename := InputFilename o;
  OutputFilename := OutputFilename o;
  MetadataTextFilename := MetadataTextFilename o;
  OptLevel := OptLevel o;
  TargetTriple := TargetTriple o;
  NoVerify := NoVerify o;
  DisableSimplifyLibCalls := DisableSimplifyLibCalls o;
  LazyBitcode := LazyBitcode o;
  ReduceMemoryFootprint := ReduceMemoryFootprint o;
  MArch := MArch o;
  MCPU := MCPU o;
  MAttrs := MAttrs o;
  RelocModel := RelocModel o;
  CMModel := CMModel o;
  RelaxAll := RelaxAll o;
  FileType := FileType o;
  DisableDotLoc := DisableDotLoc o;
  DisableCFI := DisableCFI o;
  EnableDwarfDirectory := EnableDwarfDirectory o;
  DisableFPElim := DisableFPElim o;
  DisableFPElimNonLeaf := DisableFPElimNonLeaf o;
  EnableUnsafeFPMath := EnableUnsafeFPMath o;
  EnableNoInfsFPMath := EnableNoInfsFPMath o;
  EnableNoNaNsFPMath := EnableNoNaNsFPMath o;
  EnableHonorSignDependentRoundingFPMath :=
    EnableHonorSignDependentRoundingFPMath o;
  GenerateSoftFloatCalls := GenerateSoftFloatCalls o;
  FloatABIForCalls := FloatABIForCalls o;
  FuseFPOps := FuseFPOps o;
  DontPlaceZerosInBSS := DontPlaceZerosInBSS o;
  EnableGuaranteedTailCallOpt := EnableGuaranteedTailCallOpt o;
  DisableTailCalls := DisableTailCalls o;
  OverrideStackAlignment := OverrideStackAlignment o;
  EnableRealignStack := EnableRealignStack o;
  TrapFuncName := TrapFuncName o;
  EnablePIE := EnablePIE o;
  SegmentedStacks := SegmentedStacks o;
  UseInitArray := UseInitArray o;
  SSPBufferSize := SSPBufferSize o;
  EnableFPMAD := EnableFPMAD o;
  StartAfter := start;
  StopAfter := stop
|}.

(** The removal of a file, the dematerialization of a function and the
    run of the manager on the whole module, among the events. *)
Definition is_erase (e : Event) : bool :=
  match e with
  | EvErase _ => true
  | _ => false
  end.

Definition is_dematerialize (e : Event) : bool :=
  match e with
  | EvDematerialize _ => true
  | _ => false
  end.

Definition is_function_run (e : Event) : bool :=
  match e with
  | EvDoInitialization | EvRun _ _ | EvDematerialize _ | EvDoFinalization => true
  | _ => false
  end.

(** The command line [o] with [-O<level>] in place of its level. *)
Definition with_OptLevel (level : ascii) (o : Options) : Options := {|
  InputFilename := InputFilename o;
  OutputFilename := OutputFilename o;
  MetadataTextFilename := MetadataTextFilename o;
  OptLevel := level;
  TargetTriple := TargetTriple o;
  NoVerify := NoVerify o;
  DisableSimplifyLibCalls := DisableSimplifyLibCalls o;
  LazyBitcode := LazyBitcode o;
  ReduceMemoryFootprint := ReduceMemoryFootprint o;
  MArch := MArch o;
  MCPU := MCPU o;
  MAttrs := MAttrs o;
  RelocModel := RelocModel o;
  CMModel := CMModel o;
  RelaxAll := RelaxAll o;
  FileType := FileType o;
  DisableDotLoc := DisableDotLoc o;
  DisableCFI := DisableCFI o;
  EnableDwarfDirectory := EnableDwarfDirectory o;
  DisableFPElim := DisableFPElim o;
  DisableFPElimNonLeaf := DisableFPElimNonLeaf o;
  EnableUnsafeFPMath := EnableUnsafeFPMath o;
  EnableNoInfsFPMath := EnableNoInfsFPMath o;
  EnableNoNaNsFPMath := EnableNoNaNsFPMath o;
  EnableHonorSignDependentRoundingFPMath :=
    EnableHonorSignDependentRoundingFPMath o;
  GenerateSoftFloatCalls := GenerateSoftFloatCalls o;
  FloatABIForCalls := FloatABIForCalls o;
  FuseFPOps := FuseFPOps o;
  DontPlaceZerosInBSS := DontPlaceZerosInBSS o;
  EnableGuaranteedTailCallOpt := EnableGuaranteedTailCallOpt o;
  DisableTailCalls := DisableTailCalls o;
  OverrideStackAlignment := OverrideStackAlignment o;
  EnableRealignStack := EnableRealignStack o;
  TrapFuncName := TrapFuncName o;
  EnablePIE := EnablePIE o;
  SegmentedStacks := SegmentedStacks o;
  UseInitArray := UseInitArray o;
  SSPBufferSize := SSPBufferSize o;
  EnableFPMAD := EnableFPMAD o;
  StartAfter := StartAfter o;
  StopAfter := StopAfter o
|}.

(** A machine without a data layout of its own. *)
Definition bare_machine : TargetMachine := {|
  tm_settings := host_settings;
  getDataLayout := None;
  addPasses := fun _ _ _ _ _ _ => Some [AsmPrinter]
|}.

(** [llc missing.ll], [llc -mattr=help add.ll], [llc add.ll -o /deps.txt]
    (a path that cannot be opened), [llc -start-after=no-such-pass add.ll]
    and [llc -mtriple=armv7-none-linux add.ll]. *)
Definition llc_missing : Options :=
  command_line "missing.ll" "" "" " " "" "" [] CGFT_AssemblyFile false false.

Definition llc_help : Options :=
  command_line "add.ll" "" "" " " "" "" ["help"] CGFT_AssemblyFile false false.

(** [llc -mattr=help missing.ll]: a help request on an input that cannot
    be read. *)
Definition llc_help_missing : Options :=
  command_line "missing.ll" "" "" " " "" "" ["help"] CGFT_AssemblyFile
    false false.

Definition llc_output_denied : Options :=
  command_line "add.ll" "/deps.txt" "" " " "" "" [] CGFT_AssemblyFile false false.

Definition llc_start_after : Options :=
  with_start_stop "no-such-pass" "" llc_add.

Definition llc_mtriple : Options :=
  command_line "add.ll" "" "" " " "armv7-none-linux" "" []
    CGFT_AssemblyFile false false.

(** * Properties *)

(** ** Strings *)

Lemma length_append (a b : string) :
  String.length (a +:+ b) = String.length a + String.length b.
Proof. induction a as [|c a IH]; simpl; [reflexivity | now rewrite IH]. Qed.

Lemma char_at_append_r (a b : string) (k : nat) :
  char_at (a +:+ b) (String.length a + k) = char_at b k.
Proof.
  unfold char_at. rewrite (Nat.add_comm (String.length a) k).
  now rewrite <- append_correct2.
Qed.

Lemma substring_append_l (a b : string) :
  substring 0 (String.length a) (a +:+ b) = a.
Proof.
  induction a as [|c a IH]; simpl.
  - now destruct b.
  - now rewrite IH.
Qed.

Lemma char_at_S (a : ascii) (s : string) (k : nat) :
  char_at (String a s) (S k) = char_at s k.
Proof. reflexivity. Qed.

(** A string of length [n + 3] is its first [n] characters followed by
    its last three. *)
Lemma split_last3 (n : nat) : forall s : string,
  String.length s = n + 3 ->
  s = substring 0 n s
      +:+ String (char_at s n)
            (String (char_at s (n + 1)) (String (char_at s (n + 2)) "")).
Proof.
  induction n as [|n IH]; intros s Hlen.
  - destruct s as [|a [|b [|c [|d s]]]]; simpl in Hlen; try lia.
    reflexivity.
  - destruct s as [|a s]; simpl in Hlen; [lia|].
    cbn [Nat.add]. rewrite !char_at_S. cbn [substring].
    change (String a s = String a (substring 0 n s
              +:+ String (char_at s n)
                    (String (char_at s (n + 1)) (String (char_at s (n + 2)) "")))).
    f_equal. apply IH. lia.
Qed.

Lemma int_of_size_small (n : nat) :
  (Z.of_nat n < 2 ^ 31)%Z -> int_of_size n = Z.of_nat n.
Proof.
  intros H. unfold int_of_size.
  rewrite Z.mod_small; lia.
Qed.

(** ** Output naming *)

Lemma GetFileNameRoot_strips (root : string) (c1 c2 : ascii) :
  (Z.of_nat (String.length root) + 3 < 2 ^ 31)%Z ->
  (c1 = "b"%char /\ c2 = "c"%char) \/ (c1 = "l"%char /\ c2 = "l"%char) ->
  GetFileNameRoot (root +:+ String "." (String c1 (String c2 ""))) = root.
Proof.
  intros Hlen Hc. unfold GetFileNameRoot.
  set (sfx := String "." (String c1 (String c2 ""))).
  assert (HL : String.length (root +:+ sfx) = String.length root + 3)
    by (rewrite length_append; reflexivity).
  rewrite HL, int_of_size_small by lia.
  replace (Z.to_nat (Z.of_nat (String.length root + 3) - 3))
    with (String.length root + 0) by lia.
  replace (Z.to_nat (Z.of_nat (String.length root + 3) - 2))
    with (String.length root + 1) by lia.
  replace (Z.to_nat (Z.of_nat (String.length root + 3) - 1))
    with (String.length root + 2) by lia.
  rewrite !char_at_append_r.
  replace (String.length root + 3 - 3) with (String.length root) by lia.
  rewrite substring_append_l.
  assert (H2 : (2 <? Z.of_nat (String.length root + 3))%Z = true)
    by (apply Z.ltb_lt; lia).
  rewrite H2. unfold sfx, char_at; simpl.
  destruct Hc as [[-> ->] | [-> ->]]; reflexivity.
Qed.

Lemma GetFileNameRoot_cases (name : string) :
  (Z.of_nat (String.length name) < 2 ^ 31)%Z ->
  GetFileNameRoot name = name \/
  exists root, (name = root +:+ ".bc" \/ name = root +:+ ".ll")
               /\ GetFileNameRoot name = root.
Proof.
  intros Hsmall. unfold GetFileNameRoot.
  rewrite int_of_size_small by assumption.
  destruct (2 <? Z.of_nat (String.length name))%Z eqn:H2; [|now left].
  apply Z.ltb_lt in H2.
  set (n := String.length name - 3).
  replace (Z.to_nat (Z.of_nat (String.length name) - 3)) with n by lia.
  replace (Z.to_nat (Z.of_nat (String.length name) - 2)) with (n + 1) by lia.
  replace (Z.to_nat (Z.of_nat (String.length name) - 1)) with (n + 2) by lia.
  assert (Hsplit := split_last3 n name ltac:(lia)).
  destruct (Ascii.eqb_spec (char_at name n) ".") as [Hdot|]; [|now left].
  rewrite Hdot in Hsplit. cbn [andb].
  destruct (Ascii.eqb_spec (char_at name (n + 1)) "b") as [Hb|];
  destruct (Ascii.eqb_spec (char_at name (n + 2)) "c") as [Hc|];
  destruct (Ascii.eqb_spec (char_at name (n + 1)) "l") as [Hl|];
  destruct (Ascii.eqb_spec (char_at name (n + 2)) "l") as [Hl'|];
  cbn [andb orb]; try (now left); try congruence;
  right; exists (substring 0 n name); (split; [|reflexivity]).
  - left. now rewrite Hb, Hc in Hsplit.
  - right. now rewrite Hl, Hl' in Hsplit.
Qed.

Lemma prefix_cons (a b : ascii) (s1 s2 : string) :
  String.prefix (String a s1) (String b s2)
  = Ascii.eqb b a && String.prefix s1 s2.
Proof.
  change (String.prefix (String a s1) (String b s2))
    with (if ascii_dec a b then String.prefix s1 s2 else false).
  destruct (ascii_dec a b) as [->|Hne].
  - now rewrite Ascii.eqb_refl.
  - destruct (Ascii.eqb_spec b a); [congruence | reflexivity].
Qed.

Lemma prefix_cpp (T : string) :
  String.prefix "cpp" T
  = Ascii.eqb (char_at T 0) "c"
    && (Ascii.eqb (char_at T 1) "p" && Ascii.eqb (char_at T 2) "p").
Proof.
  destruct T as [|a [|b [|c T]]].
  - reflexivity.
  - rewrite prefix_cons. unfold char_at; simpl. now rewrite andb_false_r.
  - rewrite !prefix_cons. unfold char_at; simpl. now rewrite !andb_false_r.
  - rewrite !prefix_cons. unfold char_at; simpl.
    destruct T; now rewrite andb_true_r.
Qed.

Lemma named_c (T : string) :
  no_nul T = true ->
  Ascii.eqb (char_at T 0) "c" && Ascii.eqb (char_at T 1) Ascii.zero = true
  <-> T = "c".
Proof.
  intros Hnul. split.
  - intros H. apply andb_true_iff in H as [H0 H1].
    apply Ascii.eqb_eq in H0, H1.
    destruct T as [|a [|b T]]; unfold char_at in *; simpl in *.
    + discriminate.
    + now subst.
    + subst b. rewrite Ascii.eqb_refl in Hnul. simpl in Hnul.
      now rewrite andb_false_r in Hnul.
  - now intros ->.
Qed.

Lemma extension_table_correct
    (ft : CodeGenFileType) (TargetName : string) (OS : OSType) :
  no_nul TargetName = true ->
  output_extension ft TargetName OS = extension_table ft TargetName OS.
Proof.
  intros Hnul. destruct ft; cbn [output_extension extension_table].
  - rewrite prefix_cpp.
    pose proof (named_c TargetName Hnul) as Hc.
    destruct (decide (TargetName = "c")) as [Heq|Hne].
    + apply Hc in Heq. apply andb_true_iff in Heq as [-> ->]. reflexivity.
    + destruct (Ascii.eqb (char_at TargetName 0) "c"); [|reflexivity].
      destruct (Ascii.eqb (char_at TargetName 1) Ascii.zero).
      * exfalso. apply Hne, Hc. reflexivity.
      * reflexivity.
  - destruct OS; reflexivity.
  - reflexivity.
Qed.

(** C4. With no explicit output name: for the input ["-"] the output is
    ["-"], standard output; otherwise it is the input name without a final
    [.bc] or [.ll] (the whole name when it ends in neither) followed by the
    extension of the table ([.cbe.c] for assembly from the backend named
    [c], [.cpp] from a backend whose name starts with [cpp], [.s] from any
    other; [.obj] for an object on Win32 and [.o] elsewhere; [.null]).  The
    binary flag is set exactly for the object and null kinds.
    [GetOutputStream] opens the file under that name with that flag.
    Input names are shorter than [2^31] characters and the backend name is
    a C string. *)
Theorem output_name_resolution
    (E : Env) (o : Options) (TargetName : string) (OS : OSType) :
  OutputFilename o = "" ->
  (Z.of_nat (String.length (InputFilename o)) < 2 ^ 31)%Z ->
  no_nul TargetName = true ->
  (InputFilename o = "-" -> resolved_OutputFilename o TargetName OS = "-")
  /\ (InputFilename o <> "-" ->
      resolved_OutputFilename o TargetName OS
      = GetFileNameRoot (InputFilename o)
        +:+ extension_table (FileType o) TargetName OS)
  /\ (forall root,
        InputFilename o = root +:+ ".bc" \/ InputFilename o = root +:+ ".ll" ->
        GetFileNameRoot (InputFilename o) = root)
  /\ ((forall root, InputFilename o <> root +:+ ".bc"
                    /\ InputFilename o <> root +:+ ".ll") ->
      GetFileNameRoot (InputFilename o) = InputFilename o)
  /\ (Binary (FileType o) = true
      <-> FileType o = CGFT_ObjectFile \/ FileType o = CGFT_Null)
  /\ (forall w f w',
        GetOutputStream E o TargetName OS w = (Ok (Some f), w') ->
        Filename f = resolved_OutputFilename o TargetName OS
        /\ tof_Binary f = Binary (FileType o))
  /\ (forall f s w,
        Filename f = "-" ->
        std_out (snd (os_write f s w)) = std_out w +:+ s
        /\ disk (snd (os_write f s w)) = disk w).
Proof.
  intros Hout Hlen Hnul. unfold resolved_OutputFilename. rewrite Hout.
  cbn [String.eqb]. repeat split.
  - intros ->. reflexivity.
  - intros Hne. destruct (String.eqb_spec (InputFilename o) "-"); [congruence|].
    now rewrite extension_table_correct.
  - intros root [Heq | Heq]; rewrite Heq in Hlen |- *;
      rewrite length_append in Hlen; cbn in Hlen;
      apply GetFileNameRoot_strips; try lia; auto.
  - intros Hno.
    destruct (GetFileNameRoot_cases (InputFilename o) Hlen)
      as [Hsame | (root & [Heq | Heq] & _)]; [assumption | |];
      destruct (Hno root); congruence.
  - destruct (FileType o); cbn; intros H; try discriminate; auto.
  - intros [H | H]; rewrite H; reflexivity.
  - unfold GetOutputStream, resolved_OutputFilename, mbind, M_bind,
      new_tool_output_file in H.
    rewrite Hout in H. cbn [String.eqb] in H.
    repeat (match type of H with
            | context [if ?b then _ else _] => destruct b
            end; cbn in H); inversion H; reflexivity.
  - unfold GetOutputStream, mbind, M_bind, new_tool_output_file in H.
    repeat (match type of H with
            | context [if ?b then _ else _] => destruct b
            end; cbn in H); inversion H; reflexivity.
  - unfold os_write. rewrite H. reflexivity.
  - unfold os_write. rewrite H. reflexivity.
Qed.

Lemma output_name_resolution_witness :
  resolved_OutputFilename llc_add "x86" Linux
  = GetFileNameRoot "add.ll" +:+ ".s".
Proof.
  pose proof (output_name_resolution demo_env llc_add "x86" Linux
                eq_refl ltac:(cbn; lia) eq_refl) as (_ & H & _).
  apply H. discriminate.
Defined.

(** ** Subtarget features *)

(** The toggles [AddFeature] makes of a list of feature strings. *)
Lemma foldl_AddFeature (l : list string) : forall acc : SubtargetFeatures,
  foldl AddFeature acc l
  = acc ++ map (fun s => PrependFlag s true)
             (filter (fun s => s <> "") l).
Proof.
  induction l as [|s l IH]; intros acc; cbn [foldl].
  - now rewrite app_nil_r.
  - rewrite IH. unfold AddFeature.
    destruct (String.eqb_spec s "") as [->|Hne].
    + rewrite filter_cons_False by (intros H; now apply H). reflexivity.
    + rewrite filter_cons_True by assumption.
      cbn [map]. now rewrite <- app_assoc.
Qed.

Lemma feature_set_app (xs ys : SubtargetFeatures) :
  feature_set (xs ++ ys) = foldl apply_toggle (feature_set xs) ys.
Proof. unfold feature_set. apply foldl_app. Qed.

(** A toggle is the last word on its feature as long as no later toggle
    names that feature. *)
Lemma foldl_apply_toggle_last (t : string) (ys : list string) :
  forall m : gmap string bool,
  Forall (fun t' => StripFlag t' <> StripFlag t) ys ->
  foldl apply_toggle (apply_toggle m t) ys !! StripFlag t = Some (isEnabled t).
Proof.
  induction ys as [|y ys IH] using rev_ind; intros m Hys.
  - cbn. unfold apply_toggle. apply lookup_insert_eq.
  - apply Forall_app in Hys as [Hys Hy]. inversion Hy as [|? ? Hne _]; subst.
    rewrite foldl_app. cbn [foldl]. unfold apply_toggle at 1.
    rewrite lookup_insert_ne by assumption. now apply IH.
Qed.

(** An earlier copy of a toggle changes nothing once the toggle is
    applied again. *)
Lemma apply_toggle_shadow (t : string) (ys : list string) :
  forall m : gmap string bool,
  apply_toggle (foldl apply_toggle (apply_toggle m t) ys) t
  = apply_toggle (foldl apply_toggle m ys) t.
Proof.
  induction ys as [|y ys IH] using rev_ind; intros m.
  - cbn. unfold apply_toggle. apply insert_insert_eq.
  - rewrite !foldl_app. cbn [foldl].
    specialize (IH m).
    set (A := foldl apply_toggle (apply_toggle m t) ys) in *.
    set (B := foldl apply_toggle m ys) in *.
    unfold apply_toggle in IH |- *.
    destruct (decide (StripFlag y = StripFlag t)) as [Heq|Hne].
    + rewrite Heq, !insert_insert_eq. exact IH.
    + rewrite (insert_insert_ne A (StripFlag t) (StripFlag y)) by congruence.
      rewrite (insert_insert_ne B (StripFlag t) (StripFlag y)) by congruence.
      now rewrite IH.
Qed.

Lemma packaged_Features_toggles (E : Env) (TheTriple : string) (l : list string) :
  packaged_Features E TheTriple l
  = toggles (default_features E TheTriple) ++ toggles l.
Proof.
  unfold packaged_Features, getDefaultSubtargetFeatures, toggles.
  now rewrite !foldl_AddFeature.
Qed.

Lemma toggles_app (l1 l2 : list string) :
  toggles (l1 ++ l2) = toggles l1 ++ toggles l2.
Proof. unfold toggles. now rewrite filter_app, map_app. Qed.

Lemma toggles_cons (a : string) (l : list string) :
  toggles (a :: l) = (if String.eqb a "" then [] else [toggle_of a]) ++ toggles l.
Proof.
  unfold toggles. destruct (String.eqb_spec a "") as [->|Hne].
  - now rewrite filter_cons_False by (intros H; now apply H).
  - now rewrite filter_cons_True by assumption.
Qed.

Lemma Forall_toggles (P : string -> Prop) (l : list string) :
  Forall (fun b => b = "" \/ P (toggle_of b)) l -> Forall P (toggles l).
Proof.
  induction 1 as [|b l Hb _ IH]; [constructor|].
  rewrite toggles_cons. destruct (String.eqb_spec b "") as [|Hne]; [exact IH|].
  constructor; [|exact IH]. destruct Hb; [contradiction | assumption].
Qed.

(** The run of the driver depends on the target machine constructor only
    through its value at the feature string of lines 380-392. *)
Lemma llc_main_features (argv0 : string) (E : Env) (o : Options) (w : World) :
  llc_main argv0 E o w
  = llc_main argv0
      (with_features (fun triple => FeaturesStr E triple (MAttrs o)) E) o w.
Proof.
  unfold llc_main.
  change (module_and_triple (with_features _ E) o) with (module_and_triple E o).
  destruct (module_and_triple E o) as [[mod_ TheTriple]|Err]; [|reflexivity].
  cbn [lookupTarget with_features].
  destruct (lookupTarget E (MArch o) TheTriple) as [[T T']|err]; [|reflexivity].
  destruct (OLvl_of (OptLevel o)); reflexivity.
Qed.

(** C10. With an empty attribute list the feature string is empty: the
    defaults of the target are not part of it, and the target machine is
    built as from the empty string.  With a first attribute [a] the string
    lists the defaults and then the attributes. *)
Theorem no_attributes_no_features (E : Env) (TheTriple : string) :
  FeaturesStr E TheTriple [] = ""
  /\ (forall argv0 o w,
        MAttrs o = [] ->
        llc_main argv0 E o w
        = llc_main argv0 (with_features (fun _ => "") E) o w)
  /\ (forall a l,
        FeaturesStr E TheTriple (a :: l)
        = getString (foldl AddFeature
                       (getDefaultSubtargetFeatures E [] TheTriple) (a :: l))).
Proof.
  split; [reflexivity|]. split; [|reflexivity].
  intros argv0 o w Hempty.
  rewrite llc_main_features. rewrite Hempty. reflexivity.
Qed.

(** C6, as the code has it.  When at least one attribute is given, the
    feature string lists the toggles of the target's defaults and then
    those of the attributes, in the order given, and the target machine is
    built from that string; in the feature set it denotes, an attribute
    that no later attribute contradicts has the state it was given,
    whatever the defaults and the earlier attributes say. *)
Theorem features_defaults_then_user
    (E : Env) (TheTriple : string) (attrs : list string) :
  attrs <> [] ->
  FeaturesStr E TheTriple attrs
  = getString (toggles (default_features E TheTriple) ++ toggles attrs)
  /\ (forall argv0 o w,
        MAttrs o = attrs ->
        llc_main argv0 E o w
        = llc_main argv0
            (with_features
               (fun triple =>
                  getString (toggles (default_features E triple) ++ toggles attrs))
               E) o w)
  /\ (forall before a after,
        attrs = before ++ a :: after ->
        a <> "" ->
        Forall (fun b => b = "" \/ feature_of b <> feature_of a) after ->
        feature_set (packaged_Features E TheTriple attrs) !! feature_of a
        = Some (polarity a)).
Proof.
  intros Hne.
  assert (Hstr : forall triple,
            FeaturesStr E triple attrs
            = getString (toggles (default_features E triple) ++ toggles attrs)).
  { intros triple. unfold FeaturesStr.
    destruct attrs; [congruence|]. cbn [length Nat.ltb Nat.leb].
    now rewrite packaged_Features_toggles. }
  split; [apply Hstr|]. split.
  - intros argv0 o w Hattrs. rewrite llc_main_features. rewrite Hattrs.
    unfold llc_main.
    change (module_and_triple (with_features _ E) o) with (module_and_triple E o).
    destruct (module_and_triple E o) as [[mod_ T0]|Err]; [|reflexivity].
    cbn [lookupTarget with_features].
    destruct (lookupTarget E (MArch o) T0) as [[T T']|err]; [|reflexivity].
    destruct (OLvl_of (OptLevel o)); [|reflexivity].
    cbn [createTargetMachine fix_features]. rewrite !Hstr. reflexivity.
  - intros before a after -> Ha Hafter.
    rewrite packaged_Features_toggles, toggles_app, toggles_cons.
    destruct (String.eqb_spec a "") as [|_]; [contradiction|].
    rewrite !app_assoc, <- (app_assoc _ [toggle_of a]).
    rewrite feature_set_app, foldl_app. cbn [foldl].
    apply foldl_apply_toggle_last.
    apply Forall_toggles. exact Hafter.
Qed.

(** C7, as the code has it.  Giving a feature twice does not change the
    feature set the target is configured with: a list of attributes in
    which [f] occurs and occurs again later denotes the same set as the
    list without the earlier occurrence; in particular [f, f] denotes what
    [f] denotes. *)
Theorem repeated_feature_same_set
    (E : Env) (TheTriple : string) (l1 l2 l3 : list string) (f : string) :
  feature_set (packaged_Features E TheTriple (l1 ++ f :: l2 ++ f :: l3))
  = feature_set (packaged_Features E TheTriple (l1 ++ l2 ++ f :: l3))
  /\ feature_set (packaged_Features E TheTriple [f; f])
     = feature_set (packaged_Features E TheTriple [f]).
Proof.
  assert (H : forall l1 l2 l3,
    feature_set (packaged_Features E TheTriple (l1 ++ f :: l2 ++ f :: l3))
    = feature_set (packaged_Features E TheTriple (l1 ++ l2 ++ f :: l3))).
  { clear. intros l1 l2 l3.
    rewrite !packaged_Features_toggles, !toggles_app, !toggles_cons,
            !toggles_app, !toggles_cons.
    destruct (String.eqb_spec f "") as [|_]; [reflexivity|].
    set (D := toggles (default_features E TheTriple)).
    rewrite !app_assoc.
    rewrite <- (app_assoc _ [toggle_of f] (toggles l2)).
    rewrite !feature_set_app. rewrite !foldl_app. cbn [foldl].
    f_equal. apply apply_toggle_shadow. }
  split; [apply H|]. apply (H [] [] []).
Qed.

(** With no attribute the defaults of the target are left out of the
    feature string: the claim C6 as the spec states it fails on
    [powerpc-apple-darwin], whose default feature set is [+altivec]. *)
Lemma features_defaults_counterexample :
  FeaturesStr demo_env "powerpc-apple-darwin" [] = ""
  /\ getString (getDefaultSubtargetFeatures demo_env [] "powerpc-apple-darwin")
     = "+altivec".
Proof. split; reflexivity. Qed.

Lemma features_defaults_then_user_witness :
  FeaturesStr demo_env "powerpc-apple-darwin" ["-altivec"] = "+altivec,-altivec"
  /\ feature_set (packaged_Features demo_env "powerpc-apple-darwin" ["-altivec"])
     !! "altivec" = Some false.
Proof.
  destruct (features_defaults_then_user demo_env "powerpc-apple-darwin"
              ["-altivec"] ltac:(discriminate)) as (Hstr & _ & Hset).
  split.
  - rewrite Hstr. reflexivity.
  - apply (Hset [] "-altivec" []); [reflexivity | discriminate | constructor].
Defined.

(** The feature string itself lists a repeated feature twice: the claim
    C7 as the spec states it fails on the string. *)
Lemma repeated_feature_counterexample :
  FeaturesStr demo_env "i686-unknown-linux" ["sse2"; "sse2"] = "+sse2,+sse2"
  /\ FeaturesStr demo_env "i686-unknown-linux" ["sse2"] = "+sse2".
Proof. split; reflexivity. Qed.

(** ** Optimization level *)

Lemma OLvl_of_None (c : ascii) :
  c ∉ [" "; "0"; "1"; "2"; "3"]%char -> OLvl_of c = None.
Proof.
  intros Hc. unfold OLvl_of.
  repeat match goal with
  | |- context [Ascii.eqb c ?d] =>
      destruct (Ascii.eqb_spec c d) as [->|_];
      [exfalso; apply Hc; set_solver|]
  end.
  reflexivity.
Qed.

(** C8, as the code has it.  The codes [0], [1], [2], [3] select None,
    Less, Default, Aggressive.  For every character other than these and
    the blank (the value of an unset option, which selects Default), the
    invocation ends with exit code 1; no stage of the pipeline has
    executed, no output file has been opened, and the disk is as it was. *)
Theorem invalid_optimization_level_is_fatal
    (argv0 : string) (E : Env) (o : Options) (disk0 : gmap string string) :
  OptLevel o ∉ [" "; "0"; "1"; "2"; "3"]%char ->
  (OLvl_of "0" = Some CodeGenOpt_None
   /\ OLvl_of "1" = Some CodeGenOpt_Less
   /\ OLvl_of "2" = Some CodeGenOpt_Default
   /\ OLvl_of "3" = Some CodeGenOpt_Aggressive)
  /\ fst (run_llc argv0 E o disk0) = Exited 1
  /\ Forall (fun e => is_pass_execution e = false /\ is_open e = false)
       (trace (snd (run_llc argv0 E o disk0)))
  /\ disk (snd (run_llc argv0 E o disk0)) = disk0.
Proof.
  intros Hc. apply OLvl_of_None in Hc.
  split; [repeat split|].
  unfold run_llc, llc_main.
  destruct (module_and_triple E o) as [[mod_ TheTriple]|Err].
  - destruct (lookupTarget E (MArch o) TheTriple) as [[T T']|err].
    + rewrite Hc. cbn. repeat split; repeat constructor.
    + cbn. repeat split; repeat constructor.
  - cbn. repeat split; repeat constructor.
Qed.

Lemma invalid_optimization_level_witness :
  fst (run_llc "llc" demo_env llc_O9 ∅) = Exited 1
  /\ trace (snd (run_llc "llc" demo_env llc_O9 ∅))
     = [EvDiag (invalid_optimization_level "llc")].
Proof.
  assert (Hc : OptLevel llc_O9 ∉ [" "; "0"; "1"; "2"; "3"]%char).
  { cbn. intros H. repeat (apply elem_of_cons in H as [H|H]; [discriminate|]).
    now apply elem_of_nil in H. }
  destruct (invalid_optimization_level_is_fatal "llc" demo_env llc_O9 ∅ Hc)
    as (_ & Hexit & _).
  split; [exact Hexit | reflexivity].
Defined.

(** The blank is a character other than [0] to [3], and the invocation
    it is given to succeeds: the claim C8 as the spec states it fails. *)
Lemma blank_optimization_level_counterexample :
  OptLevel llc_add = " "%char
  /\ OLvl_of " " = Some CodeGenOpt_Default
  /\ fst (run_llc "llc" demo_env llc_add ∅) = Exited 0.
Proof. repeat split. Qed.

(** ** The two execution strategies *)





Lemma with_functions_twice (M_ : Module) (fs gs : list Function) :
  with_functions (with_functions M_ fs) gs = with_functions M_ gs.
Proof. reflexivity. Qed.


(** The stage sequence against function [i] leaves the other functions
    of the module alone. *)
Lemma run_all_frame (ps : list Pass) : forall (M_ : Module) (i : nat),
  let '(_, M', _) := run_all M_ i ps in
  length (mod_functions M') = length (mod_functions M_)
  /\ forall j, j <> i -> mod_functions M' !! j = mod_functions M_ !! j.
Proof.
  induction ps as [|p ps IH]; intros M_ i; cbn [run_all].
  - now split.
  - destruct (runOnFunction p M_ i (pass_cur p)) as [[f s] out].
    specialize (IH (with_functions M_ (<[i:=f]> (mod_functions M_))) i).
    destruct (run_all _ i ps) as [[ps' M'] out'].
    destruct IH as [Hlen Hframe]. cbn in Hlen, Hframe. split.
    + now rewrite Hlen, length_insert.
    + intros j Hj. rewrite Hframe by assumption.
      now apply list_lookup_insert_ne.
Qed.

(** One call of [P->run] on a function: the call is recorded with the module as it
    was, and only function [i] may have changed. *)
Lemma FunctionPassManager_run_spec (i : nat) (st : PMState) :
  let '(ok, st') := FunctionPassManager_run i st in
  length (mod_functions (pm_module st'))
  = length (mod_functions (pm_module st))
  /\ (forall j, j <> i ->
        mod_functions (pm_module st') !! j = mod_functions (pm_module st) !! j)
  /\ (if ok then pm_events st' = pm_events st ++ [EvRun i (pm_module st)]
      else exists msg,
          pm_events st' = pm_events st ++ [EvRun i (pm_module st); EvDiag msg]
          /\ pm_module st' = pm_module st).
Proof.
  unfold FunctionPassManager_run.
  destruct (mod_functions (pm_module st) !! i) as [f|] eqn:Hf; cbn.
  - destruct (Materialize (pm_module st) f) as [f'|]; cbn.
    + destruct (is_resident f').
      * pose proof (run_all_frame (pm_passes st)
                      (with_functions (pm_module st)
                         (<[i:=f']> (mod_functions (pm_module st)))) i) as Hfr.
        destruct (run_all _ i (pm_passes st)) as [[ps M'] out].
        destruct Hfr as [Hlen Hframe]. cbn in *. repeat split.
        -- now rewrite Hlen, length_insert.
        -- intros j Hj. rewrite Hframe by assumption.
           now apply list_lookup_insert_ne.
      * cbn. repeat split.
        -- now rewrite length_insert.
        -- intros j Hj. now apply list_lookup_insert_ne.
    + repeat split. eexists. split; [|reflexivity].
      now rewrite <- app_assoc.
  - repeat split.
Qed.




(** *** Function-local stages *)





Lemma function_local_with_state (p : Pass) (s : pass_state p) :
  function_local p -> function_local (with_state p s).
Proof. intros H. exact H. Qed.











Lemma ImmutablePass_local (k : PassKind) : function_local (ImmutablePass k).
Proof.
  split.
  - intros M1 M2 i s _ Hi. cbn. now rewrite Hi.
  - intros M1 M2 s _. reflexivity.
Qed.




(** ** The paths through the driver *)

Lemma log_log (a b : list Event) (w : World) : log b (log a w) = log (a ++ b) w.
Proof. unfold log. cbn. now rewrite app_assoc. Qed.

Lemma log_nil (w : World) : log [] w = w.
Proof. destruct w. unfold log. cbn. now rewrite app_nil_r. Qed.

Lemma pass_id_spec (E : Env) (argv0 name which : string) (w : World) :
  (exists id, pass_id E argv0 name which w = (Ok id, w))
  \/ (exists msg, pass_id E argv0 name which w
                  = (Stop (Exited 1), log [EvDiag msg] w)
                  /\ name <> "" /\ getPassInfo E name = None).
Proof.
  unfold pass_id. destruct (String.eqb_spec name "") as [->|Hne]; cbn.
  - left. now eexists.
  - destruct (getPassInfo E name) as [PI|] eqn:HPI.
    + left. now eexists.
    + right. eexists. split; [reflexivity | now split].
Qed.

(** The assembly of the pipeline either hands the manager the passes of
    the driver followed by those of the target, or exits with code 1
    after a diagnostic, having added only the passes of the driver. *)
Lemma assemble_pipeline_spec
    (argv0 : string) (E : Env) (o : Options) (TheTriple : string)
    (target : TargetMachine) (mod_ : Module) (w : World) :
  let PM := driver_passes o TheTriple target mod_ in
  let T := (configure_Target E o argv0 TheTriple target).1 in
  let warning := (configure_Target E o argv0 TheTriple target).2 in
  (exists start stop backend,
      addPassesToEmitFile T PM (FileType o) (NoVerify o) start stop
      = Some backend
      /\ assemble_pipeline argv0 E o TheTriple target mod_ w
         = (Ok (T, PM ++ backend), log (adds PM ++ warning ++ adds backend) w))
  \/ (exists msg,
        assemble_pipeline argv0 E o TheTriple target mod_ w
        = (Stop (Exited 1), log (adds PM ++ warning ++ [EvDiag msg]) w)
        /\ ((exists start stop,
               addPassesToEmitFile T PM (FileType o) (NoVerify o) start stop
               = None)
            \/ getPassInfo E (StartAfter o) = None
            \/ getPassInfo E (StopAfter o) = None)).
Proof.
  cbn zeta. unfold assemble_pipeline.
  fold (adds (driver_passes o TheTriple target mod_)).
  destruct (configure_Target E o argv0 TheTriple target) as [T warning].
  cbn [fst snd]. unfold emit.
  unfold mbind, M_bind, emit_all, mret, M_ret, stop. rewrite log_log.
  set (w1 := log (adds (driver_passes o TheTriple target mod_) ++ warning) w).
  destruct (pass_id_spec E argv0 (StartAfter o) "start-after" w1)
    as [[start ->] | (msg & -> & _ & Hnone)].
  - destruct (pass_id_spec E argv0 (StopAfter o) "stop-after" w1)
      as [[stop_ ->] | (msg & -> & _ & Hnone)].
    + destruct (addPassesToEmitFile T _ (FileType o) (NoVerify o) start stop_)
        as [backend|] eqn:Hadd.
      * left. exists start, stop_, backend. split; [exact Hadd|].
        fold (adds backend). unfold w1.
        now rewrite log_log, <- app_assoc.
      * right. eexists. split.
        -- unfold w1. rewrite log_log, <- app_assoc. reflexivity.
        -- left. now exists start, stop_.
    + right. exists msg. split.
      * unfold w1. now rewrite log_log, <- app_assoc.
      * auto.
  - right. exists msg. split.
    + unfold w1. now rewrite log_log, <- app_assoc.
    + auto.
Qed.

(** The metadata phase: nothing when no metadata file is asked for;
    otherwise the prototypes are added, the stubs are made, and the text is
    written to a file that is kept, or that could not be opened. *)
Lemma write_metadata_spec
    (E : Env) (o : Options) (T : TargetMachine) (M_ : Module)
    (TheTriple : string) (w : World) :
  objects w ∉ kept w ->
  let meta := MetadataTextFilename o in
  let r := write_metadata E o T M_ TheTriple w in
  (meta = "" /\ r = (Ok 0%Z, w))
  \/ (meta <> "" /\ getDataLayout T = None
      /\ r = (Stop (Undefined "null DataLayout dereferenced"), w))
  \/ (exists TD,
        meta <> "" /\ getDataLayout T = Some TD
        /\ let text := metadata_text E (AddPrototypes E TD M_) TheTriple in
           (meta <> "-" /\ open_error E meta <> ""
            /\ r.1 = Stop (Exited 1)
            /\ trace r.2
               = trace w ++ [EvAddPrototypes; EvMakeAllStubs;
                             EvDiag (open_error E meta +:+ nl); EvErase meta]
            /\ disk r.2 = delete meta (disk w)
            /\ std_out r.2 = std_out w
            /\ kept r.2 = kept w)
           \/ ((meta = "-" \/ open_error E meta = "")
               /\ r.1 = Ok 0%Z
               /\ trace r.2
                  = trace w ++ [EvAddPrototypes; EvMakeAllStubs;
                                EvOpen meta true; EvKeep meta]
               /\ kept r.2 = objects w :: kept w
               /\ if String.eqb meta "-"
                  then std_out r.2 = std_out w +:+ text /\ disk r.2 = disk w
                  else disk r.2 = <[meta := text]> (disk w)
                       /\ std_out r.2 = std_out w)).
Proof.
  intros Hfresh. cbn zeta. unfold write_metadata.
  destruct (String.eqb_spec (MetadataTextFilename o) "") as [Hempty|Hmeta]; cbn [negb].
  { left. now split. }
  right. destruct (getDataLayout T) as [TD|].
  2:{ left. now repeat split. }
  right. exists TD. split; [exact Hmeta|]. split; [reflexivity|].
  unfold WriteTextMetadataFile, new_tool_output_file, owning, destroy, keep,
    os_write, emit.
  unfold mbind, M_bind, mret, M_ret, emit_all, stop. cbn -[bool_decide].
  destruct (String.eqb_spec (MetadataTextFilename o) "-") as [Hdash|Hfile];
    cbn -[bool_decide].
  - right. rewrite Hdash. cbn. repeat split; auto.
    now rewrite <- !app_assoc.
  - destruct (String.eqb (open_error E (MetadataTextFilename o)) "") eqn:Hopen;
      cbn -[bool_decide].
    + right. apply String.eqb_eq in Hopen as Hok. rewrite Hok.
      destruct (String.eqb_spec (MetadataTextFilename o) "-");
        [contradiction|]. cbn -[bool_decide].
      destruct (bool_decide_reflect (objects w ∈ objects w :: kept w)) as [_|Hk];
        [|exfalso; apply Hk; apply elem_of_cons; now left]. cbn.
      repeat split; auto.
      * now rewrite <- !app_assoc.
      * now rewrite alter_insert_eq.
    + left. apply String.eqb_neq in Hopen as Herr. rewrite Hopen.
      destruct (String.eqb_spec (MetadataTextFilename o) "-");
        [contradiction|]. cbn -[bool_decide].
      destruct (bool_decide_reflect (objects w ∈ kept w)) as [Hk|_];
        [contradiction|]. cbn.
      repeat split; auto.
      now rewrite <- !app_assoc.
Qed.

Lemma GetOutputStream_initial
    (E : Env) (o : Options) (TargetName : string) (OS : OSType)
    (disk0 : gmap string string) :
  let out := resolved_OutputFilename o TargetName OS in
  let Out := {| tof_id := 0; Filename := out;
                tof_Binary := Binary (FileType o) |} in
  GetOutputStream E o TargetName OS (initial_world disk0)
  = if String.eqb out "-" then
      (Ok (Some Out),
       {| trace := [EvOpen out (Binary (FileType o))]; disk := disk0;
          std_out := ""; objects := 1; kept := [] |})
    else if String.eqb (open_error E out) "" then
      (Ok (Some Out),
       {| trace := [EvOpen out (Binary (FileType o))];
          disk := <[out := ""]> disk0;
          std_out := ""; objects := 1; kept := [] |})
    else
      (Ok None,
       {| trace := [EvDiag (open_error E out +:+ nl); EvErase out];
          disk := delete out disk0;
          std_out := ""; objects := 1; kept := [] |}).
Proof.
  cbn zeta. unfold GetOutputStream, new_tool_output_file, initial_world.
  unfold mbind, M_bind. cbn -[bool_decide].
  destruct (String.eqb (resolved_OutputFilename o TargetName OS) "-") eqn:Hdash;
    [reflexivity|].
  destruct (String.eqb (open_error E (resolved_OutputFilename o TargetName OS)) "")
    eqn:Hopen; cbn -[bool_decide]; [reflexivity|].
  unfold owning, destroy, emit, emit_all, log, mret, M_ret. cbn -[bool_decide].
  rewrite Hdash, Hopen. reflexivity.
Qed.

Ltac same_events :=
  repeat rewrite <- app_assoc; cbn [app];
  rewrite ?app_nil_r; repeat rewrite <- app_assoc; try reflexivity.

Lemma erasure_dash (out : string) :
  String.eqb out "-" = true -> erasure out = [].
Proof. unfold erasure. now intros ->. Qed.

Lemma erasure_file (out : string) :
  String.eqb out "-" = false -> erasure out = [EvErase out].
Proof. unfold erasure. now intros ->. Qed.

(** The metadata phase never takes back a kept file. *)
Lemma write_metadata_kept
    (E : Env) (o : Options) (T : TargetMachine) (M_ : Module)
    (TheTriple : string) (w : World) (id : nat) :
  objects w ∉ kept w ->
  id ∈ kept w ->
  id ∈ kept (write_metadata E o T M_ TheTriple w).2.
Proof.
  intros Hfresh Hid.
  destruct (write_metadata_spec E o T M_ TheTriple w Hfresh)
    as [[_ ->] | [(_ & _ & ->) | (TD & _ & _ & [H | H])]]; cbn zeta in *.
  - exact Hid.
  - exact Hid.
  - destruct H as (_ & _ & _ & _ & _ & _ & ->). exact Hid.
  - destruct H as (_ & _ & _ & -> & _). apply elem_of_cons. now right.
Qed.

(** Every way [llc_codegen] can go, from an untouched world: the output
    cannot be opened; the pipeline cannot be assembled; a body cannot be
    fetched during the run; or the run completes, the output is kept, and
    the metadata phase follows. *)
Lemma llc_codegen_paths
    (argv0 : string) (E : Env) (o : Options) (TheTarget : Target)
    (TheTriple : string) (target : TargetMachine) (mod_ : Module)
    (disk0 : gmap string string) :
  let out := output_name E o TheTarget TheTriple in
  let meta := MetadataTextFilename o in
  let PM := driver_passes o TheTriple target mod_ in
  let T := (configure_Target E o argv0 TheTriple target).1 in
  let warning := (configure_Target E o argv0 TheTriple target).2 in
  let opened := EvOpen out (Binary (FileType o)) :: adds PM ++ warning in
  let r := llc_codegen argv0 E o TheTarget TheTriple target mod_
             (initial_world disk0) in
  (out <> "-" /\ open_error E out <> ""
   /\ r.1 = Stop (Exited 1)
   /\ trace r.2 = [EvDiag (open_error E out +:+ nl); EvErase out]
   /\ disk r.2 = delete out disk0)
  \/ ((out = "-" \/ open_error E out = "")
      /\ ((exists msg,
             r.1 = Stop (Exited 1)
             /\ trace r.2 = opened ++ [EvDiag msg] ++ erasure out
             /\ disk r.2 = (if String.eqb out "-" then disk0
                            else delete out disk0)
             /\ ((exists start stop,
                     addPassesToEmitFile T PM (FileType o) (NoVerify o)
                       start stop = None)
                 \/ getPassInfo E (StartAfter o) = None
                 \/ getPassInfo E (StopAfter o) = None))
          \/ (exists start stop backend,
                addPassesToEmitFile T PM (FileType o) (NoVerify o) start stop
                = Some backend
                /\ let run := run_pipeline (LazyBitcode o)
                                (ReduceMemoryFootprint o)
                                (initial_PMState (PM ++ backend) mod_) in
                   let ran := opened ++ adds backend ++ pm_events run.2 in
                   (run.1 = false
                    /\ r.1 = Stop (Exited 1)
                    /\ trace r.2 = ran ++ erasure out
                    /\ disk r.2 = (if String.eqb out "-" then disk0
                                   else delete out disk0))
                   \/ (run.1 = true
                       /\ r = write_metadata E o T (pm_module run.2) TheTriple
                                (code_kept out (pm_out run.2) ran disk0))))).
Proof.
  cbn zeta. unfold output_name.
  set (out := resolved_OutputFilename o (getName TheTarget)
                (Triple_getOS E TheTriple)).
  remember (llc_codegen argv0 E o TheTarget TheTriple target mod_
              (initial_world disk0)) as r eqn:Hr.
  unfold llc_codegen in Hr. unfold mbind at 1, M_bind at 1 in Hr.
  rewrite (GetOutputStream_initial E o (getName TheTarget)
             (Triple_getOS E TheTriple) disk0) in Hr.
  fold out in Hr.
  destruct (String.eqb out "-") eqn:Hdash;
    [| destruct (String.eqb (open_error E out) "") eqn:Hopen ].
  3:{ left. apply String.eqb_neq in Hdash, Hopen. subst r. cbn.
      repeat split; auto. }
  all: right; split;
    [ first [ left; now apply String.eqb_eq in Hdash
            | right; now apply String.eqb_eq in Hopen ] |].
  all: unfold owning, mbind, M_bind in Hr.
  all: match type of Hr with
       | context [assemble_pipeline ?a ?e ?opts ?tr ?tm ?m ?w] =>
           destruct (assemble_pipeline_spec a e opts tr tm m w)
             as [(start & stop_ & backend & Hadd & Hasm)
                | (msg & Hasm & Hwhy)];
           rewrite Hasm in Hr; clear Hasm
       end.
  all: cbn [fst snd] in *.
  - (* standard output, pipeline assembled *)
    right. exists start, stop_, backend. split; [exact Hadd|].
    unfold initial_PMState.
    destruct (run_pipeline _ _ _) as [[|] st]; cbn [fst snd negb] in *.
    + right. split; [reflexivity|].
      unfold destroy, os_write, keep, log, code_kept in *.
      cbn -[bool_decide write_metadata] in Hr.
      rewrite Hdash in *. cbn -[bool_decide write_metadata] in Hr.
      rewrite Hr. destruct (write_metadata _ _ _ _ _ _) as [r' w'] eqn:Hw.
      rewrite <- Hw. f_equal. f_equal. cbn. same_events.
    + left. subst r. unfold destroy, os_write, log, stop. cbn.
      rewrite Hdash. cbn. rewrite (erasure_dash out Hdash).
      repeat split; try same_events.
  - (* standard output, no pipeline *)
    left. exists msg. subst r. unfold destroy, log. cbn. rewrite Hdash. cbn.
    rewrite (erasure_dash out Hdash).
    repeat split; try exact Hwhy; try same_events.
  - (* a file, pipeline assembled *)
    right. exists start, stop_, backend. split; [exact Hadd|].
    unfold initial_PMState.
    destruct (run_pipeline _ _ _) as [[|] st]; cbn [fst snd negb] in *.
    + right. split; [reflexivity|].
      unfold os_write, keep, log, code_kept in *.
      cbn -[bool_decide write_metadata destroy] in Hr.
      rewrite Hdash in *. cbn -[bool_decide write_metadata destroy] in Hr.
      rewrite alter_insert_eq in Hr. cbn -[bool_decide write_metadata destroy] in Hr.
      match type of Hr with
      | context [write_metadata ?e ?opts ?t ?m ?tr ?w] =>
          pose proof (write_metadata_kept e opts t m tr w 0) as Hkept;
          replace w with
            {| trace := (EvOpen out (Binary (FileType o))
                         :: adds (driver_passes o TheTriple target mod_)
                            ++ (configure_Target E o argv0 TheTriple target).2
                            ++ adds backend ++ pm_events st) ++ [EvKeep out];
               disk := <[out:=pm_out st]> disk0;
               std_out := ""; objects := 1; kept := [0] |} in Hr, Hkept
            by (f_equal; cbn; same_events)
      end.
      destruct (write_metadata _ _ _ _ _ _) as [r' w'] eqn:Hw.
      rewrite Hr. f_equal. unfold destroy. cbn [Filename tof_id].
      rewrite Hdash.
      destruct (bool_decide_reflect (0 ∈ kept w')) as [_|Hno]; [reflexivity|].
      exfalso. apply Hno. apply Hkept; cbn.
      * intros Hin. apply elem_of_cons in Hin as [Hin|Hin]; [discriminate|].
        now apply elem_of_nil in Hin.
      * apply elem_of_cons. now left.
    + left. subst r. unfold destroy, os_write, log, stop.
      cbn -[bool_decide]. rewrite Hdash. cbn.
      rewrite (erasure_file out Hdash).
      repeat split; try same_events.
      rewrite alter_insert_eq. apply delete_insert_eq.
  - (* a file, no pipeline *)
    left. exists msg. subst r. unfold destroy, log. cbn -[bool_decide].
    rewrite Hdash. cbn. rewrite (erasure_file out Hdash).
    repeat split; try exact Hwhy; try same_events.
    apply delete_insert_eq.
Qed.

(** ** Reading traces *)

Lemma split_after (P : Event -> bool) (l1 : list Event) :
  forall l2 pre e post,
  l1 ++ l2 = pre ++ e :: post ->
  P e = true ->
  Forall (fun x => P x = false) l1 ->
  exists pre', pre = l1 ++ pre' /\ l2 = pre' ++ e :: post.
Proof.
  induction l1 as [|x l1 IH]; intros l2 pre e post Heq He Hl1.
  - exists pre. now split.
  - inversion Hl1 as [|? ? Hx Hl1']; subst.
    destruct pre as [|y pre]; cbn in Heq; inversion Heq; subst.
    + congruence.
    + destruct (IH l2 pre e post ltac:(assumption) He Hl1') as (pre' & -> & ->).
      now exists pre'.
Qed.

Lemma split_before (P : Event -> bool) (l : list Event) :
  forall rest pre e post,
  l ++ rest = pre ++ e :: post ->
  P e = true ->
  Forall (fun x => P x = false) rest ->
  exists post', l = pre ++ e :: post'.
Proof.
  induction l as [|x l IH]; intros rest pre e post Heq He Hrest.
  - cbn in Heq. subst rest. apply Forall_app in Hrest as [_ Hrest].
    inversion Hrest; congruence.
  - destruct pre as [|y pre]; cbn in Heq; inversion Heq; subst.
    + now exists l.
    + destruct (IH rest pre e post ltac:(assumption) He Hrest) as (post' & ->).
      now exists post'.
Qed.

Lemma added_app (a b : list Event) : added (a ++ b) = added a ++ added b.
Proof. unfold added. apply omap_app. Qed.

Lemma added_adds (ps : list Pass) : added (adds ps) = map pass_kind ps.
Proof. induction ps as [|p ps IH]; cbn; [reflexivity | now f_equal]. Qed.

Lemma added_none (l : list Event) :
  Forall (fun e => is_run_event e = true \/ is_quiet e = true) l ->
  added l = [].
Proof.
  induction 1 as [|e l He _ IH]; [reflexivity|].
  unfold added in *. cbn. rewrite IH.
  destruct e; cbn in *; try reflexivity; destruct He; discriminate.
Qed.

(** *** The events of a run *)

Lemma per_function_loop_events (reduce : bool) (idx : list nat) :
  forall st,
  Forall (fun e => is_run_event e = true) (pm_events st) ->
  Forall (fun e => is_run_event e = true)
    (pm_events (per_function_loop reduce idx st).2).
Proof.
  induction idx as [|i idx IH]; intros st Hst; cbn [per_function_loop].
  - exact Hst.
  - pose proof (FunctionPassManager_run_spec i st) as Hrun.
    destruct (FunctionPassManager_run i st) as [[|] st1].
    + destruct Hrun as (_ & _ & Hev). apply IH.
      destruct reduce; cbn; rewrite Hev.
      * repeat (apply Forall_app; split); try assumption; repeat constructor.
      * apply Forall_app; split; [assumption | repeat constructor].
    + destruct Hrun as (_ & _ & msg & Hev & _). cbn. rewrite Hev.
      apply Forall_app; split; [assumption | repeat constructor].
Qed.

Lemma run_pipeline_events (streaming reduce : bool) (ps : list Pass) (M_ : Module) :
  Forall (fun e => is_run_event e = true)
    (pm_events (run_pipeline streaming reduce (initial_PMState ps M_)).2).
Proof.
  unfold run_pipeline. destruct (streaming || reduce).
  - pose proof (per_function_loop_events reduce
                  (seq 0 (length (mod_functions M_)))
                  (FunctionPassManager_doInitialization (initial_PMState ps M_)))
      as Hloop.
    cbn [pm_module initial_PMState].
    destruct (per_function_loop reduce _ _) as [[|] st]; cbn [snd] in *.
    + unfold FunctionPassManager_doFinalization.
      destruct (fini_all _ _). cbn.
      apply Forall_app; split; [|repeat constructor]. apply Hloop.
      unfold FunctionPassManager_doInitialization.
      destruct (init_all _ _). cbn. repeat constructor.
    + apply Hloop. unfold FunctionPassManager_doInitialization.
      destruct (init_all _ _). cbn. repeat constructor.
  - unfold PassManager_run. cbn.
    destruct (init_all _ _). destruct (run_over _ _ _) as [[? ?] ?].
    destruct (fini_all _ _). cbn. repeat constructor.
Qed.

Lemma configure_Target_warning
    (E : Env) (o : Options) (argv0 TheTriple : string) (T : TargetMachine) :
  Forall (fun e => is_quiet e = true) (configure_Target E o argv0 TheTriple T).2.
Proof.
  unfold configure_Target.
  destruct (RelaxAll o); [|constructor].
  destruct (FileType o); cbn; repeat constructor.
Qed.

(** ** The pipeline *)

Lemma no_such_event (P : Event -> bool) (l pre post : list Event) (e : Event) :
  Forall (fun x => P x = false) l -> l = pre ++ e :: post -> P e = true -> False.
Proof.
  intros Hl -> He. apply Forall_app in Hl as [_ Hl].
  inversion Hl; congruence.
Qed.

Lemma adds_not_execution (ps : list Pass) :
  Forall (fun e => is_pass_execution e = false) (adds ps).
Proof. induction ps; cbn; constructor; auto. Qed.

Lemma quiet_not_execution (l : list Event) :
  Forall (fun e => is_quiet e = true) l ->
  Forall (fun e => is_pass_execution e = false) l.
Proof.
  intros Hl. eapply Forall_impl; [exact Hl|].
  intros e He. destruct e; cbn in *; congruence.
Qed.

Lemma erasure_quiet (name : string) :
  Forall (fun e => is_quiet e = true) (erasure name).
Proof. unfold erasure. destruct (String.eqb name "-"); repeat constructor. Qed.

(** What follows the run in the trace of the metadata phase holds no
    stage execution and adds no pass. *)
Lemma write_metadata_trace
    (E : Env) (o : Options) (T : TargetMachine) (M_ : Module)
    (TheTriple : string) (w : World) :
  objects w ∉ kept w ->
  exists rest,
    trace (write_metadata E o T M_ TheTriple w).2 = trace w ++ rest
    /\ Forall (fun e => is_pass_execution e = false) rest
    /\ added rest = [].
Proof.
  intros Hfresh.
  destruct (write_metadata_spec E o T M_ TheTriple w Hfresh)
    as [[_ ->] | [(_ & _ & ->) | (TD & _ & _ & [H | H])]]; cbn zeta in *.
  - exists []. rewrite app_nil_r. repeat split; constructor.
  - exists []. rewrite app_nil_r. repeat split; constructor.
  - destruct H as (_ & _ & _ & -> & _). eexists. split; [reflexivity|].
    split; [repeat constructor | reflexivity].
  - destruct H as (_ & _ & -> & _). eexists. split; [reflexivity|].
    split; [repeat constructor | reflexivity].
Qed.

(** ** The metadata artifact *)

Lemma kept_files_app (a b : list Event) :
  kept_files (a ++ b) = kept_files a ++ kept_files b.
Proof. unfold kept_files. apply omap_app. Qed.

Lemma kept_files_none (l : list Event) :
  Forall (fun e => is_keep e = false) l -> kept_files l = [].
Proof.
  induction 1 as [|e l He _ IH]; [reflexivity|].
  unfold kept_files in *. cbn. rewrite IH.
  destruct e; cbn in *; try reflexivity; discriminate.
Qed.

(** Before the output is kept nothing is kept and the metadata phase has
    not begun. *)
Lemma ran_plain
    (argv0 : string) (E : Env) (o : Options) (TheTriple out : string)
    (target : TargetMachine) (mod_ : Module) (backend : list Pass) :
  let PM := driver_passes o TheTriple target mod_ in
  let warning := (configure_Target E o argv0 TheTriple target).2 in
  let run := run_pipeline (LazyBitcode o) (ReduceMemoryFootprint o)
               (initial_PMState (PM ++ backend) mod_) in
  Forall (fun e => is_keep e = false /\ is_metadata e = false)
    ((EvOpen out (Binary (FileType o)) :: adds PM ++ warning)
     ++ adds backend ++ pm_events run.2).
Proof.
  cbn zeta. apply Forall_app. split; [|apply Forall_app; split].
  - constructor; [now split|]. apply Forall_app. split.
    + repeat constructor.
    + eapply Forall_impl; [apply configure_Target_warning|].
      intros e He. destruct e; cbn in *; try discriminate; auto.
  - induction backend; cbn; constructor; auto.
  - eapply Forall_impl; [apply run_pipeline_events|].
    intros e He. destruct e; cbn in *; try discriminate; auto.
Qed.

(** C5. When a metadata file is asked for, the metadata phase, if it is
    reached at all, comes after the whole run of the pipeline and directly
    after the compiled code was kept: the prototypes of the intrinsics are
    added to the module, then the stubs are made, then the file is opened,
    written and kept (or could not be opened).  The text is one record per
    stub of the list made from the module with the prototypes added, in
    the order of the list.  An invocation that ends with code 0 has
    written it. *)
Theorem metadata_after_code
    (argv0 : string) (E : Env) (o : Options) (TheTarget : Target)
    (TheTriple : string) (target : TargetMachine) (mod_ : Module)
    (disk0 : gmap string string) :
  MetadataTextFilename o <> "" ->
  let out := output_name E o TheTarget TheTriple in
  let meta := MetadataTextFilename o in
  let PM := driver_passes o TheTriple target mod_ in
  let T := (configure_Target E o argv0 TheTriple target).1 in
  let r := llc_codegen argv0 E o TheTarget TheTriple target mod_
             (initial_world disk0) in
  (Forall (fun e => is_metadata e = false) (trace r.2) /\ r.1 <> Ok 0%Z)
  \/ exists start stop backend TD,
       addPassesToEmitFile T PM (FileType o) (NoVerify o) start stop
       = Some backend
       /\ getDataLayout T = Some TD
       /\ let run := run_pipeline (LazyBitcode o) (ReduceMemoryFootprint o)
                       (initial_PMState (PM ++ backend) mod_) in
          let M' := AddPrototypes E TD (pm_module run.2) in
          let text := metadata_text E M' TheTriple in
          run.1 = true
          /\ text = foldl (fun s stub => s +:+ WriteTextELFStub E stub) ""
                      (MakeAllStubs E M' TheTriple)
          /\ exists ran rest,
               trace r.2
               = ran ++ [EvKeep out; EvAddPrototypes; EvMakeAllStubs] ++ rest
               /\ Forall (fun e => is_keep e = false /\ is_metadata e = false) ran
               /\ Forall (fun e => is_pass_execution e = false) rest
               /\ ((rest = [EvOpen meta true; EvKeep meta]
                    /\ r.1 = Ok 0%Z
                    /\ if String.eqb meta "-"
                       then std_out r.2
                            = (if String.eqb out "-" then pm_out run.2 else "")
                              +:+ text
                       else disk r.2 !! meta = Some text)
                   \/ (rest = [EvDiag (open_error E meta +:+ nl); EvErase meta]
                       /\ r.1 = Stop (Exited 1)
                       /\ disk r.2 !! meta = None)).
Proof.
  intros Hmeta. cbn zeta.
  pose proof (llc_codegen_paths argv0 E o TheTarget TheTriple target mod_ disk0)
    as Hpaths. cbn zeta in Hpaths.
  set (r := llc_codegen argv0 E o TheTarget TheTriple target mod_
              (initial_world disk0)) in *.
  set (out := output_name E o TheTarget TheTriple) in *.
  destruct Hpaths as
    [(_ & _ & Hexit & Htrace & _)
    | (_ & [(msg & Hexit & Htrace & _ & Hwhy)
           | (start & stop_ & backend & Hadd & Hrun)])].
  - left. rewrite Hexit, Htrace. split; [repeat constructor | discriminate].
  - left. rewrite Hexit, Htrace. split; [|discriminate].
    apply Forall_app. split; [|constructor; [reflexivity|]].
    + constructor; [reflexivity|]. apply Forall_app. split.
      * repeat constructor.
      * eapply Forall_impl; [apply configure_Target_warning|].
        intros e He. destruct e; cbn in *; try discriminate; auto.
    + eapply Forall_impl; [apply erasure_quiet|].
      intros e He. destruct e; cbn in *; try discriminate; auto.
  - pose proof (ran_plain argv0 E o TheTriple out target mod_ backend) as Hran.
    cbn zeta in Hran.
    set (run := run_pipeline (LazyBitcode o) (ReduceMemoryFootprint o)
                  (initial_PMState (driver_passes o TheTriple target mod_ ++ backend)
                     mod_)) in *.
    set (ran := (EvOpen out (Binary (FileType o))
                 :: adds (driver_passes o TheTriple target mod_)
                    ++ (configure_Target E o argv0 TheTriple target).2)
                ++ adds backend ++ pm_events run.2) in *.
    clearbody ran.
    destruct Hrun as [(_ & Hexit & Htrace & _) | (Hok & Hr)].
    + left. rewrite Hexit, Htrace. split; [|discriminate].
      apply Forall_app. split.
      * eapply Forall_impl; [exact Hran|]. now intros e [_ ?].
      * eapply Forall_impl; [apply erasure_quiet|].
        intros e He. destruct e; cbn in *; try discriminate; auto.
    + destruct (write_metadata_spec E o
                  (configure_Target E o argv0 TheTriple target).1
                  (pm_module run.2) TheTriple
                  (code_kept out (pm_out run.2) ran disk0))
        as [[Hempty _] | [(_ & _ & Hw) | (TD & _ & HTD & [H | H])]];
        cbn zeta in *.
      * cbn. intros Hin. apply elem_of_cons in Hin as [Hin|Hin]; [discriminate|].
        now apply elem_of_nil in Hin.
      * contradiction.
      * left. rewrite Hr, Hw. cbn. split; [|discriminate].
        apply Forall_app. split; [|repeat constructor].
        eapply Forall_impl; [exact Hran|]. now intros e [_ ?].
      * destruct H as (_ & _ & Hexit & Htrace & Hdisk & _).
        right. exists start, stop_, backend, TD.
        split; [exact Hadd|]. split; [exact HTD|]. split; [exact Hok|].
        split; [reflexivity|].
        exists ran, [EvDiag (open_error E (MetadataTextFilename o) +:+ nl);
                     EvErase (MetadataTextFilename o)].
        split; [|split; [exact Hran | split; [repeat constructor|]]].
        -- rewrite Hr, Htrace. cbn. now rewrite <- !app_assoc.
        -- right. split; [reflexivity|]. split; [now rewrite Hr|].
           rewrite Hr, Hdisk. apply lookup_delete_eq.
      * destruct H as (_ & Hexit & Htrace & _ & Hcontent).
        right. exists start, stop_, backend, TD.
        split; [exact Hadd|]. split; [exact HTD|]. split; [exact Hok|].
        split; [reflexivity|].
        exists ran, [EvOpen (MetadataTextFilename o) true;
                     EvKeep (MetadataTextFilename o)].
        split; [|split; [exact Hran | split; [repeat constructor|]]].
        -- rewrite Hr, Htrace. cbn. now rewrite <- !app_assoc.
        -- left. split; [reflexivity|]. split; [now rewrite Hr|].
           rewrite Hr.
           destruct (String.eqb (MetadataTextFilename o) "-").
           ++ destruct Hcontent as [-> _]. reflexivity.
           ++ destruct Hcontent as [-> _]. apply lookup_insert_eq.
Qed.

Lemma metadata_after_code_witness :
  (llc_codegen "llc" demo_env llc_metadata x86_target "i686-unknown-linux"
     x86_machine add_module (initial_world ∅)).1 = Ok 0%Z
  /\ exists text,
       disk (llc_codegen "llc" demo_env llc_metadata x86_target
               "i686-unknown-linux" x86_machine add_module (initial_world ∅)).2
       !! "deps.txt" = Some text.
Proof.
  split; [vm_compute; reflexivity|].
  destruct (metadata_after_code "llc" demo_env llc_metadata x86_target
              "i686-unknown-linux" x86_machine add_module ∅
              ltac:(discriminate))
    as [[_ Hfail]
       | (start & stop_ & backend & TD & _ & _ & _ & _ & ran & rest & _ & _ & _
          & [(_ & _ & Htext) | (_ & Hexit & _)])].
  - exfalso. apply Hfail. vm_compute. reflexivity.
  - eexists. exact Htext.
  - vm_compute in Hexit. discriminate.
Defined.

(** ** Outcomes of an invocation *)

(** Up to the opening of the output, the driver either stops, leaving at
    most a diagnostic, or has found the module, the target and its
    machine, and goes on to generate code. *)
Lemma llc_main_paths
    (argv0 : string) (E : Env) (o : Options) (disk0 : gmap string string) :
  let r := llc_main argv0 E o (initial_world disk0) in
  (((r.1 = Stop (Exited 1) /\ exists msg, trace r.2 = [EvDiag msg])
    \/ ((exists a, r.1 = Stop (Aborted a)) /\ trace r.2 = []))
   /\ disk r.2 = disk0)
  \/ exists mod_ T0 TheTarget TheTriple OLvl target,
       module_and_triple E o = inl (Some mod_, T0)
       /\ lookupTarget E (MArch o) T0 = inl (TheTarget, TheTriple)
       /\ OLvl_of (OptLevel o) = Some OLvl
       /\ createTargetMachine TheTarget TheTriple (MCPU o)
            (FeaturesStr E TheTriple (MAttrs o)) (make_TargetOptions o)
            (RelocModel o) (CMModel o) OLvl = Some target
       /\ r = llc_codegen argv0 E o TheTarget TheTriple target mod_
                (initial_world disk0).
Proof.
  cbn zeta. unfold llc_main.
  destruct (module_and_triple E o) as [[mod_ T0]|Err] eqn:Hmod.
  2:{ left. cbn. split; [|reflexivity]. left. split; [reflexivity|]. now eexists. }
  destruct (lookupTarget E (MArch o) T0) as [[TheTarget TheTriple]|err] eqn:Hlook.
  2:{ left. cbn. split; [|reflexivity]. left. split; [reflexivity|]. now eexists. }
  destruct (OLvl_of (OptLevel o)) as [OLvl|] eqn:Hlvl.
  2:{ left. cbn. split; [|reflexivity]. left. split; [reflexivity|]. now eexists. }
  destruct (createTargetMachine TheTarget TheTriple (MCPU o) _ _ _ _ OLvl)
    as [target|] eqn:Htm.
  2:{ left. cbn. split; [|reflexivity]. right. split; [now eexists | reflexivity]. }
  destruct mod_ as [mod_|].
  2:{ left. cbn. split; [|reflexivity]. right. split; [now eexists | reflexivity]. }
  right. exists mod_, T0, TheTarget, TheTriple, OLvl, target.
  repeat split; assumption.
Qed.

(** The four ways code generation can end: success with everything asked
    for kept; failure with nothing kept and no output file left; failure
    of the metadata file alone, after the code was kept; undefined
    behaviour in the metadata phase of a target without a data layout. *)
Lemma llc_codegen_outcomes
    (argv0 : string) (E : Env) (o : Options) (TheTarget : Target)
    (TheTriple : string) (target : TargetMachine) (mod_ : Module)
    (disk0 : gmap string string) :
  let out := output_name E o TheTarget TheTriple in
  let meta := MetadataTextFilename o in
  let r := llc_codegen argv0 E o TheTarget TheTriple target mod_
             (initial_world disk0) in
  (r.1 = Ok 0%Z
   /\ kept_files (trace r.2)
      = out :: (if String.eqb meta "" then [] else [meta])
   /\ (out <> "-" -> is_Some (disk r.2 !! out))
   /\ (meta <> "" -> meta <> "-" -> is_Some (disk r.2 !! meta)))
  \/ (r.1 = Stop (Exited 1)
      /\ kept_files (trace r.2) = []
      /\ disk r.2 = (if String.eqb out "-" then disk0 else delete out disk0))
  \/ (r.1 = Stop (Exited 1)
      /\ kept_files (trace r.2) = [out]
      /\ meta <> "" /\ meta <> "-" /\ open_error E meta <> ""
      /\ disk r.2 !! meta = None
      /\ (out <> "-" -> is_Some (disk r.2 !! out)))
  \/ ((exists what, r.1 = Stop (Undefined what))
      /\ kept_files (trace r.2) = [out]
      /\ meta <> "").
Proof.
  cbn zeta.
  pose proof (llc_codegen_paths argv0 E o TheTarget TheTriple target mod_ disk0)
    as Hpaths. cbn zeta in Hpaths.
  set (r := llc_codegen argv0 E o TheTarget TheTriple target mod_
              (initial_world disk0)) in *.
  set (out := output_name E o TheTarget TheTriple) in *.
  assert (Hquiet : forall l, Forall (fun e => is_quiet e = true) l ->
                             Forall (fun e => is_keep e = false) l).
  { intros l Hl. eapply Forall_impl; [exact Hl|].
    intros e He. destruct e; cbn in *; congruence. }
  assert (Hopened : Forall (fun e => is_keep e = false)
            (EvOpen out (Binary (FileType o))
             :: adds (driver_passes o TheTriple target mod_)
                ++ (configure_Target E o argv0 TheTriple target).2)).
  { constructor; [reflexivity|]. apply Forall_app. split.
    - repeat constructor.
    - apply Hquiet, configure_Target_warning. }
  destruct Hpaths as
    [(Hfile & _ & Hexit & Htrace & Hdisk)
    | (Hopen & [(msg & Hexit & Htrace & Hdisk & _)
               | (start & stop_ & backend & Hadd & Hrun)])].
  - right. left. rewrite Hexit, Htrace, Hdisk. repeat split.
    apply String.eqb_neq in Hfile. now rewrite Hfile.
  - right. left. rewrite Hexit, Htrace, Hdisk. repeat split.
    apply kept_files_none. apply Forall_app. split; [exact Hopened|].
    constructor; [reflexivity|]. apply Hquiet, erasure_quiet.
  - pose proof (ran_plain argv0 E o TheTriple out target mod_ backend) as Hran.
    cbn zeta in Hran.
    set (run := run_pipeline (LazyBitcode o) (ReduceMemoryFootprint o)
                  (initial_PMState (driver_passes o TheTriple target mod_ ++ backend)
                     mod_)) in *.
    set (ran := (EvOpen out (Binary (FileType o))
                 :: adds (driver_passes o TheTriple target mod_)
                    ++ (configure_Target E o argv0 TheTriple target).2)
                ++ adds backend ++ pm_events run.2) in *.
    clearbody ran.
    assert (Hnone : kept_files ran = []).
    { apply kept_files_none. eapply Forall_impl; [exact Hran|]. now intros e [? _]. }
    destruct Hrun as [(_ & Hexit & Htrace & Hdisk) | (Hok & Hr)].
    + right. left. rewrite Hexit, Htrace, Hdisk. repeat split.
      rewrite kept_files_app, Hnone. apply kept_files_none.
      apply Hquiet, erasure_quiet.
    + assert (Hout : out <> "-" ->
                disk (code_kept out (pm_out run.2) ran disk0) !! out
                = Some (pm_out run.2)).
      { intros Hne. unfold code_kept. cbn.
        apply String.eqb_neq in Hne. rewrite Hne. apply lookup_insert_eq. }
      destruct (write_metadata_spec E o
                  (configure_Target E o argv0 TheTriple target).1
                  (pm_module run.2) TheTriple
                  (code_kept out (pm_out run.2) ran disk0))
        as [[Hempty Hw] | [(Hmeta & _ & Hw) | (TD & Hmeta & _ & [H | H])]];
        cbn zeta in *.
      * cbn. intros Hin. apply elem_of_cons in Hin as [Hin|Hin]; [discriminate|].
        now apply elem_of_nil in Hin.
      * left. rewrite Hr, Hw, Hempty. cbn [fst snd String.eqb].
        split; [reflexivity|]. split; [|split].
        -- unfold code_kept. cbn [trace]. rewrite kept_files_app, Hnone. reflexivity.
        -- intros Hne. rewrite (Hout Hne). now eexists.
        -- intros Hne. contradiction.
      * right. right. right. rewrite Hr, Hw. cbn [fst snd]. split; [|split].
        -- now eexists.
        -- unfold code_kept. cbn [trace]. rewrite kept_files_app, Hnone. reflexivity.
        -- exact Hmeta.
      * destruct H as (Hdash & Herr & Hexit & Htrace & Hdisk & _).
        right. right. left. rewrite Hr, Hexit, Htrace, Hdisk.
        split; [reflexivity|]. split; [|split; [|split; [|split; [|split]]]];
          try assumption.
        -- unfold code_kept. cbn [trace].
           rewrite !kept_files_app, Hnone. reflexivity.
        -- apply lookup_delete_eq.
        -- intros Hne. rewrite lookup_delete_ne.
           ++ rewrite (Hout Hne). now eexists.
           ++ intros Heq. destruct Hopen as [Hopen | Hopen]; [contradiction|].
              unfold out in Hopen. fold out in Hopen. rewrite <- Heq in Hopen.
              contradiction.
      * destruct H as (Hmode & Hexit & Htrace & _ & Hcontent).
        left. rewrite Hr, Hexit, Htrace.
        apply String.eqb_neq in Hmeta as Hmeta'. rewrite Hmeta'.
        split; [reflexivity|]. split; [|split].
        -- unfold code_kept. cbn [trace].
           rewrite !kept_files_app, Hnone. reflexivity.
        -- intros Hne.
           destruct (String.eqb (MetadataTextFilename o) "-").
           ++ destruct Hcontent as [_ ->]. rewrite (Hout Hne). now eexists.
           ++ destruct Hcontent as [-> _].
              destruct (decide (MetadataTextFilename o = out)) as [->|Hdiff].
              ** rewrite lookup_insert_eq. now eexists.
              ** rewrite lookup_insert_ne by assumption.
                 rewrite (Hout Hne). now eexists.
        -- intros _ Hne. apply String.eqb_neq in Hne. rewrite Hne in Hcontent.
           destruct Hcontent as [-> _]. rewrite lookup_insert_eq. now eexists.
Qed.

(** C2, as the code has it.  An invocation that returns, returns 0 or 1.
    When it returns 0, the compiled code was kept and, when a metadata
    file was asked for, the metadata file was kept after it.  When it
    returns 1, the metadata file is not kept; the compiled code is not
    kept either and no output file is left (the disk is as it was, but
    for an output file that was removed), unless the failure is that the
    metadata file could not be opened: the compiled code was kept before
    and stays.  When no target is found for the triple, the invocation
    returns 1 after one diagnostic, and nothing was opened. *)
Theorem invocation_outcomes
    (argv0 : string) (E : Env) (o : Options) (disk0 : gmap string string) :
  let r := run_llc argv0 E o disk0 in
  let meta := MetadataTextFilename o in
  (forall c, r.1 = Exited c -> c = 0%Z \/ c = 1%Z)
  /\ (r.1 = Exited 0 ->
      exists out,
        kept_files (trace r.2)
        = out :: (if String.eqb meta "" then [] else [meta])
        /\ (out <> "-" -> is_Some (disk r.2 !! out))
        /\ (meta <> "" -> meta <> "-" -> is_Some (disk r.2 !! meta)))
  /\ (r.1 = Exited 1 ->
      (kept_files (trace r.2) = []
       /\ (disk r.2 = disk0 \/ exists out, disk r.2 = delete out disk0))
      \/ (exists out,
            kept_files (trace r.2) = [out]
            /\ meta <> "" /\ meta <> "-" /\ open_error E meta <> ""
            /\ disk r.2 !! meta = None
            /\ (out <> "-" -> is_Some (disk r.2 !! out))))
  /\ (forall mod_ T0 err,
        module_and_triple E o = inl (mod_, T0) ->
        lookupTarget E (MArch o) T0 = inr err ->
        r.1 = Exited 1
        /\ trace r.2 = [EvDiag (argv0 +:+ ": " +:+ err)]
        /\ disk r.2 = disk0).
Proof.
  cbn zeta.
  assert (Hlast :
    forall mod_ T0 err,
      module_and_triple E o = inl (mod_, T0) ->
      lookupTarget E (MArch o) T0 = inr err ->
      (run_llc argv0 E o disk0).1 = Exited 1
      /\ trace (run_llc argv0 E o disk0).2 = [EvDiag (argv0 +:+ ": " +:+ err)]
      /\ disk (run_llc argv0 E o disk0).2 = disk0).
  { intros mod_ T0 err Hmod Hlook. unfold run_llc, llc_main.
    rewrite Hmod, Hlook. cbn. auto. }
  pose proof (llc_main_paths argv0 E o disk0) as Hmain. cbn zeta in Hmain.
  unfold run_llc in Hlast |- *.
  destruct Hmain as
    [([(Hexit & msg & Htrace) | ((a & Hexit) & Htrace)] & Hdisk)
    | (mod_ & T0 & TheTarget & TheTriple & OLvl & target & _ & _ & _ & _ & Hr)].
  - destruct (llc_main argv0 E o (initial_world disk0)) as [res w].
    cbn [fst snd] in *. subst res. cbn [fst snd].
    split; [|split; [|split]].
    + intros c Hc. inversion Hc. now right.
    + discriminate.
    + intros _. left. rewrite Htrace. split; [reflexivity | now left].
    + exact Hlast.
  - destruct (llc_main argv0 E o (initial_world disk0)) as [res w].
    cbn [fst snd] in *. subst res. cbn [fst snd].
    split; [|split; [|split]]; try discriminate.
    exact Hlast.
  - pose proof (llc_codegen_outcomes argv0 E o TheTarget TheTriple target mod_
                  disk0) as Hout. cbn zeta in Hout. rewrite <- Hr in Hout.
    assert (Hlast' := Hlast).
    destruct (llc_main argv0 E o (initial_world disk0)) as [res w].
    cbn [fst snd] in *.
    destruct Hout as
      [(-> & Hkept & Hdisk & Hmeta)
      | [(-> & Hkept & Hdisk)
        | [(-> & Hkept & Hm1 & Hm2 & Hm3 & Hdisk & Hcode)
          | ((what & ->) & Hkept & _)]]]; cbn [fst snd].
    + split; [|split; [|split]]; try discriminate; try exact Hlast'.
      * intros c Hc. inversion Hc. now left.
      * intros _. eexists. split; [exact Hkept|]. now split.
    + split; [|split; [|split]]; try discriminate; try exact Hlast'.
      * intros c Hc. inversion Hc. now right.
      * intros _. left. split; [exact Hkept|]. rewrite Hdisk.
        destruct (String.eqb _ "-"); [now left | right; now eexists].
    + split; [|split; [|split]]; try discriminate; try exact Hlast'.
      * intros c Hc. inversion Hc. now right.
      * intros _. right. eexists. repeat split; try eassumption.
    + split; [|split; [|split]]; try discriminate; exact Hlast'.
Qed.

(** [llc add.ll -metadata-text /deps.txt], where the metadata file
    cannot be opened, returns 1 and leaves the compiled code kept as
    [add.s]: the claim C2 as the spec states it fails. *)
Lemma metadata_failure_counterexample :
  (run_llc "llc" demo_env llc_metadata_denied ∅).1 = Exited 1
  /\ kept_files (trace (run_llc "llc" demo_env llc_metadata_denied ∅).2)
     = ["add.s"]
  /\ disk (run_llc "llc" demo_env llc_metadata_denied ∅).2 !! "add.s"
     = Some (".file add.ll" +:+ nl +:+ "add: ret a+b" +:+ nl +:+ ".end" +:+ nl).
Proof. repeat split; vm_compute; reflexivity. Qed.

Lemma invocation_outcomes_witness :
  (run_llc "llc" demo_env llc_bogus ∅).1 = Exited 1
  /\ trace (run_llc "llc" demo_env llc_bogus ∅).2
     = [EvDiag "llc: error: unable to get target for 'bogus-unknown-unknown'"]
  /\ disk (run_llc "llc" demo_env llc_bogus ∅).2 = ∅.
Proof.
  destruct (invocation_outcomes "llc" demo_env llc_bogus ∅) as (_ & _ & _ & H).
  apply (H (Some (setTargetTriple add_module "bogus-unknown-unknown"))
           "bogus-unknown-unknown"
           "error: unable to get target for 'bogus-unknown-unknown'");
    reflexivity.
Defined.

(** ** Loading the module and choosing the triple (lines 297-369) *)

Lemma module_and_triple_loaded (E : Env) (o : Options) :
  SkipModule o = false ->
  module_and_triple E o
  = match load_module E o with
    | (None, Err) => inr Err
    | (Some M_, _) =>
        if String.eqb (TargetTriple o) "" then
          inl (Some M_, triple_or_default E (mod_TargetTriple M_))
        else
          inl (Some (setTargetTriple M_ (Triple_normalize E (TargetTriple o))),
               triple_or_default E (Triple_normalize E (TargetTriple o)))
    end.
Proof.
  intros Hskip. unfold module_and_triple.
  change (String.eqb (MCPU o) "help"
          || match MAttrs o with
             | front :: _ => String.eqb front "help"
             | [] => false
             end) with (SkipModule o).
  rewrite Hskip. cbn [negb].
  destruct (load_module E o) as [[M_|] Err]; [|reflexivity].
  destruct (String.eqb (TargetTriple o) ""); reflexivity.
Qed.

(** X1. The triple the target is looked up with, for a module that was
    loaded.  Without -mtriple it is the triple of the module, and the
    module is compiled as it was loaded.  With -mtriple it is the
    normalized argument, whatever the module says, and the module is
    compiled with its triple set to it (nothing else of the module
    changes).  In both cases an empty triple is replaced by the triple of
    the host for the lookup only: the triple of the module stays empty. *)
Theorem triple_selection
    (E : Env) (o : Options) (M_ : Module) (StrError : string) :
  SkipModule o = false ->
  load_module E o = (Some M_, StrError) ->
  let override := Triple_normalize E (TargetTriple o) in
  let M' := setTargetTriple M_ override in
  (TargetTriple o = "" ->
   module_and_triple E o
   = inl (Some M_,
          if String.eqb (mod_TargetTriple M_) "" then getDefaultTargetTriple E
          else mod_TargetTriple M_))
  /\ (TargetTriple o <> "" ->
      module_and_triple E o
      = inl (Some M',
             if String.eqb override "" then getDefaultTargetTriple E
             else override))
  /\ mod_TargetTriple M' = override
  /\ mod_functions M' = mod_functions M_
  /\ ModuleIdentifier M' = ModuleIdentifier M_
  /\ mod_DataLayout M' = mod_DataLayout M_
  /\ mod_libs M' = mod_libs M_
  /\ mod_Materializer M' = mod_Materializer M_.
Proof.
  intros Hskip Hload override M'.
  rewrite (module_and_triple_loaded E o Hskip), Hload.
  split; [|split].
  - intros ->. reflexivity.
  - intros Hne. apply String.eqb_neq in Hne. rewrite Hne. reflexivity.
  - repeat split.
Qed.

Lemma triple_selection_witness :
  module_and_triple demo_env llc_mtriple
  = inl (Some (setTargetTriple add_module "armv7-none-linux"),
         "armv7-none-linux").
Proof.
  destruct (triple_selection demo_env llc_mtriple add_module ""
              eq_refl eq_refl) as (_ & H & _).
  rewrite (H ltac:(discriminate)). reflexivity.
Defined.

Lemma load_module_failure (E : Env) (o : Options) (Err : string) :
  (LazyBitcode o = false /\ ParseIRFile E (InputFilename o) = inr Err)
  \/ (LazyBitcode o = true
      /\ getDataFileStreamer E (InputFilename o) = (None, Err))
  \/ (LazyBitcode o = true
      /\ exists streamer StrError,
           getDataFileStreamer E (InputFilename o) = (Some streamer, StrError)
           /\ getStreamedBitcodeModule E (InputFilename o) streamer
              = (None, Err)) ->
  load_module E o = (None, Err).
Proof.
  unfold load_module.
  intros [[-> ->] | [[-> ->] | (-> & streamer & e0 & -> & ->)]]; reflexivity.
Qed.

(** X2. A module that cannot be loaded ends the invocation at once: the
    file cannot be parsed, or, with -streaming-bitcode, no streamer is
    obtained for it (the bitcode reader is then not asked at all) or the
    reader returns no module.  The invocation prints one diagnostic and
    returns 1; no target is looked up, no file is opened, nothing is
    written to standard output and the disk is as it was, whatever the
    other options are. *)
Theorem unloadable_module_is_fatal
    (argv0 : string) (E : Env) (o : Options) (disk0 : gmap string string)
    (Err : string) :
  SkipModule o = false ->
  (LazyBitcode o = false /\ ParseIRFile E (InputFilename o) = inr Err)
  \/ (LazyBitcode o = true
      /\ getDataFileStreamer E (InputFilename o) = (None, Err))
  \/ (LazyBitcode o = true
      /\ exists streamer StrError,
           getDataFileStreamer E (InputFilename o) = (Some streamer, StrError)
           /\ getStreamedBitcodeModule E (InputFilename o) streamer
              = (None, Err)) ->
  exists msg,
    run_llc argv0 E o disk0
    = (Exited 1,
       {| trace := [EvDiag msg]; disk := disk0;
          std_out := ""; objects := 0; kept := [] |}).
Proof.
  intros Hskip Hfail. apply load_module_failure in Hfail.
  unfold run_llc, llc_main.
  rewrite (module_and_triple_loaded E o Hskip), Hfail.
  eexists. reflexivity.
Qed.

Lemma unloadable_module_witness :
  exists msg,
    run_llc "llc" demo_env llc_missing ∅
    = (Exited 1,
       {| trace := [EvDiag msg]; disk := ∅;
          std_out := ""; objects := 0; kept := [] |}).
Proof.
  apply (unloadable_module_is_fatal "llc" demo_env llc_missing ∅
           "could not open input file" eq_refl).
  left. split; reflexivity.
Defined.

Lemma module_and_triple_skipped (E : Env) (o : Options) :
  SkipModule o = true ->
  module_and_triple E o
  = inl (None, triple_or_default E (Triple_normalize E (TargetTriple o))).
Proof.
  intros Hskip. unfold module_and_triple.
  change (String.eqb (MCPU o) "help"
          || match MAttrs o with
             | front :: _ => String.eqb front "help"
             | [] => false
             end) with (SkipModule o).
  rewrite Hskip. reflexivity.
Qed.

(** X3. When the user asks for the list of options (-mcpu=help, or help
    as the first -mattr attribute) the input is not read: whatever the
    readers would return for it, no module is loaded and no diagnostic of
    a reader is printed, and the triple for the lookup is the normalized
    -mtriple, or the triple of the host.  A target that is not found and
    an invalid optimization level are still reported, each with exit code
    1 after its one diagnostic and with nothing opened.  (What follows the
    construction of the target machine, where the library prints the
    help, is not part of this statement.) *)
Theorem help_request_reads_no_module
    (argv0 : string) (E : Env) (o : Options) (disk0 : gmap string string) :
  SkipModule o = true ->
  let T0 := triple_or_default E (Triple_normalize E (TargetTriple o)) in
  module_and_triple E o = inl (None, T0)
  /\ (forall err,
        lookupTarget E (MArch o) T0 = inr err ->
        run_llc argv0 E o disk0
        = (Exited 1,
           {| trace := [EvDiag (argv0 +:+ ": " +:+ err)]; disk := disk0;
              std_out := ""; objects := 0; kept := [] |}))
  /\ (forall TheTarget TheTriple,
        lookupTarget E (MArch o) T0 = inl (TheTarget, TheTriple) ->
        OLvl_of (OptLevel o) = None ->
        run_llc argv0 E o disk0
        = (Exited 1,
           {| trace := [EvDiag (invalid_optimization_level argv0)];
              disk := disk0; std_out := ""; objects := 0; kept := [] |})).
Proof.
  intros Hskip. cbn zeta.
  pose proof (module_and_triple_skipped E o Hskip) as Hmod.
  split; [exact Hmod|]. split.
  - intros err Hlook. unfold run_llc, llc_main. rewrite Hmod, Hlook.
    reflexivity.
  - intros TheTarget TheTriple Hlook Hlvl. unfold run_llc, llc_main.
    rewrite Hmod, Hlook, Hlvl. reflexivity.
Qed.

Lemma help_request_witness :
  module_and_triple demo_env llc_help_missing
  = inl (None, "i686-unknown-linux").
Proof.
  destruct (help_request_reads_no_module "llc" demo_env llc_help_missing ∅
              eq_refl) as (Hmod & _).
  exact Hmod.
Defined.

(** ** The switches of the target machine (lines 438-453 and 488-497) *)

Lemma configure_Target_frame
    (E : Env) (o : Options) (argv0 TheTriple : string) (T : TargetMachine) :
  getDataLayout (configure_Target E o argv0 TheTriple T).1 = getDataLayout T
  /\ addPasses (configure_Target E o argv0 TheTriple T).1 = addPasses T.
Proof.
  unfold configure_Target.
  destruct (DisableDotLoc o), (DisableCFI o), (EnableDwarfDirectory o),
    (Triple_isMacOSX E TheTriple && Triple_isMacOSXVersionLT E TheTriple 10 6),
    (RelaxAll o), (FileType o); split; reflexivity.
Qed.

(** X4. What the driver does to the target machine before the target
    adds its stages.  Verbose assembly is always switched on.  [.loc]
    support is switched off by -disable-dot-loc and on Mac OS X before 10.6,
    CFI by -disable-cfi; the DWARF directory is switched on by
    -enable-dwarf-directory; otherwise the three stay as the target made
    them.  -mc-relax-all switches relaxation on only for the object file
    kind; for any other kind the switch stays as it was and one warning
    is printed.  Nothing else of the machine changes. *)
Theorem target_machine_switches
    (E : Env) (o : Options) (argv0 TheTriple : string) (T : TargetMachine) :
  let T' := (configure_Target E o argv0 TheTriple T).1 in
  let warning := (configure_Target E o argv0 TheTriple T).2 in
  let old_OSX := Triple_isMacOSX E TheTriple
                 && Triple_isMacOSXVersionLT E TheTriple 10 6 in
  AsmVerbosityDefault (tm_settings T') = true
  /\ MCUseLoc (tm_settings T')
     = (if DisableDotLoc o || old_OSX then false
        else MCUseLoc (tm_settings T))
  /\ MCUseCFI (tm_settings T')
     = (if DisableCFI o then false else MCUseCFI (tm_settings T))
  /\ MCUseDwarfDirectory (tm_settings T')
     = (if EnableDwarfDirectory o then true
        else MCUseDwarfDirectory (tm_settings T))
  /\ MCRelaxAll (tm_settings T')
     = (if RelaxAll o && is_object (FileType o) then true
        else MCRelaxAll (tm_settings T))
  /\ warning
     = (if RelaxAll o && negb (is_object (FileType o))
        then [EvDiag (relax_all_ignored argv0)] else [])
  /\ getDataLayout T' = getDataLayout T
  /\ addPasses T' = addPasses T.
Proof.
  cbn zeta. unfold configure_Target, relax_all_ignored.
  destruct (DisableDotLoc o), (DisableCFI o), (EnableDwarfDirectory o),
    (Triple_isMacOSX E TheTriple && Triple_isMacOSXVersionLT E TheTriple 10 6),
    (RelaxAll o), (FileType o); cbn; repeat split; reflexivity.
Qed.

(** ** The -start-after and -stop-after passes (lines 535-553) *)

Lemma pass_id_registered (E : Env) (argv0 name which : string) (w : World) :
  name = "" \/ is_Some (getPassInfo E name) ->
  pass_id E argv0 name which w = (Ok (registered_id E name), w).
Proof.
  unfold pass_id, registered_id.
  destruct (String.eqb_spec name "") as [->|Hne]; [reflexivity|].
  intros [Heq | [id Hid]]; [contradiction|]. rewrite Hid. reflexivity.
Qed.

Lemma pass_id_unregistered (E : Env) (argv0 name which : string) (w : World) :
  name <> "" -> getPassInfo E name = None ->
  pass_id E argv0 name which w
  = (Stop (Exited 1), log [EvDiag (not_registered argv0 which)] w).
Proof.
  unfold pass_id, not_registered. intros Hne Hnone.
  apply String.eqb_neq in Hne. rewrite Hne, Hnone. reflexivity.
Qed.

(** The assembly of the pipeline when both names are empty or registered:
    the answer of the target decides. *)
Lemma assemble_pipeline_registered
    (argv0 : string) (E : Env) (o : Options) (TheTriple : string)
    (target : TargetMachine) (mod_ : Module) (w : World) :
  StartAfter o = "" \/ is_Some (getPassInfo E (StartAfter o)) ->
  StopAfter o = "" \/ is_Some (getPassInfo E (StopAfter o)) ->
  (forall backend,
     addPassesToEmitFile (configure_Target E o argv0 TheTriple target).1
       (driver_passes o TheTriple target mod_) (FileType o) (NoVerify o)
       (registered_id E (StartAfter o)) (registered_id E (StopAfter o))
     = Some backend ->
     assemble_pipeline argv0 E o TheTriple target mod_ w
     = (Ok ((configure_Target E o argv0 TheTriple target).1,
            driver_passes o TheTriple target mod_ ++ backend),
        log (adds (driver_passes o TheTriple target mod_)
             ++ (configure_Target E o argv0 TheTriple target).2
             ++ adds backend) w))
  /\ (addPassesToEmitFile (configure_Target E o argv0 TheTriple target).1
        (driver_passes o TheTriple target mod_) (FileType o) (NoVerify o)
        (registered_id E (StartAfter o)) (registered_id E (StopAfter o))
      = None ->
      assemble_pipeline argv0 E o TheTriple target mod_ w
      = (Stop (Exited 1),
         log (adds (driver_passes o TheTriple target mod_)
              ++ (configure_Target E o argv0 TheTriple target).2
              ++ [EvDiag (unsupported_file_type argv0)]) w)).
Proof.
  intros Hstart Hstop. unfold assemble_pipeline.
  fold (adds (driver_passes o TheTriple target mod_)).
  destruct (configure_Target E o argv0 TheTriple target) as [T warning].
  cbn [fst snd]. unfold emit.
  unfold mbind, M_bind, emit_all, mret, M_ret, stop. rewrite log_log.
  rewrite (pass_id_registered E argv0 (StartAfter o) "start-after" _ Hstart).
  rewrite (pass_id_registered E argv0 (StopAfter o) "stop-after" _ Hstop).
  split.
  - intros backend ->. fold (adds backend). now rewrite log_log, <- app_assoc.
  - intros ->. now rewrite log_log, <- app_assoc.
Qed.

(** X5. When the names given to -start-after and -stop-after are empty or
    registered, the target is asked exactly once to add its stages: to the
    machine with its switches set, after the three stages of the driver,
    for the file kind and the verifier flag of the command line, with the
    ids the registry gives for the two names (the null id for an empty
    name).  Its stages enter the manager after those of the driver; when it
    declines, the invocation exits with code 1 after the diagnostic. *)
Theorem backend_receives_registered_ids
    (argv0 : string) (E : Env) (o : Options) (TheTriple : string)
    (target : TargetMachine) (mod_ : Module) (w : World) :
  let PM := driver_passes o TheTriple target mod_ in
  let T := (configure_Target E o argv0 TheTriple target).1 in
  let warning := (configure_Target E o argv0 TheTriple target).2 in
  StartAfter o = "" \/ is_Some (getPassInfo E (StartAfter o)) ->
  StopAfter o = "" \/ is_Some (getPassInfo E (StopAfter o)) ->
  assemble_pipeline argv0 E o TheTriple target mod_ w
  = match addPassesToEmitFile T PM (FileType o) (NoVerify o)
            (registered_id E (StartAfter o)) (registered_id E (StopAfter o)) with
    | Some backend =>
        (Ok (T, PM ++ backend), log (adds PM ++ warning ++ adds backend) w)
    | None =>
        (Stop (Exited 1),
         log (adds PM ++ warning ++ [EvDiag (unsupported_file_type argv0)]) w)
    end.
Proof.
  cbn zeta. intros Hstart Hstop.
  destruct (assemble_pipeline_registered argv0 E o TheTriple target mod_ w
              Hstart Hstop) as [Hsome Hnone].
  destruct (addPassesToEmitFile _ _ (FileType o) (NoVerify o) _ _)
    as [backend|].
  - now apply Hsome.
  - now apply Hnone.
Qed.

Lemma backend_receives_ids_witness :
  assemble_pipeline "llc" demo_env llc_add "i686-unknown-linux" x86_machine
    add_module (initial_world ∅)
  = (Ok ((configure_Target demo_env llc_add "llc" "i686-unknown-linux"
            x86_machine).1,
         driver_passes llc_add "i686-unknown-linux" x86_machine add_module
         ++ [AsmPrinter]),
     log (adds (driver_passes llc_add "i686-unknown-linux" x86_machine
                  add_module)
          ++ [] ++ adds [AsmPrinter]) (initial_world ∅)).
Proof.
  rewrite (backend_receives_registered_ids "llc" demo_env llc_add
             "i686-unknown-linux" x86_machine add_module (initial_world ∅)
             (or_introl eq_refl) (or_introl eq_refl)).
  reflexivity.
Defined.

Lemma assemble_pipeline_unregistered
    (argv0 : string) (E : Env) (o : Options) (TheTriple : string)
    (target : TargetMachine) (mod_ : Module) (w : World) (which : string) :
  (StartAfter o <> "" /\ getPassInfo E (StartAfter o) = None
   /\ which = "start-after")
  \/ ((StartAfter o = "" \/ is_Some (getPassInfo E (StartAfter o)))
      /\ StopAfter o <> "" /\ getPassInfo E (StopAfter o) = None
      /\ which = "stop-after") ->
  assemble_pipeline argv0 E o TheTriple target mod_ w
  = (Stop (Exited 1),
     log (adds (driver_passes o TheTriple target mod_)
          ++ (configure_Target E o argv0 TheTriple target).2
          ++ [EvDiag (not_registered argv0 which)]) w).
Proof.
  intros Hwhy. unfold assemble_pipeline.
  fold (adds (driver_passes o TheTriple target mod_)).
  destruct (configure_Target E o argv0 TheTriple target) as [T warning].
  cbn [fst snd]. unfold emit.
  unfold mbind, M_bind, emit_all, mret, M_ret, stop. rewrite log_log.
  destruct Hwhy as [(Hne & Hnone & ->) | (Hstart & Hne & Hnone & ->)].
  - rewrite (pass_id_unregistered E argv0 _ "start-after" _ Hne Hnone).
    now rewrite log_log, <- app_assoc.
  - rewrite (pass_id_registered E argv0 (StartAfter o) "start-after" _ Hstart).
    rewrite (pass_id_unregistered E argv0 _ "stop-after" _ Hne Hnone).
    now rewrite log_log, <- app_assoc.
Qed.

(** When the output was opened and the pipeline could not be assembled,
    the driver leaves through [return 1] at once and the output, never
    kept, is removed. *)
Lemma llc_codegen_not_assembled
    (argv0 : string) (E : Env) (o : Options) (TheTarget : Target)
    (TheTriple : string) (target : TargetMachine) (mod_ : Module)
    (disk0 : gmap string string) (msg : string) :
  let out := output_name E o TheTarget TheTriple in
  let PM := driver_passes o TheTriple target mod_ in
  let warning := (configure_Target E o argv0 TheTriple target).2 in
  let r := llc_codegen argv0 E o TheTarget TheTriple target mod_
             (initial_world disk0) in
  out = "-" \/ open_error E out = "" ->
  (forall w,
     assemble_pipeline argv0 E o TheTriple target mod_ w
     = (Stop (Exited 1), log (adds PM ++ warning ++ [EvDiag msg]) w)) ->
  r.1 = Stop (Exited 1)
  /\ trace r.2
     = EvOpen out (Binary (FileType o))
       :: adds PM ++ warning ++ [EvDiag msg] ++ erasure out
  /\ disk r.2 = (if String.eqb out "-" then disk0 else delete out disk0)
  /\ std_out r.2 = "".
Proof.
  cbn zeta. unfold output_name.
  set (out := resolved_OutputFilename o (getName TheTarget)
                (Triple_getOS E TheTriple)).
  intros Hopened Hasm.
  remember (llc_codegen argv0 E o TheTarget TheTriple target mod_
              (initial_world disk0)) as r eqn:Hr.
  unfold llc_codegen in Hr. unfold mbind at 1, M_bind at 1 in Hr.
  rewrite (GetOutputStream_initial E o (getName TheTarget)
             (Triple_getOS E TheTriple) disk0) in Hr.
  fold out in Hr.
  destruct (String.eqb out "-") eqn:Hdash;
    [| destruct (String.eqb (open_error E out) "") eqn:Hopen ].
  3:{ exfalso. apply String.eqb_neq in Hdash, Hopen.
      destruct Hopened; contradiction. }
  all: unfold owning, mbind, M_bind in Hr; rewrite Hasm in Hr; subst r.
  - unfold destroy, log. cbn. rewrite Hdash. cbn.
    rewrite (erasure_dash out Hdash). repeat split; same_events.
  - unfold destroy, log. cbn -[bool_decide]. rewrite Hdash. cbn.
    rewrite (erasure_file out Hdash). repeat split; try same_events.
    apply delete_insert_eq.
Qed.

Lemma adds_plain (ps : list Pass) :
  Forall (fun e => is_pass_execution e = false /\ is_keep e = false) (adds ps).
Proof. induction ps; cbn; constructor; auto. Qed.

(** X6. A name given to -start-after or -stop-after that is not a
    registered pass ends the invocation with exit code 1, the name of
    -start-after being looked up first.  By then the output was opened and
    the three stages of the driver were added; after the diagnostic the
    target is not asked for its stages, no stage executes, nothing is
    kept, and the output file, if it is one, is removed. *)
Theorem unregistered_pass_is_fatal
    (argv0 : string) (E : Env) (o : Options) (TheTarget : Target)
    (TheTriple : string) (target : TargetMachine) (mod_ : Module)
    (disk0 : gmap string string) (which : string) :
  let out := output_name E o TheTarget TheTriple in
  let PM := driver_passes o TheTriple target mod_ in
  let warning := (configure_Target E o argv0 TheTriple target).2 in
  let r := llc_codegen argv0 E o TheTarget TheTriple target mod_
             (initial_world disk0) in
  out = "-" \/ open_error E out = "" ->
  (StartAfter o <> "" /\ getPassInfo E (StartAfter o) = None
   /\ which = "start-after")
  \/ ((StartAfter o = "" \/ is_Some (getPassInfo E (StartAfter o)))
      /\ StopAfter o <> "" /\ getPassInfo E (StopAfter o) = None
      /\ which = "stop-after") ->
  r.1 = Stop (Exited 1)
  /\ trace r.2
     = EvOpen out (Binary (FileType o))
       :: adds PM ++ warning
          ++ [EvDiag (argv0 +:+ ": " +:+ which
                      +:+ " pass is not registered." +:+ nl)]
          ++ erasure out
  /\ added (trace r.2) = map pass_kind PM
  /\ Forall (fun e => is_pass_execution e = false /\ is_keep e = false)
       (trace r.2)
  /\ disk r.2 = (if String.eqb out "-" then disk0 else delete out disk0)
  /\ std_out r.2 = "".
Proof.
  cbn zeta. intros Hopened Hwhy.
  destruct (llc_codegen_not_assembled argv0 E o TheTarget TheTriple target
              mod_ disk0 (not_registered argv0 which) Hopened)
    as (Hexit & Htrace & Hdisk & Hout).
  { intros w. now apply assemble_pipeline_unregistered. }
  fold (not_registered argv0 which).
  split; [exact Hexit|]. split; [exact Htrace|].
  split; [|split; [|split; [exact Hdisk | exact Hout]]].
  - rewrite Htrace.
    match goal with
    | |- context [added (?e :: ?l)] => change (e :: l) with ([e] ++ l)
    end.
    rewrite !added_app, added_adds.
    change (added [EvOpen (output_name E o TheTarget TheTriple)
                     (Binary (FileType o))]) with (@nil PassKind).
    change (added [EvDiag (not_registered argv0 which)]) with (@nil PassKind).
    rewrite (added_none (configure_Target E o argv0 TheTriple target).2).
    2:{ eapply Forall_impl; [apply configure_Target_warning|].
        intros e He. now right. }
    rewrite (added_none (erasure _)).
    2:{ eapply Forall_impl; [apply erasure_quiet|].
        intros e He. now right. }
    cbn. now rewrite ?app_nil_r.
  - rewrite Htrace. constructor; [split; reflexivity|].
    repeat (apply Forall_app; split).
    + apply adds_plain.
    + eapply Forall_impl; [apply configure_Target_warning|].
      intros e He. destruct e; cbn in *; try discriminate; auto.
    + repeat constructor.
    + eapply Forall_impl; [apply erasure_quiet|].
      intros e He. destruct e; cbn in *; try discriminate; auto.
Qed.

Lemma unregistered_pass_witness :
  (llc_codegen "llc" demo_env llc_start_after x86_target "i686-unknown-linux"
     x86_machine add_module (initial_world ∅)).1 = Stop (Exited 1)
  /\ trace (llc_codegen "llc" demo_env llc_start_after x86_target
              "i686-unknown-linux" x86_machine add_module (initial_world ∅)).2
     = [EvOpen "add.s" false;
        EvAdd (TargetLibraryInfoPass "i686-unknown-linux" false);
        EvAdd TargetTransformInfoPass;
        EvAdd (DataLayoutPass "e-p:32:32");
        EvDiag ("llc: start-after pass is not registered." +:+ nl);
        EvErase "add.s"].
Proof.
  destruct (unregistered_pass_is_fatal "llc" demo_env llc_start_after
              x86_target "i686-unknown-linux" x86_machine add_module ∅
              "start-after")
    as (Hexit & Htrace & _).
  - right. reflexivity.
  - left. split; [discriminate | split; reflexivity].
  - split; [exact Hexit | rewrite Htrace; reflexivity].
Defined.

(** ** The output that cannot be opened (lines 193-203 and 457-459) *)

(** X7. When the output file cannot be opened, [GetOutputStream] prints
    the error text of the system followed by a newline and returns null,
    and the invocation returns 1 at once: no pass enters the manager, no
    stage executes, nothing is kept, nothing is written to standard
    output, and no file other than the one named as output is touched. *)
Theorem unopenable_output_is_fatal
    (argv0 : string) (E : Env) (o : Options) (TheTarget : Target)
    (TheTriple : string) (target : TargetMachine) (mod_ : Module)
    (disk0 : gmap string string) :
  let out := output_name E o TheTarget TheTriple in
  let r := llc_codegen argv0 E o TheTarget TheTriple target mod_
             (initial_world disk0) in
  out <> "-" ->
  open_error E out <> "" ->
  r.1 = Stop (Exited 1)
  /\ (exists rest, trace r.2 = EvDiag (open_error E out +:+ nl) :: rest)
  /\ added (trace r.2) = []
  /\ kept_files (trace r.2) = []
  /\ Forall (fun e => is_pass_execution e = false /\ is_open e = false)
       (trace r.2)
  /\ (forall name, name <> out -> disk r.2 !! name = disk0 !! name)
  /\ std_out r.2 = "".
Proof.
  cbn zeta. unfold output_name.
  set (out := resolved_OutputFilename o (getName TheTarget)
                (Triple_getOS E TheTriple)).
  intros Hdash Hopen.
  apply String.eqb_neq in Hdash, Hopen.
  remember (llc_codegen argv0 E o TheTarget TheTriple target mod_
              (initial_world disk0)) as r eqn:Hr.
  unfold llc_codegen in Hr. unfold mbind at 1, M_bind at 1 in Hr.
  rewrite (GetOutputStream_initial E o (getName TheTarget)
             (Triple_getOS E TheTriple) disk0) in Hr.
  fold out in Hr. rewrite Hdash, Hopen in Hr. subst r. cbn.
  split; [reflexivity|]. split; [now eexists|].
  split; [reflexivity|]. split; [reflexivity|].
  split; [repeat constructor|]. split; [|reflexivity].
  intros name Hne. now apply lookup_delete_ne.
Qed.

Lemma unopenable_output_witness :
  (llc_codegen "llc" demo_env llc_output_denied x86_target
     "i686-unknown-linux" x86_machine add_module (initial_world ∅)).1
  = Stop (Exited 1)
  /\ std_out (llc_codegen "llc" demo_env llc_output_denied x86_target
                "i686-unknown-linux" x86_machine add_module
                (initial_world ∅)).2 = "".
Proof.
  destruct (unopenable_output_is_fatal "llc" demo_env llc_output_denied
              x86_target "i686-unknown-linux" x86_machine add_module ∅)
    as (Hexit & _ & _ & _ & _ & _ & Hout).
  - discriminate.
  - discriminate.
  - split; [exact Hexit | exact Hout].
Defined.

(** ** The files an invocation touches *)

Lemma code_kept_other (out content : string) (tr : list Event)
    (disk0 : gmap string string) (name : string) :
  name <> out -> disk (code_kept out content tr disk0) !! name = disk0 !! name.
Proof.
  intros Hne. unfold code_kept. cbn.
  destruct (String.eqb out "-"); [reflexivity|].
  apply lookup_insert_ne. congruence.
Qed.

Lemma code_kept_fresh (out content : string) (tr : list Event)
    (disk0 : gmap string string) :
  objects (code_kept out content tr disk0)
  ∉ kept (code_kept out content tr disk0).
Proof.
  cbn. intros Hin. apply elem_of_cons in Hin as [Hin|Hin]; [discriminate|].
  now apply elem_of_nil in Hin.
Qed.

(** X8. Code generation touches no file but the two it is asked to
    write: however the invocation ends, every file of the disk other than
    the output and the metadata file is as it was before. *)
Theorem other_files_untouched
    (argv0 : string) (E : Env) (o : Options) (TheTarget : Target)
    (TheTriple : string) (target : TargetMachine) (mod_ : Module)
    (disk0 : gmap string string) (name : string) :
  let r := llc_codegen argv0 E o TheTarget TheTriple target mod_
             (initial_world disk0) in
  name <> output_name E o TheTarget TheTriple ->
  name <> MetadataTextFilename o ->
  disk r.2 !! name = disk0 !! name.
Proof.
  cbn zeta. intros Hout Hmeta.
  pose proof (llc_codegen_paths argv0 E o TheTarget TheTriple target mod_ disk0)
    as Hpaths. cbn zeta in Hpaths.
  set (r := llc_codegen argv0 E o TheTarget TheTriple target mod_
              (initial_world disk0)) in *.
  set (out := output_name E o TheTarget TheTriple) in *.
  assert (Hgone : forall d : gmap string string,
            (if String.eqb out "-" then d else delete out d) !! name
            = d !! name).
  { intros d. destruct (String.eqb out "-"); [reflexivity|].
    apply lookup_delete_ne. congruence. }
  destruct Hpaths as
    [(_ & _ & _ & _ & Hdisk)
    | (_ & [(msg & _ & _ & Hdisk & _)
           | (start & stop_ & backend & _ & Hrun)])].
  - rewrite Hdisk. apply lookup_delete_ne. congruence.
  - rewrite Hdisk. apply Hgone.
  - destruct Hrun as [(_ & _ & _ & Hdisk) | (_ & Hr)].
    + rewrite Hdisk. apply Hgone.
    + match type of Hr with
      | _ = write_metadata ?e ?opts ?t ?m ?tr ?w =>
          destruct (write_metadata_spec e opts t m tr w)
            as [[_ Hw] | [(_ & _ & Hw) | (TD & _ & _ & [H | H])]];
          [ apply code_kept_fresh | .. ]; cbn zeta in *
      end.
      * rewrite Hr, Hw. cbn [snd]. now apply code_kept_other.
      * rewrite Hr, Hw. cbn [snd]. now apply code_kept_other.
      * destruct H as (_ & _ & _ & _ & Hdisk & _).
        rewrite Hr, Hdisk. rewrite lookup_delete_ne by congruence.
        now apply code_kept_other.
      * destruct H as (_ & _ & _ & _ & Hcontent). rewrite Hr.
        destruct (String.eqb (MetadataTextFilename o) "-").
        -- destruct Hcontent as [_ ->]. now apply code_kept_other.
        -- destruct Hcontent as [-> _]. rewrite lookup_insert_ne by congruence.
           now apply code_kept_other.
Qed.

Lemma other_files_untouched_witness :
  disk (llc_codegen "llc" demo_env llc_metadata x86_target
          "i686-unknown-linux" x86_machine add_module
          (initial_world {[ "notes.txt" := "keep me" ]})).2 !! "notes.txt"
  = Some "keep me".
Proof.
  rewrite (other_files_untouched "llc" demo_env llc_metadata x86_target
             "i686-unknown-linux" x86_machine add_module
             {[ "notes.txt" := "keep me" ]} "notes.txt");
    [reflexivity | discriminate | discriminate].
Defined.

(** ** A target machine without a data layout (lines 483-486 and 593) *)

(** X9. The pipeline is built for a target machine that has no data
    layout of its own: its data layout stage then carries the layout of
    the module.  The metadata phase is not: line 593 dereferences the
    layout of the machine without a test.  So when a metadata file is
    asked for on such a machine, the invocation either fails with exit
    code 1 before anything is kept, or keeps the compiled code and then runs
    into the null dereference, with no step of the metadata phase done and
    no metadata file written. *)
Theorem metadata_without_target_layout
    (argv0 : string) (E : Env) (o : Options) (TheTarget : Target)
    (TheTriple : string) (target : TargetMachine) (mod_ : Module)
    (disk0 : gmap string string) :
  let out := output_name E o TheTarget TheTriple in
  let meta := MetadataTextFilename o in
  let r := llc_codegen argv0 E o TheTarget TheTriple target mod_
             (initial_world disk0) in
  meta <> "" ->
  getDataLayout target = None ->
  map pass_kind (driver_passes o TheTriple target mod_)
  = [ TargetLibraryInfoPass TheTriple (DisableSimplifyLibCalls o);
      TargetTransformInfoPass;
      DataLayoutPass (mod_DataLayout mod_) ]
  /\ ((r.1 = Stop (Exited 1) /\ kept_files (trace r.2) = [])
      \/ (r.1 = Stop (Undefined "null DataLayout dereferenced")
          /\ kept_files (trace r.2) = [out]
          /\ Forall (fun e => is_metadata e = false) (trace r.2)
          /\ (meta <> out -> disk r.2 !! meta = disk0 !! meta))).
Proof.
  cbn zeta. intros Hmeta Hnull.
  split; [unfold driver_passes; cbn; now rewrite Hnull|].
  pose proof (llc_codegen_paths argv0 E o TheTarget TheTriple target mod_ disk0)
    as Hpaths. cbn zeta in Hpaths.
  set (r := llc_codegen argv0 E o TheTarget TheTriple target mod_
              (initial_world disk0)) in *.
  set (out := output_name E o TheTarget TheTriple) in *.
  assert (Hquiet : forall l, Forall (fun e => is_quiet e = true) l ->
                             Forall (fun e => is_keep e = false) l).
  { intros l Hl. eapply Forall_impl; [exact Hl|].
    intros e He. destruct e; cbn in *; congruence. }
  assert (Hopened : Forall (fun e => is_keep e = false)
            (EvOpen out (Binary (FileType o))
             :: adds (driver_passes o TheTriple target mod_)
                ++ (configure_Target E o argv0 TheTriple target).2)).
  { constructor; [reflexivity|]. apply Forall_app. split.
    - repeat constructor.
    - apply Hquiet, configure_Target_warning. }
  destruct Hpaths as
    [(_ & _ & Hexit & Htrace & _)
    | (_ & [(msg & Hexit & Htrace & _)
           | (start & stop_ & backend & _ & Hrun)])].
  - left. now rewrite Hexit, Htrace.
  - left. rewrite Hexit, Htrace. split; [reflexivity|].
    apply kept_files_none. apply Forall_app. split; [exact Hopened|].
    constructor; [reflexivity|]. apply Hquiet, erasure_quiet.
  - pose proof (ran_plain argv0 E o TheTriple out target mod_ backend) as Hran.
    cbn zeta in Hran.
    set (run := run_pipeline (LazyBitcode o) (ReduceMemoryFootprint o)
                  (initial_PMState (driver_passes o TheTriple target mod_ ++ backend)
                     mod_)) in *.
    set (ran := (EvOpen out (Binary (FileType o))
                 :: adds (driver_passes o TheTriple target mod_)
                    ++ (configure_Target E o argv0 TheTriple target).2)
                ++ adds backend ++ pm_events run.2) in *.
    clearbody ran.
    assert (Hnone : kept_files ran = []).
    { apply kept_files_none. eapply Forall_impl; [exact Hran|]. now intros e [? _]. }
    destruct Hrun as [(_ & Hexit & Htrace & _) | (_ & Hr)].
    + left. rewrite Hexit, Htrace. split; [reflexivity|].
      rewrite kept_files_app, Hnone. apply kept_files_none.
      apply Hquiet, erasure_quiet.
    + right.
      destruct (write_metadata_spec E o
                  (configure_Target E o argv0 TheTriple target).1
                  (pm_module run.2) TheTriple
                  (code_kept out (pm_out run.2) ran disk0)
                  (code_kept_fresh _ _ _ _))
        as [[Hempty _] | [(_ & _ & Hw) | (TD & _ & Hsome & _)]];
        cbn zeta in *.
      * contradiction.
      * rewrite Hr, Hw. cbn [fst snd]. split; [reflexivity|].
        unfold code_kept at 1 2. cbn [trace]. split; [|split].
        -- now rewrite kept_files_app, Hnone.
        -- apply Forall_app. split.
           ++ eapply Forall_impl; [exact Hran|]. now intros e [_ ?].
           ++ repeat constructor.
        -- intros Hne. now apply code_kept_other.
      * rewrite (proj1 (configure_Target_frame E o argv0 TheTriple target)),
          Hnull in Hsome. discriminate.
Qed.

Lemma metadata_without_layout_witness :
  (llc_codegen "llc" demo_env llc_metadata x86_target "i686-unknown-linux"
     bare_machine add_module (initial_world ∅)).1
  = Stop (Undefined "null DataLayout dereferenced")
  /\ kept_files
       (trace (llc_codegen "llc" demo_env llc_metadata x86_target
                 "i686-unknown-linux" bare_machine add_module
                 (initial_world ∅)).2)
     = ["add.s"]
  /\ disk (llc_codegen "llc" demo_env llc_metadata x86_target
             "i686-unknown-linux" bare_machine add_module
             (initial_world ∅)).2 !! "deps.txt" = None.
Proof.
  destruct (metadata_without_target_layout "llc" demo_env llc_metadata
              x86_target "i686-unknown-linux" bare_machine add_module ∅)
    as (_ & [(Hexit & _) | (Hexit & Hkept & _ & Hdisk)]).
  - discriminate.
  - reflexivity.
  - vm_compute in Hexit. discriminate.
  - split; [exact Hexit|]. split; [exact Hkept|].
    transitivity ((∅ : gmap string string) !! "deps.txt");
      [apply Hdisk; discriminate | reflexivity].
Defined.

(** ** The compiled code (lines 532-582) *)

(** When the output was opened and the pipeline assembled, the pipeline
    runs; a run that fails ends the invocation with exit code 1 and the
    output is removed; after a run that completes the output holds the
    text of the run, is kept, and the metadata phase follows. *)
Lemma llc_codegen_assembled
    (argv0 : string) (E : Env) (o : Options) (TheTarget : Target)
    (TheTriple : string) (target : TargetMachine) (mod_ : Module)
    (disk0 : gmap string string) (T : TargetMachine) (passes : list Pass)
    (evs : list Event) :
  let out := output_name E o TheTarget TheTriple in
  let r := llc_codegen argv0 E o TheTarget TheTriple target mod_
             (initial_world disk0) in
  let run := run_pipeline (LazyBitcode o) (ReduceMemoryFootprint o)
               (initial_PMState passes mod_) in
  let ran := EvOpen out (Binary (FileType o)) :: evs ++ pm_events run.2 in
  out = "-" \/ open_error E out = "" ->
  (forall w,
     assemble_pipeline argv0 E o TheTriple target mod_ w
     = (Ok (T, passes), log evs w)) ->
  (run.1 = false /\ r.1 = Stop (Exited 1))
  \/ (run.1 = true
      /\ r = write_metadata E o T (pm_module run.2) TheTriple
               (code_kept out (pm_out run.2) ran disk0)).
Proof.
  cbn zeta. unfold output_name.
  set (out := resolved_OutputFilename o (getName TheTarget)
                (Triple_getOS E TheTriple)).
  intros Hopened Hasm.
  remember (llc_codegen argv0 E o TheTarget TheTriple target mod_
              (initial_world disk0)) as r eqn:Hr.
  unfold llc_codegen in Hr. unfold mbind at 1, M_bind at 1 in Hr.
  rewrite (GetOutputStream_initial E o (getName TheTarget)
             (Triple_getOS E TheTriple) disk0) in Hr.
  fold out in Hr.
  destruct (String.eqb out "-") eqn:Hdash;
    [| destruct (String.eqb (open_error E out) "") eqn:Hopen ].
  3:{ exfalso. apply String.eqb_neq in Hdash, Hopen.
      destruct Hopened; contradiction. }
  all: unfold owning, mbind, M_bind in Hr; rewrite Hasm in Hr.
  all: unfold initial_PMState.
  all: destruct (run_pipeline _ _ _) as [[|] st]; cbn [fst snd negb] in *.
  - right. split; [reflexivity|].
    unfold destroy, os_write, keep, log, code_kept in *.
    cbn -[bool_decide write_metadata] in Hr.
    rewrite Hdash in *. cbn -[bool_decide write_metadata] in Hr.
    rewrite Hr. destruct (write_metadata _ _ _ _ _ _) as [r' w'] eqn:Hw.
    rewrite <- Hw. f_equal; try (f_equal; cbn; same_events).
  - left. subst r. split; [reflexivity|]. unfold destroy, os_write, stop.
    cbn -[bool_decide]. rewrite Hdash. reflexivity.
  - right. split; [reflexivity|].
    unfold os_write, keep, log, code_kept in *.
    cbn -[bool_decide write_metadata destroy] in Hr.
    rewrite Hdash in *. cbn -[bool_decide write_metadata destroy] in Hr.
    rewrite alter_insert_eq in Hr. cbn -[bool_decide write_metadata destroy] in Hr.
    match type of Hr with
    | context [write_metadata ?e ?opts ?t ?m ?tr ?w] =>
        pose proof (write_metadata_kept e opts t m tr w 0) as Hkept;
        replace w with
          {| trace := (EvOpen out (Binary (FileType o))
                       :: evs ++ pm_events st) ++ [EvKeep out];
             disk := <[out:=pm_out st]> disk0;
             std_out := ""; objects := 1; kept := [0] |} in Hr, Hkept
          by (f_equal; cbn; same_events)
    end.
    destruct (write_metadata _ _ _ _ _ _) as [r' w'] eqn:Hw.
    rewrite Hr. f_equal. unfold destroy. cbn [Filename tof_id].
    rewrite Hdash.
    destruct (bool_decide_reflect (0 ∈ kept w')) as [_|Hno]; [reflexivity|].
    exfalso. apply Hno. apply Hkept; cbn.
    + intros Hin. apply elem_of_cons in Hin as [Hin|Hin]; [discriminate|].
      now apply elem_of_nil in Hin.
    + apply elem_of_cons. now left.
  - left. subst r. split; [reflexivity|]. unfold destroy, os_write, stop.
    cbn -[bool_decide]. rewrite Hdash. reflexivity.
Qed.

Lemma holds_code_kept (out content : string) (tr : list Event)
    (disk0 : gmap string string) :
  holds (code_kept out content tr disk0) out content.
Proof.
  unfold holds, code_kept. cbn.
  destruct (String.eqb out "-"); [reflexivity | apply lookup_insert_eq].
Qed.

Lemma holds_frame (w w' : World) (name content : string) :
  holds w name content ->
  (name = "-" -> std_out w' = std_out w) ->
  (name <> "-" -> disk w' !! name = disk w !! name) ->
  holds w' name content.
Proof.
  unfold holds. destruct (String.eqb_spec name "-") as [Heq|Hne].
  - intros H Hout _. now rewrite (Hout Heq).
  - intros H _ Hdisk. now rewrite (Hdisk Hne).
Qed.

Lemma pass_name_cases (E : Env) (name : string) :
  (name = "" \/ is_Some (getPassInfo E name))
  \/ (name <> "" /\ getPassInfo E name = None).
Proof.
  destruct (String.eqb_spec name "") as [->|Hne]; [left; now left|].
  destruct (getPassInfo E name) as [id|] eqn:Hid.
  - left. right. now exists id.
  - right. now split.
Qed.

(** X10. An invocation that ends with code 0 has compiled the module with
    the three stages of the driver followed by the stages the target
    added for the two pass ids, under the strategy the flags select; the
    run completed, and the output (the file, whatever it held before, or
    standard output) holds exactly the text the run sent to the output
    stream, provided the metadata was not sent to the same place. *)
Theorem compiled_code_is_the_run_output
    (argv0 : string) (E : Env) (o : Options) (TheTarget : Target)
    (TheTriple : string) (target : TargetMachine) (mod_ : Module)
    (disk0 : gmap string string) :
  let out := output_name E o TheTarget TheTriple in
  let meta := MetadataTextFilename o in
  let PM := driver_passes o TheTriple target mod_ in
  let T := (configure_Target E o argv0 TheTriple target).1 in
  let r := llc_codegen argv0 E o TheTarget TheTriple target mod_
             (initial_world disk0) in
  r.1 = Ok 0%Z ->
  exists backend,
    addPassesToEmitFile T PM (FileType o) (NoVerify o)
      (registered_id E (StartAfter o)) (registered_id E (StopAfter o))
    = Some backend
    /\ let run := run_pipeline (LazyBitcode o) (ReduceMemoryFootprint o)
                    (initial_PMState (PM ++ backend) mod_) in
       run.1 = true
       /\ (out <> meta -> holds r.2 out (pm_out run.2)).
Proof.
  cbn zeta. intros Hok.
  assert (Hopened : output_name E o TheTarget TheTriple = "-"
                    \/ open_error E (output_name E o TheTarget TheTriple) = "").
  { destruct (llc_codegen_paths argv0 E o TheTarget TheTriple target mod_ disk0)
      as [(_ & _ & Hexit & _) | (Hopened & _)]; [|exact Hopened].
    rewrite Hexit in Hok. discriminate. }
  assert (Hfatal : forall msg,
            (forall w,
               assemble_pipeline argv0 E o TheTriple target mod_ w
               = (Stop (Exited 1),
                  log (adds (driver_passes o TheTriple target mod_)
                       ++ (configure_Target E o argv0 TheTriple target).2
                       ++ [EvDiag msg]) w)) -> False).
  { intros msg Hasm.
    destruct (llc_codegen_not_assembled argv0 E o TheTarget TheTriple target
                mod_ disk0 msg Hopened Hasm) as (Hexit & _).
    rewrite Hexit in Hok. discriminate. }
  destruct (pass_name_cases E (StartAfter o)) as [Hstart | [Hne Hnone]].
  2:{ exfalso. apply (Hfatal (not_registered argv0 "start-after")).
      intros w. apply assemble_pipeline_unregistered. left. auto. }
  destruct (pass_name_cases E (StopAfter o)) as [Hstop | [Hne Hnone]].
  2:{ exfalso. apply (Hfatal (not_registered argv0 "stop-after")).
      intros w. apply assemble_pipeline_unregistered. right. auto. }
  destruct (addPassesToEmitFile _ _ (FileType o) (NoVerify o)
              (registered_id E (StartAfter o)) (registered_id E (StopAfter o)))
    as [backend|] eqn:Hadd.
  2:{ exfalso. apply (Hfatal (unsupported_file_type argv0)).
      intros w.
      now apply (proj2 (assemble_pipeline_registered argv0 E o TheTriple
                          target mod_ w Hstart Hstop)). }
  exists backend. split; [reflexivity|].
  destruct (llc_codegen_assembled argv0 E o TheTarget TheTriple target mod_
              disk0 (configure_Target E o argv0 TheTriple target).1
              (driver_passes o TheTriple target mod_ ++ backend)
              (adds (driver_passes o TheTriple target mod_)
               ++ (configure_Target E o argv0 TheTriple target).2
               ++ adds backend) Hopened)
    as [(_ & Hexit) | (Hrun & Hr)].
  { intros w.
    now apply (proj1 (assemble_pipeline_registered argv0 E o TheTriple
                        target mod_ w Hstart Hstop)). }
  { rewrite Hexit in Hok. discriminate. }
  split; [exact Hrun|]. intros Hdiff.
  set (out := output_name E o TheTarget TheTriple) in *.
  set (run := run_pipeline (LazyBitcode o) (ReduceMemoryFootprint o)
                (initial_PMState
                   (driver_passes o TheTriple target mod_ ++ backend) mod_))
    in *.
  match type of Hr with
  | _ = write_metadata ?e ?opts ?t ?m ?tr ?w =>
      set (w0 := w) in *;
      pose proof (holds_code_kept out (pm_out run.2)
                    (EvOpen out (Binary (FileType o))
                     :: (adds (driver_passes o TheTriple target mod_)
                         ++ (configure_Target E o argv0 TheTriple target).2
                         ++ adds backend) ++ pm_events run.2) disk0) as Hheld;
      fold w0 in Hheld;
      destruct (write_metadata_spec e opts t m tr w0)
        as [[_ Hw] | [(_ & _ & Hw) | (TD & _ & _ & [H | H])]];
      [ apply code_kept_fresh | .. ]; cbn zeta in *
  end.
  - rewrite Hr, Hw. exact Hheld.
  - rewrite Hr, Hw in Hok. discriminate.
  - destruct H as (_ & _ & Hexit & _). rewrite Hr, Hexit in Hok. discriminate.
  - destruct H as (_ & _ & _ & _ & Hcontent). rewrite Hr.
    apply (holds_frame w0); [exact Hheld | |].
    + intros Hdash.
      destruct (String.eqb_spec (MetadataTextFilename o) "-") as [Hm|Hm].
      * congruence.
      * now destruct Hcontent as [_ ->].
    + intros Hfile.
      destruct (String.eqb (MetadataTextFilename o) "-").
      * now destruct Hcontent as [_ ->].
      * destruct Hcontent as [-> _]. apply lookup_insert_ne. congruence.
Qed.

Lemma compiled_code_witness :
  disk (llc_codegen "llc" demo_env llc_add x86_target "i686-unknown-linux"
          x86_machine add_module
          (initial_world {[ "add.s" := "stale" ]})).2 !! "add.s"
  = Some (".file add.ll" +:+ nl +:+ "add: ret a+b" +:+ nl +:+ ".end" +:+ nl).
Proof.
  destruct (compiled_code_is_the_run_output "llc" demo_env llc_add x86_target
              "i686-unknown-linux" x86_machine add_module
              {[ "add.s" := "stale" ]})
    as (backend & Hadd & _ & Hheld).
  - vm_compute. reflexivity.
  - vm_compute in Hadd. injection Hadd as <-.
    specialize (Hheld ltac:(discriminate)).
    unfold holds in Hheld. cbn [String.eqb] in Hheld.
    exact Hheld.
Defined.

(** ** The derived output name and the input (lines 131-180) *)

Lemma length_substring_0 (s : string) : forall m,
  m <= String.length s -> String.length (substring 0 m s) = m.
Proof.
  induction s as [|c s IH]; intros [|m] Hm; cbn in *; try reflexivity; try lia.
  rewrite IH; [reflexivity | lia].
Qed.

(** [GetFileNameRoot] returns the name, or the name without its last
    three characters. *)
Lemma GetFileNameRoot_length (name : string) :
  GetFileNameRoot name = name
  \/ (3 <= String.length name
      /\ String.length (GetFileNameRoot name) = String.length name - 3).
Proof.
  unfold GetFileNameRoot.
  destruct (2 <? int_of_size (String.length name))%Z eqn:H2; [|now left].
  cbn [andb].
  match goal with
  | |- context [if ?c then _ else _] => destruct c
  end; [|now left].
  right. apply Z.ltb_lt in H2.
  assert (Hlen : 3 <= String.length name).
  { destruct (Nat.lt_ge_cases (String.length name) 3) as [Hlt|]; [|assumption].
    rewrite int_of_size_small in H2 by lia. lia. }
  split; [exact Hlen|]. apply length_substring_0. lia.
Qed.

Lemma output_extension_length
    (ft : CodeGenFileType) (TargetName : string) (OS : OSType) :
  String.length (output_extension ft TargetName OS) <> 0
  /\ String.length (output_extension ft TargetName OS) <> 3.
Proof.
  unfold output_extension.
  destruct ft; [| destruct OS |];
    repeat match goal with
           | |- context [if ?c then _ else _] => destruct c
           end; cbn; split; lia.
Qed.

(** X11. When the output name is derived from the name of an input
    file, it is never the name of the input: the extension appended is
    never empty and never three characters long, so it cannot put back
    what [GetFileNameRoot] took off.  The input file is not the file
    the code is written to. *)
Theorem derived_output_is_not_the_input
    (o : Options) (TargetName : string) (OS : OSType) :
  OutputFilename o = "" ->
  InputFilename o <> "-" ->
  resolved_OutputFilename o TargetName OS <> InputFilename o
  /\ String.length (resolved_OutputFilename o TargetName OS)
     <> String.length (InputFilename o).
Proof.
  intros Hnone Hfile.
  assert (Hlen : String.length (resolved_OutputFilename o TargetName OS)
                 <> String.length (InputFilename o)).
  { unfold resolved_OutputFilename. rewrite Hnone. cbn [String.eqb].
    apply String.eqb_neq in Hfile. rewrite Hfile.
    rewrite length_append.
    pose proof (output_extension_length (FileType o) TargetName OS) as [H0 H3].
    destruct (GetFileNameRoot_length (InputFilename o)) as [-> | [Hge ->]]; lia. }
  split; [|exact Hlen].
  intros Heq. apply Hlen. now rewrite Heq.
Qed.

Lemma derived_output_witness :
  String.eqb
    (resolved_OutputFilename
       (command_line "prog.s" "" "" " " "" "" [] CGFT_AssemblyFile false false)
       "x86" Linux)
    "prog.s" = false.
Proof.
  apply String.eqb_neq.
  apply (derived_output_is_not_the_input
           (command_line "prog.s" "" "" " " "" "" [] CGFT_AssemblyFile
              false false) "x86" Linux eq_refl).
  discriminate.
Defined.

(** ** Output to standard output *)

Lemma resolved_standard_output (o : Options) (TargetName : string) (OS : OSType) :
  OutputFilename o = "-" \/ (OutputFilename o = "" /\ InputFilename o = "-") ->
  resolved_OutputFilename o TargetName OS = "-".
Proof.
  unfold resolved_OutputFilename. intros [-> | [-> ->]]; reflexivity.
Qed.

Lemma code_kept_trace (out content : string) (tr : list Event)
    (disk0 : gmap string string) :
  trace (code_kept out content tr disk0) = tr ++ [EvKeep out].
Proof. reflexivity. Qed.

(** X12. With [-o -], or with the input read from standard input and no
    -o, the code goes to standard output; if moreover no metadata file is
    asked for (or it is sent to standard output too) the invocation never
    writes to the disk: however it ends, the disk is as it was. *)
Theorem standard_output_leaves_disk
    (argv0 : string) (E : Env) (o : Options) (TheTarget : Target)
    (TheTriple : string) (target : TargetMachine) (mod_ : Module)
    (disk0 : gmap string string) :
  let r := llc_codegen argv0 E o TheTarget TheTriple target mod_
             (initial_world disk0) in
  OutputFilename o = "-" \/ (OutputFilename o = "" /\ InputFilename o = "-") ->
  MetadataTextFilename o = "" \/ MetadataTextFilename o = "-" ->
  output_name E o TheTarget TheTriple = "-"
  /\ disk r.2 = disk0
  /\ Forall (fun e => is_erase e = false)
       (trace r.2).
Proof.
  cbn zeta. intros Hstd Hmeta.
  pose proof (resolved_standard_output o (getName TheTarget)
                (Triple_getOS E TheTriple) Hstd) as Hout.
  fold (output_name E o TheTarget TheTriple) in Hout.
  split; [exact Hout|].
  pose proof (llc_codegen_paths argv0 E o TheTarget TheTriple target mod_ disk0)
    as Hpaths. cbn zeta in Hpaths.
  set (r := llc_codegen argv0 E o TheTarget TheTriple target mod_
              (initial_world disk0)) in *.
  rewrite Hout in Hpaths. cbn [String.eqb Ascii.eqb Bool.eqb] in Hpaths.
  change (erasure "-") with (@nil Event) in Hpaths.
  assert (Hadds : forall ps,
            Forall (fun e => is_erase e = false)
              (adds ps)).
  { induction ps; cbn; constructor; auto. }
  assert (Hwarn : Forall (fun e => is_erase e = false)
                    (configure_Target E o argv0 TheTriple target).2).
  { unfold configure_Target. destruct (RelaxAll o); [|constructor].
    destruct (FileType o); repeat constructor. }
  assert (Hrunev : forall l,
            Forall (fun e => is_run_event e = true) l ->
            Forall (fun e => is_erase e = false) l).
  { intros l Hl. eapply Forall_impl; [exact Hl|].
    intros e He. destruct e; cbn in *; try discriminate; reflexivity. }
  destruct Hpaths as
    [(Hne & _)
    | (_ & [(msg & _ & Htrace & Hdisk & _)
           | (start & stop_ & backend & _ & Hrun)])].
  - contradiction.
  - split; [exact Hdisk|]. rewrite Htrace.
    constructor; [reflexivity|].
    repeat (apply Forall_app; split); auto; repeat constructor.
  - set (run := run_pipeline (LazyBitcode o) (ReduceMemoryFootprint o)
                  (initial_PMState (driver_passes o TheTriple target mod_ ++ backend)
                     mod_)) in *.
    assert (Hran : Forall (fun e => is_erase e = false)
              ((EvOpen "-" (Binary (FileType o))
                :: adds (driver_passes o TheTriple target mod_)
                   ++ (configure_Target E o argv0 TheTriple target).2)
               ++ adds backend ++ pm_events run.2)).
    { apply Forall_app. split.
      - constructor; [reflexivity|]. apply Forall_app. split; auto.
      - apply Forall_app. split; [auto|].
        apply Hrunev. apply run_pipeline_events. }
    destruct Hrun as [(_ & _ & Htrace & Hdisk) | (_ & Hr)].
    + split; [exact Hdisk|]. rewrite Htrace, app_nil_r. exact Hran.
    + match type of Hr with
      | _ = write_metadata ?e ?opts ?t ?m ?tr ?w =>
          destruct (write_metadata_spec e opts t m tr w)
            as [[_ Hw] | [(_ & _ & Hw) | (TD & Hne & _ & [H | H])]];
          [ apply code_kept_fresh | .. ]; cbn zeta in *
      end.
      * rewrite Hr, Hw. cbn [snd]. rewrite code_kept_trace.
        split; [reflexivity|].
        apply Forall_app. split; [exact Hran | repeat constructor].
      * rewrite Hr, Hw. cbn [snd]. rewrite code_kept_trace.
        split; [reflexivity|].
        apply Forall_app. split; [exact Hran | repeat constructor].
      * destruct H as (Hdash & _). destruct Hmeta; contradiction.
      * destruct H as (_ & _ & Htrace & _ & Hcontent).
        destruct Hmeta as [Hm | Hm]; [contradiction|].
        rewrite Hm in Hcontent, Htrace.
        cbn [String.eqb Ascii.eqb Bool.eqb] in Hcontent.
        destruct Hcontent as [_ Hdisk].
        rewrite Hr, Hdisk, Htrace, code_kept_trace.
        split; [reflexivity|].
        apply Forall_app; split;
          [apply Forall_app; split; [exact Hran|] |]; repeat constructor.
Qed.

Lemma standard_output_witness :
  disk (llc_codegen "llc" demo_env
          (command_line "add.ll" "-" "" " " "" "" [] CGFT_AssemblyFile
             false false)
          x86_target "i686-unknown-linux" x86_machine add_module
          (initial_world {[ "add.s" := "old" ]})).2
  = {[ "add.s" := "old" ]}.
Proof.
  apply (standard_output_leaves_disk "llc" demo_env
           (command_line "add.ll" "-" "" " " "" "" [] CGFT_AssemblyFile
              false false)
           x86_target "i686-unknown-linux" x86_machine add_module
           {[ "add.s" := "old" ]}).
  - left. reflexivity.
  - left. reflexivity.
Defined.

(** ** The strategies without memory reduction (lines 464-468, 566-578) *)

(** The loop of lines 569-574 without memory reduction, from function
    [k] on: one run per function, in order, and nothing in between. *)
Lemma plain_loop_spec : forall (m k : nat) (st : PMState),
  let '(ok, st') := per_function_loop false (seq k m) st in
  exists views : list Module,
    (0 < m -> views !! 0 = Some (pm_module st))
    /\ (if ok then
          length views = m
          /\ pm_events st' = pm_events st ++ zip_with EvRun (seq k m) views
        else
          exists msg,
            0 < length views <= m
            /\ pm_events st'
               = pm_events st
                 ++ zip_with EvRun (seq k (length views)) views
                 ++ [EvDiag msg]).
Proof.
  induction m as [|m IH]; intros k st; cbn [seq per_function_loop].
  - exists []. split; [lia|]. cbn. now rewrite app_nil_r.
  - pose proof (FunctionPassManager_run_spec k st) as Hrun.
    destruct (FunctionPassManager_run k st) as [[|] st1].
    + destruct Hrun as (_ & _ & Hev).
      specialize (IH (S k) st1).
      destruct (per_function_loop false (seq (S k) m) st1) as [ok st'].
      destruct IH as (views & _ & Hres).
      exists (pm_module st :: views). split; [reflexivity|].
      destruct ok.
      * destruct Hres as [Hlen Hevs]. split; [cbn; now rewrite Hlen|].
        rewrite Hevs, Hev. cbn. now rewrite <- app_assoc.
      * destruct Hres as (msg & Hlen & Hevs). exists msg. split; [cbn; lia|].
        rewrite Hevs, Hev. cbn. now rewrite <- !app_assoc.
    + destruct Hrun as (_ & _ & msg & Hev & _).
      exists [pm_module st]. split; [reflexivity|].
      exists msg. split; [cbn; lia|]. rewrite Hev. reflexivity.
Qed.

(** X13. The two strategies when no memory reduction is asked for.
    With neither flag the manager is run once, on the whole module, and
    the run cannot fail.  With -streaming-bitcode the function pass
    manager is initialized, then run on each function in declaration
    order, the first run on the module as it was loaded, with no
    dematerialization in between, and then finalized; a run that fails
    stops the loop at once, and the manager is not finalized. *)
Theorem strategies_without_memory_reduction (ps : list Pass) (M_ : Module) :
  let n := length (mod_functions M_) in
  let whole := run_pipeline false false (initial_PMState ps M_) in
  let streamed := run_pipeline true false (initial_PMState ps M_) in
  (whole.1 = true /\ pm_events whole.2 = [EvRunModule M_])
  /\ exists views : list Module,
       (0 < n -> views !! 0 = Some M_)
       /\ Forall (fun e => is_dematerialize e = false) (pm_events streamed.2)
       /\ ((streamed.1 = true
            /\ length views = n
            /\ pm_events streamed.2
               = EvDoInitialization
                 :: zip_with EvRun (seq 0 n) views ++ [EvDoFinalization])
           \/ (exists msg,
                 streamed.1 = false
                 /\ 0 < length views <= n
                 /\ pm_events streamed.2
                    = EvDoInitialization
                      :: zip_with EvRun (seq 0 (length views)) views
                         ++ [EvDiag msg])).
Proof.
  cbn zeta. split.
  - unfold run_pipeline, PassManager_run. cbn.
    destruct (init_all M_ ps) as [ps0 out0].
    destruct (run_over _ ps0 M_) as [[ps1 M1] out1].
    destruct (fini_all M1 ps1) as [ps2 out2]. now split.
  - unfold run_pipeline. cbn [orb initial_PMState pm_module].
    pose proof (plain_loop_spec (length (mod_functions M_)) 0
                  (FunctionPassManager_doInitialization
                     {| pm_passes := ps; pm_module := M_; pm_out := "";
                        pm_events := [] |})) as Hloop.
    assert (Hinit :
      pm_module (FunctionPassManager_doInitialization
                   {| pm_passes := ps; pm_module := M_; pm_out := "";
                      pm_events := [] |}) = M_
      /\ pm_events (FunctionPassManager_doInitialization
                      {| pm_passes := ps; pm_module := M_; pm_out := "";
                         pm_events := [] |}) = [EvDoInitialization]).
    { unfold FunctionPassManager_doInitialization. cbn.
      destruct (init_all M_ ps). now split. }
    destruct Hinit as [Hmod Hev0]. rewrite Hmod, Hev0 in Hloop.
    destruct (per_function_loop false _ _) as [ok st'].
    destruct Hloop as (views & Hfirst & Hres).
    assert (Hnone : forall (idx : list nat) (vs : list Module),
              Forall (fun e => is_dematerialize e = false)
                (zip_with EvRun idx vs)).
    { induction idx as [|i idx IHidx]; intros [|v vs]; cbn; constructor; auto. }
    exists views. split; [exact Hfirst|].
    destruct ok.
    + destruct Hres as [Hlen Hevs].
      assert (Hfini :
        pm_events (FunctionPassManager_doFinalization st')
        = pm_events st' ++ [EvDoFinalization]).
      { unfold FunctionPassManager_doFinalization.
        destruct (fini_all _ _). reflexivity. }
      cbn [fst snd]. rewrite Hfini, Hevs. cbn [app]. split.
      * constructor; [reflexivity|]. apply Forall_app. split; [apply Hnone|].
        repeat constructor.
      * left. now split.
    + destruct Hres as (msg & Hlen & Hevs). cbn [fst snd]. rewrite Hevs.
      cbn [app]. split.
      * constructor; [reflexivity|]. apply Forall_app. split; [apply Hnone|].
        repeat constructor.
      * right. exists msg. now split.
Qed.

(** ** The default optimization level (lines 394-404) *)

(** X14. An invocation without -O is the invocation with -O2: the blank
    the option is initialized with selects the level Default, the level of
    [2], and nothing else in the driver reads the option.  The two
    invocations end the same way and leave the same world. *)
Theorem default_level_is_O2
    (argv0 : string) (E : Env) (o : Options) (disk0 : gmap string string) :
  OptLevel o = " "%char ->
  OLvl_of (OptLevel o) = OLvl_of "2"
  /\ run_llc argv0 E o disk0 = run_llc argv0 E (with_OptLevel "2" o) disk0.
Proof.
  intros Hblank. split; [now rewrite Hblank|].
  unfold run_llc, llc_main.
  change (module_and_triple E (with_OptLevel "2" o))
    with (module_and_triple E o).
  destruct (module_and_triple E o) as [[mod_ T0]|Err]; [|reflexivity].
  change (MArch (with_OptLevel "2" o)) with (MArch o).
  destruct (lookupTarget E (MArch o) T0) as [[TheTarget TheTriple]|err];
    [|reflexivity].
  change (OptLevel (with_OptLevel "2" o)) with "2"%char.
  rewrite Hblank.
  change (OLvl_of " ") with (Some CodeGenOpt_Default).
  change (OLvl_of "2") with (Some CodeGenOpt_Default).
  cbv iota beta.
  change (createTargetMachine TheTarget TheTriple (MCPU (with_OptLevel "2" o))
            (FeaturesStr E TheTriple (MAttrs (with_OptLevel "2" o)))
            (make_TargetOptions (with_OptLevel "2" o))
            (RelocModel (with_OptLevel "2" o)) (CMModel (with_OptLevel "2" o))
            CodeGenOpt_Default)
    with (createTargetMachine TheTarget TheTriple (MCPU o)
            (FeaturesStr E TheTriple (MAttrs o)) (make_TargetOptions o)
            (RelocModel o) (CMModel o) CodeGenOpt_Default).
  destruct (createTargetMachine TheTarget TheTriple (MCPU o) _ _ _ _ _)
    as [target|]; [|reflexivity].
  destruct mod_ as [mod_|]; [|reflexivity].
  change (llc_codegen argv0 E (with_OptLevel "2" o) TheTarget TheTriple target
            mod_)
    with (llc_codegen argv0 E o TheTarget TheTriple target mod_).
  reflexivity.
Qed.

Lemma default_level_witness :
  run_llc "llc" demo_env llc_add ∅
  = run_llc "llc" demo_env (with_OptLevel "2" llc_add) ∅.
Proof.
  apply (default_level_is_O2 "llc" demo_env llc_add ∅ eq_refl).
Defined.

(** ** The pipeline that is assembled and run (lines 462-578) *)

(** A run of the assembled pipeline that fails: the invocation exits with
    code 1 after the events of the run, and the output is removed. *)
Lemma llc_codegen_run_failed
    (argv0 : string) (E : Env) (o : Options) (TheTarget : Target)
    (TheTriple : string) (target : TargetMachine) (mod_ : Module)
    (disk0 : gmap string string) (T : TargetMachine) (passes : list Pass)
    (evs : list Event) :
  let out := output_name E o TheTarget TheTriple in
  let r := llc_codegen argv0 E o TheTarget TheTriple target mod_
             (initial_world disk0) in
  let run := run_pipeline (LazyBitcode o) (ReduceMemoryFootprint o)
               (initial_PMState passes mod_) in
  let ran := EvOpen out (Binary (FileType o)) :: evs ++ pm_events run.2 in
  out = "-" \/ open_error E out = "" ->
  (forall w,
     assemble_pipeline argv0 E o TheTriple target mod_ w
     = (Ok (T, passes), log evs w)) ->
  run.1 = false ->
  r.1 = Stop (Exited 1)
  /\ trace r.2 = ran ++ erasure out
  /\ disk r.2 = (if String.eqb out "-" then disk0 else delete out disk0).
Proof.
  cbn zeta. unfold output_name.
  set (out := resolved_OutputFilename o (getName TheTarget)
                (Triple_getOS E TheTriple)).
  intros Hopened Hasm.
  remember (llc_codegen argv0 E o TheTarget TheTriple target mod_
              (initial_world disk0)) as r eqn:Hr.
  unfold llc_codegen in Hr. unfold mbind at 1, M_bind at 1 in Hr.
  rewrite (GetOutputStream_initial E o (getName TheTarget)
             (Triple_getOS E TheTriple) disk0) in Hr.
  fold out in Hr.
  destruct (String.eqb out "-") eqn:Hdash;
    [| destruct (String.eqb (open_error E out) "") eqn:Hopen ].
  3:{ exfalso. apply String.eqb_neq in Hdash, Hopen.
      destruct Hopened; contradiction. }
  all: unfold owning, mbind, M_bind in Hr; rewrite Hasm in Hr.
  all: unfold initial_PMState.
  all: destruct (run_pipeline _ _ _) as [[|] st]; cbn [fst snd negb] in *;
    intros Hfail; try discriminate.
  - subst r. unfold destroy, os_write, log, stop. cbn.
    rewrite Hdash. cbn. rewrite (erasure_dash out Hdash).
    repeat split; try same_events.
  - subst r. unfold destroy, os_write, log, stop.
    cbn -[bool_decide]. rewrite Hdash. cbn.
    rewrite (erasure_file out Hdash).
    repeat split; try same_events.
    rewrite alter_insert_eq. apply delete_insert_eq.
Qed.

(** C9. The pipeline the driver assembles and runs.  The manager first
    receives the library-call information (with every function disabled
    exactly when -disable-simplify-libcalls is given), then the target
    information, then the data layout (that of the target machine when it
    has one, that of the module otherwise); the target is then asked, with
    the pass ids of the command line, for its own stages, and the pipeline
    the driver hands to the run is these three stages followed by the
    stages of the target, in this order, and nothing else.  That pipeline
    is the one that runs over the module, and at the moment any stage
    executes every one of its passes has entered the manager.  When the
    target declines the file kind the invocation ends with exit code 1
    after the diagnostic; no stage has executed and no file is kept. *)
Theorem pipeline_order
    (argv0 : string) (E : Env) (o : Options) (TheTarget : Target)
    (TheTriple : string) (target : TargetMachine) (mod_ : Module)
    (disk0 : gmap string string) :
  let out := output_name E o TheTarget TheTriple in
  let PM := driver_passes o TheTriple target mod_ in
  let T := (configure_Target E o argv0 TheTriple target).1 in
  let warning := (configure_Target E o argv0 TheTriple target).2 in
  let asked := addPassesToEmitFile T PM (FileType o) (NoVerify o)
                 (registered_id E (StartAfter o))
                 (registered_id E (StopAfter o)) in
  let r := llc_codegen argv0 E o TheTarget TheTriple target mod_
             (initial_world disk0) in
  map pass_kind PM
  = [ TargetLibraryInfoPass TheTriple (DisableSimplifyLibCalls o);
      TargetTransformInfoPass;
      DataLayoutPass (match getDataLayout target with
                      | Some TD => TD
                      | None => mod_DataLayout mod_
                      end) ]
  /\ (forall w T' passes w',
        assemble_pipeline argv0 E o TheTriple target mod_ w
        = (Ok (T', passes), w') ->
        exists backend,
          asked = Some backend
          /\ T' = T
          /\ passes = PM ++ backend
          /\ w' = log (adds PM ++ warning ++ adds backend) w)
  /\ (forall backend,
        out = "-" \/ open_error E out = "" ->
        StartAfter o = "" \/ is_Some (getPassInfo E (StartAfter o)) ->
        StopAfter o = "" \/ is_Some (getPassInfo E (StopAfter o)) ->
        asked = Some backend ->
        let run := run_pipeline (LazyBitcode o) (ReduceMemoryFootprint o)
                     (initial_PMState (PM ++ backend) mod_) in
        let ran := EvOpen out (Binary (FileType o))
                   :: (adds PM ++ warning ++ adds backend)
                      ++ pm_events run.2 in
        (run.1 = false
         /\ r.1 = Stop (Exited 1)
         /\ trace r.2 = ran ++ erasure out)
        \/ (run.1 = true
            /\ r = write_metadata E o T (pm_module run.2) TheTriple
                     (code_kept out (pm_out run.2) ran disk0)))
  /\ (forall pre e post,
        trace r.2 = pre ++ e :: post ->
        is_pass_execution e = true ->
        exists backend,
          asked = Some backend
          /\ added pre = map pass_kind (PM ++ backend))
  /\ (asked = None ->
      r.1 = Stop (Exited 1)
      /\ Forall (fun e => is_pass_execution e = false /\ is_keep e = false)
           (trace r.2)
      /\ (out = "-" \/ open_error E out = "" ->
          StartAfter o = "" \/ is_Some (getPassInfo E (StartAfter o)) ->
          StopAfter o = "" \/ is_Some (getPassInfo E (StopAfter o)) ->
          trace r.2
          = EvOpen out (Binary (FileType o))
            :: adds PM ++ warning
               ++ [EvDiag (unsupported_file_type argv0)] ++ erasure out)).
Proof.
  cbn zeta. split; [reflexivity|].
  pose proof (configure_Target_warning E o argv0 TheTriple target) as Hwarn.
  set (r := llc_codegen argv0 E o TheTarget TheTriple target mod_
              (initial_world disk0)).
  set (T := (configure_Target E o argv0 TheTriple target).1) in *.
  set (warning := (configure_Target E o argv0 TheTriple target).2) in *.
  set (PM := driver_passes o TheTriple target mod_) in *.
  set (out := output_name E o TheTarget TheTriple) in *.
  set (asked := addPassesToEmitFile T PM (FileType o) (NoVerify o)
                  (registered_id E (StartAfter o))
                  (registered_id E (StopAfter o))).
  (* the assembly, by cases on the two names and the answer of the target *)
  assert (Hregistered : forall w,
            StartAfter o = "" \/ is_Some (getPassInfo E (StartAfter o)) ->
            StopAfter o = "" \/ is_Some (getPassInfo E (StopAfter o)) ->
            assemble_pipeline argv0 E o TheTriple target mod_ w
            = match asked with
              | Some backend =>
                  (Ok (T, PM ++ backend),
                   log (adds PM ++ warning ++ adds backend) w)
              | None =>
                  (Stop (Exited 1),
                   log (adds PM ++ warning
                        ++ [EvDiag (unsupported_file_type argv0)]) w)
              end).
  { intros w Hstart Hstop.
    destruct (assemble_pipeline_registered argv0 E o TheTriple target mod_ w
                Hstart Hstop) as [Hsome Hnone].
    fold T PM warning asked in Hsome, Hnone.
    destruct asked as [backend|]; [now apply Hsome | now apply Hnone]. }
  assert (Hstopped : forall msg,
            (forall w,
               assemble_pipeline argv0 E o TheTriple target mod_ w
               = (Stop (Exited 1),
                  log (adds PM ++ warning ++ [EvDiag msg]) w)) ->
            out = "-" \/ open_error E out = "" ->
            r.1 = Stop (Exited 1)
            /\ trace r.2
               = EvOpen out (Binary (FileType o))
                 :: adds PM ++ warning ++ [EvDiag msg] ++ erasure out
            /\ Forall (fun e => is_pass_execution e = false /\ is_keep e = false)
                 (trace r.2)).
  { intros msg Hasm Hopened.
    destruct (llc_codegen_not_assembled argv0 E o TheTarget TheTriple target
                mod_ disk0 msg Hopened Hasm) as (Hexit & Htrace & _).
    fold r out PM warning in Hexit, Htrace.
    split; [exact Hexit|]. split; [exact Htrace|].
    rewrite Htrace. constructor; [split; reflexivity|].
    repeat (apply Forall_app; split).
    - apply adds_plain.
    - eapply Forall_impl; [exact Hwarn|].
      intros e He. destruct e; cbn in *; try discriminate; auto.
    - repeat constructor.
    - eapply Forall_impl; [apply erasure_quiet|].
      intros e He. destruct e; cbn in *; try discriminate; auto. }
  assert (Hplain : forall l : list Event,
            Forall (fun e => is_pass_execution e = false /\ is_keep e = false) l ->
            forall pre e post,
              l = pre ++ e :: post -> is_pass_execution e = true -> False).
  { intros l Hl pre e post Heq He.
    eapply (no_such_event is_pass_execution); [|exact Heq|exact He].
    eapply Forall_impl; [exact Hl|]. now intros e' [? _]. }
  split; [|split].
  - (* what the assembly returns *)
    intros w T' passes w' Hasm.
    destruct (pass_name_cases E (StartAfter o)) as [Hstart | [Hne Hnone]].
    2:{ rewrite (assemble_pipeline_unregistered argv0 E o TheTriple target
                   mod_ w "start-after") in Hasm by (left; auto).
        discriminate. }
    destruct (pass_name_cases E (StopAfter o)) as [Hstop | [Hne Hnone]].
    2:{ rewrite (assemble_pipeline_unregistered argv0 E o TheTriple target
                   mod_ w "stop-after") in Hasm by (right; auto).
        discriminate. }
    rewrite (Hregistered w Hstart Hstop) in Hasm.
    destruct asked as [backend|]; [|discriminate].
    injection Hasm as <- <- <-. now exists backend.
  - (* the run of the assembled pipeline *)
    intros backend Hopened Hstart Hstop Hadd.
    assert (Hasm : forall w,
              assemble_pipeline argv0 E o TheTriple target mod_ w
              = (Ok (T, PM ++ backend),
                 log (adds PM ++ warning ++ adds backend) w)).
    { intros w. rewrite (Hregistered w Hstart Hstop), Hadd. reflexivity. }
    destruct (llc_codegen_assembled argv0 E o TheTarget TheTriple target mod_
                disk0 T (PM ++ backend) (adds PM ++ warning ++ adds backend)
                Hopened Hasm) as [(Hfail & _) | (Hok & Hr)].
    + left. split; [exact Hfail|].
      destruct (llc_codegen_run_failed argv0 E o TheTarget TheTriple target
                  mod_ disk0 T (PM ++ backend)
                  (adds PM ++ warning ++ adds backend) Hopened Hasm Hfail)
        as (Hexit & Htrace & _).
      now split.
    + right. now split.
  - (* every pass has entered before any stage executes; the decline *)
    destruct (llc_codegen_paths argv0 E o TheTarget TheTriple target mod_ disk0)
      as [(Hfile & Herr & Hexit & Htrace & _) | (Hopened & _)].
    { fold r out in Hexit, Htrace, Hfile, Herr.
      assert (Hall : Forall (fun e => is_pass_execution e = false
                                      /\ is_keep e = false) (trace r.2))
        by (rewrite Htrace; repeat constructor).
      split.
      - intros pre e post Heq He. exfalso. exact (Hplain _ Hall _ _ _ Heq He).
      - intros _. split; [exact Hexit|]. split; [exact Hall|].
        intros [Hdash | Hopen]; contradiction. }
    fold out in Hopened.
    destruct (pass_name_cases E (StartAfter o)) as [Hstart | [Hne Hnone]].
    2:{ destruct (Hstopped (not_registered argv0 "start-after"))
          as (Hexit & Htrace & Hall); [|exact Hopened|].
        { intros w. apply assemble_pipeline_unregistered. left. auto. }
        split.
        - intros pre e post Heq He. exfalso. exact (Hplain _ Hall _ _ _ Heq He).
        - intros _. split; [exact Hexit|]. split; [exact Hall|].
          intros _ [Heq | [id Hid]] _; congruence. }
    destruct (pass_name_cases E (StopAfter o)) as [Hstop | [Hne Hnone]].
    2:{ destruct (Hstopped (not_registered argv0 "stop-after"))
          as (Hexit & Htrace & Hall); [|exact Hopened|].
        { intros w. apply assemble_pipeline_unregistered. right. auto. }
        split.
        - intros pre e post Heq He. exfalso. exact (Hplain _ Hall _ _ _ Heq He).
        - intros _. split; [exact Hexit|]. split; [exact Hall|].
          intros _ _ [Heq | [id Hid]]; congruence. }
    destruct asked as [backend|] eqn:Hadd.
    2:{ destruct (Hstopped (unsupported_file_type argv0))
          as (Hexit & Htrace & Hall); [|exact Hopened|].
        { intros w. rewrite (Hregistered w Hstart Hstop). reflexivity. }
        split.
        - intros pre e post Heq He. exfalso. exact (Hplain _ Hall _ _ _ Heq He).
        - intros _. split; [exact Hexit|]. split; [exact Hall|].
          intros _ _ _. exact Htrace. }
    split; [|discriminate].
    intros pre e post Heq He. exists backend. split; [reflexivity|].
    assert (Hasm : forall w,
              assemble_pipeline argv0 E o TheTriple target mod_ w
              = (Ok (T, PM ++ backend),
                 log (adds PM ++ warning ++ adds backend) w)).
    { intros w. rewrite (Hregistered w Hstart Hstop). reflexivity. }
    pose proof (run_pipeline_events (LazyBitcode o) (ReduceMemoryFootprint o)
                  (PM ++ backend) mod_) as Hevents.
    set (run := run_pipeline (LazyBitcode o) (ReduceMemoryFootprint o)
                  (initial_PMState (PM ++ backend) mod_)) in *.
    set (opened := EvOpen out (Binary (FileType o))
                   :: adds PM ++ warning ++ adds backend).
    assert (Hopen_plain : Forall (fun e => is_pass_execution e = false) opened).
    { constructor; [reflexivity|]. repeat (apply Forall_app; split).
      - apply adds_not_execution.
      - now apply quiet_not_execution.
      - apply adds_not_execution. }
    assert (Hopen_added : added opened = map pass_kind (PM ++ backend)).
    { unfold opened.
      change (EvOpen out (Binary (FileType o))
              :: adds PM ++ warning ++ adds backend)
        with ([EvOpen out (Binary (FileType o))]
              ++ adds PM ++ warning ++ adds backend).
      rewrite !added_app, !added_adds.
      rewrite (added_none warning)
        by (eapply Forall_impl; [exact Hwarn | cbn; auto]).
      change (added [EvOpen out (Binary (FileType o))]) with (@nil PassKind).
      cbn [app]. now rewrite map_app. }
    assert (Hshape : exists rest,
               trace r.2 = opened ++ pm_events run.2 ++ rest
               /\ Forall (fun e => is_pass_execution e = false) rest).
    { destruct (llc_codegen_assembled argv0 E o TheTarget TheTriple target mod_
                  disk0 T (PM ++ backend) (adds PM ++ warning ++ adds backend)
                  Hopened Hasm) as [(Hfail & _) | (_ & Hr)].
      - destruct (llc_codegen_run_failed argv0 E o TheTarget TheTriple target
                    mod_ disk0 T (PM ++ backend)
                    (adds PM ++ warning ++ adds backend) Hopened Hasm Hfail)
          as (_ & Htrace & _).
        fold r out run in Htrace.
        exists (erasure out). split.
        + rewrite Htrace. unfold opened. cbn [app]. now rewrite <- !app_assoc.
        + apply quiet_not_execution, erasure_quiet.
      - fold r out run in Hr.
        match type of Hr with
        | _ = write_metadata ?e ?opts ?t ?m ?tr ?w =>
            destruct (write_metadata_trace e opts t m tr w)
              as (rest & Htrace & Hrest & _); [apply code_kept_fresh|]
        end.
        exists (EvKeep out :: rest). split.
        + rewrite Hr, Htrace, code_kept_trace. unfold opened. cbn [app].
          now rewrite <- !app_assoc.
        + constructor; [reflexivity | exact Hrest]. }
    destruct Hshape as (rest & Htrace & Hrest).
    rewrite Htrace in Heq.
    destruct (split_after is_pass_execution _ _ _ _ _ Heq He Hopen_plain)
      as (pre' & -> & Heq').
    destruct (split_before is_pass_execution _ _ _ _ _ Heq' He Hrest)
      as (post' & Hev).
    rewrite added_app, Hopen_added.
    rewrite (added_none pre'); [now rewrite app_nil_r|].
    rewrite Hev in Hevents. apply Forall_app in Hevents as [Hpre _].
    eapply Forall_impl; [exact Hpre | cbn; auto].
Qed.

Lemma pipeline_order_witness :
  (llc_codegen "llc" demo_env llc_null x86_target "i686-unknown-linux"
     x86_machine add_module (initial_world ∅)).1 = Stop (Exited 1)
  /\ trace (llc_codegen "llc" demo_env llc_null x86_target
              "i686-unknown-linux" x86_machine add_module (initial_world ∅)).2
     = [EvOpen "add.null" true;
        EvAdd (TargetLibraryInfoPass "i686-unknown-linux" false);
        EvAdd TargetTransformInfoPass;
        EvAdd (DataLayoutPass "e-p:32:32");
        EvDiag ("llc: target does not support generation of this file type!"
                +:+ nl);
        EvErase "add.null"].
Proof.
  destruct (pipeline_order "llc" demo_env llc_null x86_target
              "i686-unknown-linux" x86_machine add_module ∅)
    as (_ & _ & _ & _ & Hdecline).
  destruct (Hdecline eq_refl) as (Hexit & _ & Htrace).
  split; [exact Hexit|].
  rewrite Htrace; [reflexivity | right | left | left]; reflexivity.
Defined.
